(** * niimprint: the printer client of [printer.py]

    A shallow embedding of [PrinterClient] (packet draining, the
    request/response transceiver, the raster encoder, the status decoder and
    the print session) together with the properties the specification
    states about them.

    Python integers are unbounded, so they are modelled by [Z]; a [bytes] or
    [bytearray] value is a [list Z] whose elements the interpreter keeps in
    [0, 255].  Exceptions are values of [exn]; a computation of the client is
    a function from the client state to a [result]. *)

From Stdlib Require Import ZArith List String Ascii Bool Lia.
Import ListNotations.
Open Scope Z_scope.

(** ** Data *)

Definition bytes := list Z.

(** [len(b)] of Python, as an integer. *)
Definition len {A : Type} (l : list A) : Z := Z.of_nat (List.length l).

Definition is_byte (b : Z) : Prop := 0 <= b < 256.

(** The two fields of [NiimbotPacket] that [printer.py] reads and sets. *)
Record NiimbotPacket := mkPacket { type : Z; data : bytes }.

(** The exceptions that the modelled code can raise.  [EncodeError] and
    [DecodeError] stand for whatever [NiimbotPacket.to_bytes] and
    [NiimbotPacket.from_bytes] raise when they reject their argument. *)
Inductive exn :=
| ValueError
| NotImplementedError
| AssertionError
| AttributeError
| IndexError
| StructError
| OverflowError
| EncodeError
| DecodeError.

(** [class InfoEnum(enum.IntEnum)] *)
Inductive InfoEnum :=
| DENSITY | PRINTSPEED | LABELTYPE | LANGUAGETYPE | AUTOSHUTDOWNTIME
| DEVICETYPE | SOFTVERSION | BATTERY | DEVICESERIAL | HARDVERSION
| UNKNOWN_1 | UNKNOWN_2.

Definition info_value (k : InfoEnum) : Z :=
  match k with
  | DENSITY => 1
  | PRINTSPEED => 2
  | LABELTYPE => 3
  | LANGUAGETYPE => 6
  | AUTOSHUTDOWNTIME => 7
  | DEVICETYPE => 8
  | SOFTVERSION => 9
  | BATTERY => 10
  | DEVICESERIAL => 11
  | HARDVERSION => 12
  | UNKNOWN_1 => 13
  | UNKNOWN_2 => 15
  end.

(** [class RequestCodeEnum(enum.IntEnum)] *)
Inductive RequestCodeEnum :=
| GET_INFO | GET_RFID | HEARTBEAT | SET_LABEL_TYPE | SET_LABEL_DENSITY
| START_PRINT | END_PRINT | START_PAGE_PRINT | END_PAGE_PRINT
| ALLOW_PRINT_CLEAR | SET_DIMENSION | SET_QUANTITY | GET_PRINT_STATUS.

Definition request_code (c : RequestCodeEnum) : Z :=
  match c with
  | GET_INFO => 64
  | GET_RFID => 26
  | HEARTBEAT => 220
  | SET_LABEL_TYPE => 35
  | SET_LABEL_DENSITY => 33
  | START_PRINT => 1
  | END_PRINT => 243
  | START_PAGE_PRINT => 3
  | END_PAGE_PRINT => 227
  | ALLOW_PRINT_CLEAR => 32
  | SET_DIMENSION => 19
  | SET_QUANTITY => 21
  | GET_PRINT_STATUS => 163
  end.

(** ** The transport

    [BaseTransport] is a duplex byte channel.  The client never looks at the
    device except through [read], so a device is described by the chunks its
    successive [read] calls deliver; once they are used up a [read] returns
    the empty byte string (a read timeout).  [written] logs the [write]
    calls. *)
Record Transport := mkTransport {
  pending : list bytes;
  written : list bytes
}.

(** [read(length)]: at most [length] bytes of the next chunk. *)
Definition transport_read (length : Z) (t : Transport) : bytes * Transport :=
  match pending t with
  | [] => ([], t)
  | chunk :: rest =>
      let n := Z.to_nat length in
      (firstn n chunk,
       {| pending := match skipn n chunk with
                     | [] => rest
                     | later => later :: rest
                     end;
          written := written t |})
  end.

(** [write(data)] *)
Definition transport_write (d : bytes) (t : Transport) : Transport :=
  {| pending := pending t; written := written t ++ [d] |}.

(** ** The client state and its computations *)

(** What an observer of a session sees: a packet handed to the transport
    and a [time.sleep(0.1)].  [TimedOut] is no effect of the code: it marks
    in the trace the point where the polling loop of [_transceive] falls
    through with no reply, so that statements can say what happens after a
    timeout. *)
Inductive event :=
| Sent (p : NiimbotPacket)
| Slept
| TimedOut.

(** [self._transport] and [self._packetbuf], and the trace of the session. *)
Record Client := mkClient {
  _transport : Transport;
  _packetbuf : bytes;
  trace : list event
}.

(** [PrinterClient.__init__] *)
Definition new_client (t : Transport) : Client :=
  {| _transport := t; _packetbuf := []; trace := [] |}.

(** The outcome of running a method: it returns, it raises, or the loop
    budget of the model is used up before it does either. *)
Inductive result (A : Type) :=
| Ret (a : A) (s : Client)
| Raise (e : exn) (s : Client)
| OutOfFuel.
Arguments Ret {A} a s.
Arguments Raise {A} e s.
Arguments OutOfFuel {A}.

Definition M (A : Type) : Type := Client -> result A.

Definition ret {A} (a : A) : M A := fun s => Ret a s.
Definition raise {A} (e : exn) : M A := fun s => Raise e s.
Definition bind {A B} (m : M A) (f : A -> M B) : M B :=
  fun s =>
    match m s with
    | Ret a s' => f a s'
    | Raise e s' => Raise e s'
    | OutOfFuel => OutOfFuel
    end.

Declare Scope client_scope.
Delimit Scope client_scope with client.
Notation "x <- m ;; k" := (bind m (fun x => k))
  (at level 61, m at next level, right associativity) : client_scope.
Notation "m ;; k" := (bind m (fun _ => k))
  (at level 61, right associativity) : client_scope.
Open Scope client_scope.

(** Lifting a pure step that may raise. *)
Definition lift {A} (r : exn + A) : M A :=
  match r with
  | inl e => raise e
  | inr a => ret a
  end.

(** The state once [e] has been observed. *)
Definition after (e : event) (s : Client) : Client :=
  {| _transport := _transport s;
     _packetbuf := _packetbuf s;
     trace := trace s ++ [e] |}.

Definition log (e : event) : M unit := fun s => Ret tt (after e s).

(** [time.sleep(0.1)] *)
Definition sleep : M unit := log Slept.

(** [assert c] *)
Definition assertion (c : bool) : M unit :=
  if c then ret tt else raise AssertionError.

(** An optional value whose absence raises [e]. *)
Definition lift_opt {A} (e : exn) (o : option A) : M A :=
  match o with
  | None => raise e
  | Some a => ret a
  end.

(** [self._packetbuf] read and assigned. *)
Definition get_packetbuf : M bytes := fun s => Ret (_packetbuf s) s.

Definition set_packetbuf (b : bytes) : M unit :=
  fun s => Ret tt {| _transport := _transport s;
                     _packetbuf := b;
                     trace := trace s |}.

(** [self._transport.read(length)] *)
Definition read (length : Z) : M bytes :=
  fun s =>
    let (chunk, t) := transport_read length (_transport s) in
    Ret chunk {| _transport := t;
                 _packetbuf := _packetbuf s;
                 trace := trace s |}.

(** The state once [d] has been written to the transport. *)
Definition wrote (d : bytes) (s : Client) : Client :=
  {| _transport := transport_write d (_transport s);
     _packetbuf := _packetbuf s;
     trace := trace s |}.

(** [self._transport.write(d)] *)
Definition write (d : bytes) : M unit := fun s => Ret tt (wrote d s).

(** ** Library functions used by the client *)

(** [range(n)] *)
Definition range (n : Z) : list Z := map Z.of_nat (seq 0 (Z.to_nat n)).

(** [bytes((n,))]: one byte, [ValueError] outside [range(256)]. *)
Definition bytes1 (n : Z) : exn + bytes :=
  if (0 <=? n) && (n <? 256) then inr [n] else inl ValueError.

(** [struct.pack(">H", v)]: two bytes, most significant first. *)
Definition pack_H (v : Z) : exn + bytes :=
  if (0 <=? v) && (v <=? 65535) then inr [v / 256; v mod 256]
  else inl StructError.

(** [struct.pack(">B", v)] *)
Definition pack_B (v : Z) : exn + bytes :=
  if (0 <=? v) && (v <=? 255) then inr [v] else inl StructError.

Definition pack_cat (a b : exn + bytes) : exn + bytes :=
  match a with
  | inl e => inl e
  | inr x => match b with
             | inl e => inl e
             | inr y => inr (x ++ y)
             end
  end.

(** [struct.pack(">H3BB", y, c0, c1, c2, m)] *)
Definition pack_H3BB (y c0 c1 c2 m : Z) : exn + bytes :=
  pack_cat (pack_H y)
    (pack_cat (pack_B c0) (pack_cat (pack_B c1) (pack_cat (pack_B c2) (pack_B m)))).

(** [struct.pack(">HH", a, b)] *)
Definition pack_HH (a b : Z) : exn + bytes := pack_cat (pack_H a) (pack_H b).

(** [int.from_bytes(b, "big")] *)
Definition int_from_bytes (b : bytes) : Z :=
  fold_left (fun acc x => acc * 256 + x) b 0.

(** The [n] low base-256 digits of [v], most significant first. *)
Fixpoint big_endian (n : nat) (v : Z) : bytes :=
  match n with
  | O => []
  | S k => (v / 256 ^ Z.of_nat k) mod 256 :: big_endian k v
  end.

(** [v.to_bytes(n, "big")]: [OverflowError] when [v] is negative or does not
    fit in [n] bytes. *)
Definition int_to_bytes (v n : Z) : exn + bytes :=
  if (0 <=? v) && (v <? 256 ^ n) then inr (big_endian (Z.to_nat n) v)
  else inl OverflowError.

(** The digits of [int(s, 2)] read so far, for a string of ['0'] and ['1']. *)
Fixpoint base2_digits (s : string) (acc : Z) : exn + Z :=
  match s with
  | EmptyString => inr acc
  | String c rest =>
      if Ascii.eqb c "0"%char then base2_digits rest (2 * acc)
      else if Ascii.eqb c "1"%char then base2_digits rest (2 * acc + 1)
      else inl ValueError
  end.

(** [int(s, 2)] on the strings the encoder builds: the empty string is not a
    literal, and [int] raises [ValueError] on it. *)
Definition int_base2 (s : string) : exn + Z :=
  match s with
  | EmptyString => inl ValueError
  | _ => base2_digits s 0
  end.

(** [math.ceil(w / 8)] for a width [w >= 0]. *)
Definition ceil_div8 (w : Z) : Z := (w + 7) / 8.

(** A finite Python [float] that is not negative: the number
    [mantissa * 2 ^ exponent], with [2 ^ 52 <= mantissa < 2 ^ 53], or 0.0 as
    mantissa 0 and exponent 0. *)
Record float := mkFloat { mantissa : Z; exponent : Z }.

(** [a / b], the true division of an int [a >= 0] by an int [b > 0]: the
    quotient rounded to the nearest float, to the even mantissa in a tie,
    and [OverflowError] when that float would be 2 ^ 1024 or more.  The
    exponent [e] is the one at which the quotient has 53 binary digits
    before it is rounded.  A quotient that is not 0 is taken to lie above
    the subnormal range, as all quotients by 100 do. *)
Definition truediv (a b : Z) : exn + float :=
  if a =? 0 then inr (mkFloat 0 0)
  else
    let e0 := Z.log2 a - Z.log2 b - 52 in
    let quotient e :=
      if 0 <=? e then a / (b * 2 ^ e) else (a * 2 ^ (- e)) / b in
    let e := if quotient e0 <? 2 ^ 52 then e0 - 1 else e0 in
    let num := if 0 <=? e then a else a * 2 ^ (- e) in
    let den := if 0 <=? e then b * 2 ^ e else b in
    let q := num / den in
    let r := num mod den in
    let m := if (den <? 2 * r) || ((den =? 2 * r) && Z.odd q) then q + 1
             else q in
    let '(m, e) := if m =? 2 ^ 53 then (2 ^ 52, e + 1) else (m, e) in
    if 1024 <? e + 53 then inl OverflowError else inr (mkFloat m e).

(** ** Images

    A [PIL.Image] in mode ["L"]: its size and its grey levels, 0 (black) to
    255 (white). *)
Record Image := mkImage {
  width : Z;
  height : Z;
  getpixel : Z -> Z -> Z
}.

(** [image.convert("L")] of a greyscale image. *)
Definition convert_L (image : Image) : Image := image.

(** [ImageOps.invert] *)
Definition invert (image : Image) : Image :=
  {| width := width image;
     height := height image;
     getpixel := fun x y => 255 - getpixel image x y |}.

(** ["".join("0" if pix == 0 else "1" for pix in line_data)] *)
Fixpoint bit_string (line_data : list Z) : string :=
  match line_data with
  | [] => EmptyString
  | pix :: rest =>
      String (if pix =? 0 then "0"%char else "1"%char) (bit_string rest)
  end.

Definition ebind {A B} (r : exn + A) (f : A -> exn + B) : exn + B :=
  match r with
  | inl e => inl e
  | inr a => f a
  end.

(** ** Status and info replies *)

(** The dictionary returned by [get_print_status]. *)
Record PrintStatus := mkStatus {
  unknown0 : Z;
  idle : bool;
  progress1 : Z;
  progress2 : Z;
  unknown1 : Z;
  unknown2 : Z;
  error : bool;
  error_code : Z;
  open_paper_compartment : bool;
  unknown3 : Z;
  unknown4 : Z;
  unknown5 : Z
}.

(** [bool(n)] of an integer. *)
Definition truthy (n : Z) : bool := negb (n =? 0).

(** Lines 346 to 362 of [get_print_status]: [struct.unpack(">BBBBBBBBBB", _)]
    wants exactly ten bytes, then the assertion on [idle], then the
    dictionary. *)
Definition decode_print_status (d : bytes) : exn + PrintStatus :=
  match d with
  | [u0; idle_; p1; p2; u1; u2; err; u3; u4; u5] =>
      if (0 <=? idle_) && (idle_ <=? 1) then
        inr {| unknown0 := u0;
               idle := truthy idle_;
               progress1 := p1;
               progress2 := p2;
               unknown1 := u1;
               unknown2 := u2;
               error := truthy err;
               error_code := err;
               open_paper_compartment := err =? 1;
               unknown3 := u3;
               unknown4 := u4;
               unknown5 := u5 |}
      else inl AssertionError
  | _ => inl StructError
  end.

(** What [get_info] returns: the hexadecimal rendering of the payload (kept
    as the payload), the float that an integer divided by 100 gives, or an
    integer. *)
Inductive InfoValue :=
| InfoHex (payload : bytes)
| InfoFloat (x : float)
| InfoInt (n : Z).

(** [_packet_to_int] *)
Definition _packet_to_int (x : NiimbotPacket) : Z := int_from_bytes (data x).

(** The inner [for] loop of [_transceive] (lines 214 to 220): the frames of
    one drain pass are examined in order, [resp] being the candidate reply
    so far. *)
Fixpoint scan_packets (respcode : Z) (packets : list NiimbotPacket)
         (resp : option NiimbotPacket) : exn + option NiimbotPacket :=
  match packets with
  | [] => inr resp
  | packet :: rest =>
      if type packet =? 219 then inl ValueError
      else if type packet =? 0 then inl NotImplementedError
      else if type packet =? respcode then scan_packets respcode rest (Some packet)
      else scan_packets respcode rest resp
  end.

(** Line 208 of [_transceive]: the frame type a request waits for. *)
Definition respcode_of (reqcode respoffset : Z) : Z := respoffset + reqcode.

Section PrinterClient.

(** [packet.py] is not among the sources: [NiimbotPacket.to_bytes] and
    [NiimbotPacket.from_bytes] are parameters, [None] meaning that the
    call raises.  So is the dithering of [Image.convert("1")], a function
    of Pillow that keeps the size of the image and returns pixels 0 or
    255. *)
Variable to_bytes : NiimbotPacket -> option bytes.
Variable from_bytes : bytes -> option NiimbotPacket.
Variable dither : Z -> Z -> (Z -> Z -> Z) -> Z -> Z -> Z.

(** [image.convert("1")] *)
Definition convert_1 (image : Image) : Image :=
  {| width := width image;
     height := height image;
     getpixel := dither (width image) (height image) (getpixel image) |}.

(** [_log_buffer]: formats its argument for the debug log. *)
Definition _log_buffer (buff : bytes) : M unit := ret tt.

(** [_send] *)
Definition _send (packet : NiimbotPacket) : M unit :=
  buff <- lift_opt EncodeError (to_bytes packet) ;;
  write buff ;;
  log (Sent packet).

(** The [while] loop of [_recv]; [n] bounds the number of times its test
    is evaluated. *)
Fixpoint _recv_loop (n : nat) (packets : list NiimbotPacket)
  : M (list NiimbotPacket) :=
  match n with
  | O => fun _ => OutOfFuel
  | S n' =>
      buf <- get_packetbuf ;;
      if 4 <? len buf then
        let pkt_len := nth 3 buf 0 + 7 in
        if pkt_len <=? len buf then
          packet <- lift_opt DecodeError
                      (from_bytes (firstn (Z.to_nat pkt_len) buf)) ;;
          buff <- lift_opt EncodeError (to_bytes packet) ;;
          _log_buffer buff ;;
          set_packetbuf (skipn (Z.to_nat pkt_len) buf) ;;
          _recv_loop n' (packets ++ [packet])
        else _recv_loop n' packets
      else ret packets
  end.

(** [_recv] *)
Definition _recv (fuel : nat) : M (list NiimbotPacket) :=
  chunk <- read 1024 ;;
  buf <- get_packetbuf ;;
  set_packetbuf (buf ++ chunk) ;;
  _recv_loop fuel [].

(** The [for _ in range(6)] loop of [_transceive] with [attempts] rounds
    left, and the final [return resp], where the trace is marked when
    [resp] is still [None].  A [NiimbotPacket] is an object without
    [__bool__] or [__len__], so [if resp] asks whether [resp] is a
    packet. *)
Fixpoint _transceive_poll (fuel : nat) (attempts : nat) (respcode : Z)
         (resp : option NiimbotPacket) : M (option NiimbotPacket) :=
  match attempts with
  | O =>
      match resp with
      | None => log TimedOut ;; ret resp
      | Some _ => ret resp
      end
  | S k =>
      packets <- _recv fuel ;;
      resp <- lift (scan_packets respcode packets resp) ;;
      match resp with
      | Some _ => ret resp
      | None => sleep ;; _transceive_poll fuel k respcode resp
      end
  end.

(** [_transceive] *)
Definition _transceive (fuel : nat) (reqcode : Z) (data : bytes)
           (respoffset : Z) : M (option NiimbotPacket) :=
  let respcode := respcode_of reqcode respoffset in
  let packet := mkPacket reqcode data in
  buff <- lift_opt EncodeError (to_bytes packet) ;;
  _log_buffer buff ;;
  _send packet ;;
  _transceive_poll fuel 6 respcode None.

(** [packet.data] where [packet] may be [None]. *)
Definition data_of (packet : option NiimbotPacket) : M bytes :=
  match packet with
  | None => raise AttributeError
  | Some p => ret (data p)
  end.

(** [bool(d[0])] *)
Definition flag_of (d : bytes) : M bool :=
  match d with
  | [] => raise IndexError
  | b :: _ => ret (truthy b)
  end.

(** [get_info] *)
Definition get_info (fuel : nat) (key : Z) : M (option InfoValue) :=
  payload <- lift (bytes1 key) ;;
  packet <- _transceive fuel (request_code GET_INFO) payload key ;;
  match packet with
  | Some packet =>
      if key =? info_value DEVICESERIAL then ret (Some (InfoHex (data packet)))
      else if key =? info_value SOFTVERSION
           then x <- lift (truediv (_packet_to_int packet) 100) ;;
                ret (Some (InfoFloat x))
      else if key =? info_value HARDVERSION
           then x <- lift (truediv (_packet_to_int packet) 100) ;;
                ret (Some (InfoFloat x))
      else ret (Some (InfoInt (_packet_to_int packet)))
  | None => ret None
  end.

(** [set_label_type] *)
Definition set_label_type (fuel : nat) (n : Z) : M bool :=
  assertion ((1 <=? n) && (n <=? 3)) ;;
  payload <- lift (bytes1 n) ;;
  packet <- _transceive fuel (request_code SET_LABEL_TYPE) payload 16 ;;
  d <- data_of packet ;;
  flag_of d.

(** [set_label_density] *)
Definition set_label_density (fuel : nat) (n : Z) : M bool :=
  assertion ((1 <=? n) && (n <=? 5)) ;;
  payload <- lift (bytes1 n) ;;
  packet <- _transceive fuel (request_code SET_LABEL_DENSITY) payload 16 ;;
  d <- data_of packet ;;
  flag_of d.

(** [start_print] *)
Definition start_print (fuel : nat) : M bool :=
  packet <- _transceive fuel (request_code START_PRINT) [1] 1 ;;
  d <- data_of packet ;;
  flag_of d.

(** [end_print] *)
Definition end_print (fuel : nat) : M bool :=
  packet <- _transceive fuel (request_code END_PRINT) [1] 1 ;;
  d <- data_of packet ;;
  flag_of d.

(** [start_page_print] *)
Definition start_page_print (fuel : nat) : M bool :=
  packet <- _transceive fuel (request_code START_PAGE_PRINT) [1] 1 ;;
  d <- data_of packet ;;
  flag_of d.

(** [end_page_print] *)
Definition end_page_print (fuel : nat) : M bool :=
  packet <- _transceive fuel (request_code END_PAGE_PRINT) [1] 1 ;;
  d <- data_of packet ;;
  flag_of d.

(** [set_dimension] *)
Definition set_dimension (fuel : nat) (w h : Z) : M bool :=
  payload <- lift (pack_HH w h) ;;
  packet <- _transceive fuel (request_code SET_DIMENSION) payload 1 ;;
  d <- data_of packet ;;
  flag_of d.

(** [get_print_status] *)
Definition get_print_status (fuel : nat) : M PrintStatus :=
  packet <- _transceive fuel (request_code GET_PRINT_STATUS) [1] 16 ;;
  d <- data_of packet ;;
  lift (decode_print_status d).

(** One round of the generator [_encode_image]: the packet of row [y] of
    the bilevel image [img]. *)
Definition _encode_row (img : Image) (y : Z) : exn + NiimbotPacket :=
  let line_data := map (fun x => getpixel img x y) (range (width img)) in
  let line_data := bit_string line_data in
  ebind (int_base2 line_data) (fun v =>
  ebind (int_to_bytes v (ceil_div8 (width img))) (fun line_data =>
  ebind (pack_H3BB y 0 0 0 1) (fun header =>
  inr (mkPacket 133 (header ++ line_data))))).

(** The [for y in range(img.height)] loop of the generator, [ys] being the
    rows still to come: what the generator gives to the loop that consumes
    it, a packet for each row it yields and, when the computation of a row
    raises, that exception as the last item, since a generator that has
    raised is finished. *)
Fixpoint encode_rows (img : Image) (ys : list Z) : list (exn + NiimbotPacket) :=
  match ys with
  | [] => []
  | y :: rest =>
      match _encode_row img y with
      | inl e => [inl e]
      | inr pkt => inr pkt :: encode_rows img rest
      end
  end.

(** [_encode_image] *)
Definition _encode_image (image : Image) : list (exn + NiimbotPacket) :=
  let img := convert_1 (invert (convert_L image)) in
  encode_rows img (range (height img)).

(** [for pkt in self._encode_image(image): self._send(pkt)] *)
Fixpoint send_rows (rows : list (exn + NiimbotPacket)) : M unit :=
  match rows with
  | [] => ret tt
  | row :: rest =>
      pkt <- lift row ;;
      _send pkt ;;
      send_rows rest
  end.

(** The [while True] loop of [print_image] (lines 169 to 172). *)
Fixpoint wait_idle (fuel : nat) (n : nat) : M unit :=
  match n with
  | O => fun _ => OutOfFuel
  | S k =>
      printer_status <- get_print_status fuel ;;
      if idle printer_status then ret tt else wait_idle fuel k
  end.

(** [while not self.end_print(): time.sleep(0.1)] *)
Fixpoint end_print_retry (fuel : nat) (n : nat) : M unit :=
  match n with
  | O => fun _ => OutOfFuel
  | S k =>
      done <- end_print fuel ;;
      if negb done then sleep ;; end_print_retry fuel k else ret tt
  end.

(** [print_image] *)
Definition print_image (fuel : nat) (image : Image) (density : Z) : M unit :=
  set_label_density fuel density ;;
  set_label_type fuel 1 ;;
  start_print fuel ;;
  start_page_print fuel ;;
  set_dimension fuel (height image) (width image) ;;
  send_rows (_encode_image image) ;;
  end_page_print fuel ;;
  wait_idle fuel fuel ;;
  end_print_retry fuel fuel.

End PrinterClient.

(** ** A reference codec and a reference dithering

    Concrete instances of the parameters, on which the client can be run. *)

(** Modelled from the spec: [packet.py] ([NiimbotPacket.to_bytes] and
    [NiimbotPacket.from_bytes]) is not among the sources.  Section 6 fixes
    the length byte at offset 3 and a frame of [L + 7] bytes; sections 3 and
    4.1 name header markers, the payload, a checksum over the payload and
    trailer markers.  The frame below is: two header bytes 85, the type, the
    length, the payload, the exclusive or of the payload bytes, two trailer
    bytes 170. *)
Definition checksum (d : bytes) : Z := fold_left Z.lxor d 0.

Definition all_bytes (d : bytes) : bool :=
  forallb (fun b => (0 <=? b) && (b <? 256)) d.

Definition ref_to_bytes (p : NiimbotPacket) : option bytes :=
  if (0 <=? type p) && (type p <? 256) && (len (data p) <? 256)
     && all_bytes (data p)
  then Some ([85; 85; type p; len (data p)] ++ data p
               ++ [checksum (data p); 170; 170])
  else None.

Definition ref_from_bytes (b : bytes) : option NiimbotPacket :=
  match b with
  | 85 :: 85 :: t :: l :: rest =>
      let d := firstn (Z.to_nat l) rest in
      match skipn (Z.to_nat l) rest with
      | [c; 170; 170] =>
          if (c =? checksum d) && (len d =? l) then Some (mkPacket t d)
          else None
      | _ => None
      end
  | _ => None
  end.

(** Bilevel conversion by a fixed threshold, without error diffusion. *)
Definition threshold (w h : Z) (px : Z -> Z -> Z) (x y : Z) : Z :=
  if 128 <? px x y then 255 else 0.

(** The frame of a packet under the reference codec. *)
Definition frame (t : Z) (d : bytes) : bytes :=
  match ref_to_bytes (mkPacket t d) with
  | Some b => b
  | None => []
  end.

(** A device whose successive reads deliver [chunks]. *)
Definition device (chunks : list bytes) : Transport :=
  {| pending := chunks; written := [] |}.

(** ** Inputs and predicates of the statements *)

(** The 8 by 1 images of the raster examples: white is grey level 255. *)
Definition white_1x8 : Image :=
  {| width := 8; height := 1; getpixel := fun _ _ => 255 |}.

Definition black_1x8 : Image :=
  {| width := 8; height := 1; getpixel := fun _ _ => 0 |}.

(** A pixel buffer that is already black and white. *)
Definition two_level (px : Z -> Z -> Z) : Prop :=
  forall x y, px x y = 0 \/ px x y = 255.

(** Error diffusion has nothing to diffuse on a black and white buffer: the
    conversion returns it as it is. *)
Definition keeps_two_level (dither : Z -> Z -> (Z -> Z -> Z) -> Z -> Z -> Z)
  : Prop :=
  forall w h px, two_level px -> forall x y, dither w h px x y = px x y.

(** What [get_info] makes of the reply to a request for [key]: the value it
    returns, or the exception of the division for the two version keys. *)
Definition info_of (key : Z) (packet : NiimbotPacket) : exn + InfoValue :=
  if (key =? info_value SOFTVERSION) || (key =? info_value HARDVERSION)
  then ebind (truediv (_packet_to_int packet) 100) (fun x => inr (InfoFloat x))
  else if key =? info_value DEVICESERIAL then inr (InfoHex (data packet))
  else inr (InfoInt (_packet_to_int packet)).

(** The status payload of the decoding example. *)
Definition status_example : bytes := [0; 0; 1; 5; 10; 0; 0; 0; 0; 0].

(** A device that delivers [stream] one byte per read. *)
Definition drip (stream : bytes) : Transport :=
  device (map (fun b => [b]) stream).

(** [k] successive calls of [_recv], with their results. *)
Fixpoint recv_calls (to_bytes : NiimbotPacket -> option bytes)
         (from_bytes : bytes -> option NiimbotPacket)
         (fuel : nat) (k : nat) : M (list (list NiimbotPacket)) :=
  match k with
  | O => ret []
  | S k' =>
      batch <- _recv to_bytes from_bytes fuel ;;
      more <- recv_calls to_bytes from_bytes fuel k' ;;
      ret (batch :: more)
  end.

(** The state in which [_send packet] leaves [s] when the frame of [packet]
    is [buff]. *)
Definition handed (packet : NiimbotPacket) (buff : bytes) (s : Client)
  : Client :=
  after (Sent packet) (wrote buff s).

(** A frame that is neither the protocol error (219) nor the "unsupported"
    signal (0). *)
Definition not_error (p : NiimbotPacket) : Prop :=
  type p <> 219 /\ type p <> 0.

(** A frame that has nothing to do with the request under way. *)
Definition unrelated (respcode : Z) (p : NiimbotPacket) : Prop :=
  type p <> 219 /\ type p <> 0 /\ type p <> respcode.

(** The frames that the scan of [_transceive] reacts to. *)
Definition relevant (respcode : Z) (p : NiimbotPacket) : bool :=
  (type p =? 219) || (type p =? 0) || (type p =? respcode).

(** ** Traces *)

(** Every event that [m] adds to the trace satisfies [P]. *)
Definition emits {A} (P : event -> Prop) (m : M A) : Prop :=
  forall s,
    match m s with
    | Ret _ s' | Raise _ s' =>
        exists evs, trace s' = trace s ++ evs /\ Forall P evs
    | OutOfFuel => True
    end.






(** No raster row among the packets sent. *)
Definition no_row (e : event) : Prop :=
  forall p, e = Sent p -> type p <> 133.

(** [n] rounds of the polling loop lead from [s] to [s'], each drain pass
    returning only frames unrelated to the request, each followed by the
    100 ms sleep. *)
Fixpoint silent_polls (to_bytes : NiimbotPacket -> option bytes)
         (from_bytes : bytes -> option NiimbotPacket)
         (fuel : nat) (respcode : Z) (n : nat) (s s' : Client) : Prop :=
  match n with
  | O => s' = s
  | S k =>
      exists batch s1,
        _recv to_bytes from_bytes fuel s = Ret batch s1 /\
        Forall (unrelated respcode) batch /\
        silent_polls to_bytes from_bytes fuel respcode k (after Slept s1) s'
  end.

(** ** Replies and stages of a session, for the statements *)

(** The chunk [fr] is one whole frame, which the codec decodes to [p] and
    can encode again (the debug log of [_recv] does). *)
Definition carries (to_bytes : NiimbotPacket -> option bytes)
           (from_bytes : bytes -> option NiimbotPacket)
           (fr : bytes) (p : NiimbotPacket) : Prop :=
  4 < len fr /\ len fr <= 1024 /\ nth 3 fr 0 + 7 = len fr /\
  from_bytes fr = Some p /\ to_bytes p <> None.

(** The call [tx] returned, from [s] to [s'], a reply whose first payload
    byte makes the flag [a]. *)
Definition reported (tx : M (option NiimbotPacket)) (s : Client) (a : bool)
           (s' : Client) : Prop :=
  exists p x rest,
    tx s = Ret (Some p) s' /\ data p = x :: rest /\ a = truthy x.

(** [print_image] from [start_page_print] on (lines 162 to 175). *)
Definition print_page (to_bytes : NiimbotPacket -> option bytes)
           (from_bytes : bytes -> option NiimbotPacket)
           (dither : Z -> Z -> (Z -> Z -> Z) -> Z -> Z -> Z)
           (fuel : nat) (image : Image) : M unit :=
  start_page_print to_bytes from_bytes fuel ;;
  set_dimension to_bytes from_bytes fuel (height image) (width image) ;;
  send_rows to_bytes (_encode_image dither image) ;;
  end_page_print to_bytes from_bytes fuel ;;
  wait_idle to_bytes from_bytes fuel fuel ;;
  end_print_retry to_bytes from_bytes fuel fuel.

(** [print_image] up to the end of the status poll (lines 158 to 172). *)
Definition print_until_idle (to_bytes : NiimbotPacket -> option bytes)
           (from_bytes : bytes -> option NiimbotPacket)
           (dither : Z -> Z -> (Z -> Z -> Z) -> Z -> Z -> Z)
           (fuel : nat) (image : Image) (density : Z) : M unit :=
  set_label_density to_bytes from_bytes fuel density ;;
  set_label_type to_bytes from_bytes fuel 1 ;;
  start_print to_bytes from_bytes fuel ;;
  start_page_print to_bytes from_bytes fuel ;;
  set_dimension to_bytes from_bytes fuel (height image) (width image) ;;
  send_rows to_bytes (_encode_image dither image) ;;
  end_page_print to_bytes from_bytes fuel ;;
  wait_idle to_bytes from_bytes fuel fuel.

(** The end-print request, and the trace of [n] refused attempts followed by
    the accepted one. *)
Definition end_print_request : NiimbotPacket :=
  mkPacket (request_code END_PRINT) [1].

Definition retries (n : nat) : list event :=
  List.concat (repeat [Sent end_print_request; Slept] n)
    ++ [Sent end_print_request].

(** ** Example devices *)

(** An image with no column. *)
Definition no_columns : Image :=
  {| width := 0; height := 2; getpixel := fun _ _ => 255 |}.

(** The ten status bytes of a printer that is idle and reports no error. *)
Definition idle_status : bytes := [0; 1; 0; 0; 0; 0; 0; 0; 0; 0].

(** A device that answers every command of a session, each reply in a read
    of its own; [f1], [f2] and [f3] are the flags it reports for the label
    density, the label type and the start of the print, and it refuses the
    end of the print once before it accepts it. *)
Definition answering (f1 f2 f3 : Z) : Transport :=
  device [frame 49 [f1]; frame 51 [f2]; frame 2 [f3]; frame 4 [1];
          frame 20 [1]; frame 228 [1]; frame 179 idle_status;
          frame 244 [0]; frame 244 [1]].

(** One read that brings four frames: an unrelated one, two replies to
    [START_PRINT], and another unrelated one. *)
Definition crowded : Transport :=
  device [frame 221 [9] ++ frame 2 [0] ++ frame 2 [1] ++ frame 220 [7]].

(** One read that brings a reply and then an error frame of type [t]. *)
Definition failing (t : Z) : Transport :=
  device [frame 2 [1] ++ frame t [1]].

(** The state after a request [packet], of frame [buff], was sent from [s]
    and its reply was read, [rest] being the reads still to come. *)
Definition replied (packet : NiimbotPacket) (buff : bytes) (rest : list bytes)
           (s : Client) : Client :=
  {| _transport := {| pending := rest;
                      written := written (_transport s) ++ [buff] |};
     _packetbuf := [];
     trace := trace s ++ [Sent packet] |}.

(** ** The loop budget *)

(** A run that has returned or raised. *)
Definition finished {A} (r : result A) : Prop := r <> OutOfFuel.

(** A method whose finished runs do not depend on the budget: a larger one
    gives the same result. *)
Definition budget_free {A} (m : nat -> M A) : Prop :=
  forall n n' s, (n <= n')%nat -> finished (m n s) -> m n' s = m n s.

(** ** The other commands of the client *)

(** The dictionary returned by [heartbeat]; [None] is Python's [None]. *)
Record Heartbeat := mkHeartbeat {
  closingstate : option Z;
  powerlevel : option Z;
  paperstate : option Z;
  rfidreadstate : option Z
}.

(** [d[i]] for an index [i >= 0]: [IndexError] past the end. *)
Definition getitem (d : bytes) (i : Z) : exn + Z :=
  match nth_error d (Z.to_nat i) with
  | Some b => inr b
  | None => inl IndexError
  end.

(** Lines 271 to 302 of [heartbeat]: the [match] on the length of the
    payload, its cases in the order of the source, each field read by an
    index into the payload. *)
Definition heartbeat_fields (d : bytes) : exn + Heartbeat :=
  if len d =? 20 then
    ebind (getitem d 18) (fun paper =>
    ebind (getitem d 19) (fun rfid =>
    inr {| closingstate := None; powerlevel := None;
           paperstate := Some paper; rfidreadstate := Some rfid |}))
  else if len d =? 13 then
    ebind (getitem d 9) (fun closing =>
    ebind (getitem d 10) (fun power =>
    ebind (getitem d 11) (fun paper =>
    ebind (getitem d 12) (fun rfid =>
    inr {| closingstate := Some closing; powerlevel := Some power;
           paperstate := Some paper; rfidreadstate := Some rfid |}))))
  else if len d =? 19 then
    ebind (getitem d 15) (fun closing =>
    ebind (getitem d 16) (fun power =>
    ebind (getitem d 17) (fun paper =>
    ebind (getitem d 18) (fun rfid =>
    inr {| closingstate := Some closing; powerlevel := Some power;
           paperstate := Some paper; rfidreadstate := Some rfid |}))))
  else if len d =? 10 then
    ebind (getitem d 8) (fun closing =>
    ebind (getitem d 9) (fun power =>
    ebind (getitem d 8) (fun rfid =>
    inr {| closingstate := Some closing; powerlevel := Some power;
           paperstate := None; rfidreadstate := Some rfid |})))
  else if len d =? 9 then
    ebind (getitem d 8) (fun closing =>
    inr {| closingstate := Some closing; powerlevel := None;
           paperstate := None; rfidreadstate := None |})
  else
    inr {| closingstate := None; powerlevel := None;
           paperstate := None; rfidreadstate := None |}.

(** The dictionary returned by [get_rfid].  [uuid] is kept as the bytes that
    [hex()] renders; [type_] is the entry under the key ["type"]. *)
Record Rfid := mkRfid {
  uuid : bytes;
  barcode : string;
  serial : string;
  used_len : Z;
  total_len : Z;
  type_ : Z
}.

(** [d[i:j]] for [0 <= i <= j]: a slice never raises, it is cut at the end
    of [d]. *)
Definition slice (d : bytes) (i j : Z) : bytes :=
  firstn (Z.to_nat (j - i)) (skipn (Z.to_nat i) d).

(** [d[i:]] *)
Definition slice_from (d : bytes) (i : Z) : bytes := skipn (Z.to_nat i) d.

(** [struct.unpack(">HHB", d)]: exactly five bytes. *)
Definition unpack_HHB (d : bytes) : exn + (Z * Z * Z) :=
  match d with
  | [a; b; c; e; f] => inr (a * 256 + b, c * 256 + e, f)
  | _ => inl StructError
  end.

Section OtherCommands.

(** The codec as before, and [bytes.decode()], the UTF-8 decoding of
    Python: [None] when it raises [UnicodeDecodeError], which is a
    [ValueError]. *)
Variable to_bytes : NiimbotPacket -> option bytes.
Variable from_bytes : bytes -> option NiimbotPacket.
Variable decode : bytes -> option string.

(** Lines 242 to 267 of [get_rfid], on the payload of the reply. *)
Definition parse_rfid (data : bytes) : exn + option Rfid :=
  ebind (getitem data 0) (fun first =>
  if first =? 0 then inr None
  else
    let uuid := slice data 0 8 in
    let idx := 8 in
    ebind (getitem data idx) (fun barcode_len =>
    let idx := idx + 1 in
    match decode (slice data idx (idx + barcode_len)) with
    | None => inl ValueError
    | Some barcode =>
        let idx := idx + barcode_len in
        ebind (getitem data idx) (fun serial_len =>
        let idx := idx + 1 in
        match decode (slice data idx (idx + serial_len)) with
        | None => inl ValueError
        | Some serial =>
            let idx := idx + serial_len in
            ebind (unpack_HHB (slice_from data idx)) (fun '(total_len, used_len, type_) =>
            inr (Some {| uuid := uuid;
                         barcode := barcode;
                         serial := serial;
                         used_len := used_len;
                         total_len := total_len;
                         type_ := type_ |}))
        end)
    end)).

(** [get_rfid] *)
Definition get_rfid (fuel : nat) : M (option Rfid) :=
  packet <- _transceive to_bytes from_bytes fuel (request_code GET_RFID) [1] 1 ;;
  data <- data_of packet ;;
  lift (parse_rfid data).

(** [heartbeat] *)
Definition heartbeat (fuel : nat) : M Heartbeat :=
  packet <- _transceive to_bytes from_bytes fuel (request_code HEARTBEAT) [1] 1 ;;
  d <- data_of packet ;;
  lift (heartbeat_fields d).

(** [allow_print_clear] *)
Definition allow_print_clear (fuel : nat) : M bool :=
  packet <- _transceive to_bytes from_bytes fuel
              (request_code ALLOW_PRINT_CLEAR) [1] 16 ;;
  d <- data_of packet ;;
  flag_of d.

(** [set_quantity] *)
Definition set_quantity (fuel : nat) (n : Z) : M bool :=
  payload <- lift (pack_H n) ;;
  packet <- _transceive to_bytes from_bytes fuel
              (request_code SET_QUANTITY) payload 1 ;;
  d <- data_of packet ;;
  flag_of d.

End OtherCommands.

(** ** Detection of the serial port and of the model

    [SerialTransport._detect_port_and_model].  A Python [str] is a [string];
    the method only searches it for ASCII text and cuts it there. *)
Module SerialTransport.

(** The attributes of a [ListPortInfo] that the method reads outside its
    verbose printing; [serial_number] is [None] for a port without one. *)
Record ListPortInfo := mkPort {
  device : string;
  hwid : string;
  serial_number : option string
}.

(** An entry of [detected_devices]. *)
Record Detected := mkDetected {
  detected_device : string;
  detected_model : string;
  detected_serial_number : string
}.

(** [self._model], [self._port] and [self._serial_number]. *)
Record Self := mkSelf {
  _model : string;
  _port : string;
  _serial_number : option string
}.

(** What the method raises: one of its three [RuntimeError]s, the
    [NameError] of line 96, or the [AttributeError] of [None.find]. *)
Inductive failure :=
| NoSerialPorts
| NoSupportedDevices
| MultipleSupportedDevices (detected_devices : list Detected).

Inductive raised :=
| RuntimeError (what : failure)
| NameError
| AttributeError.

(** [s.find(c)] for a one-character [c]: the first position, or -1. *)
Fixpoint find (c : ascii) (s : string) : Z :=
  match s with
  | EmptyString => -1
  | String a rest =>
      if Ascii.eqb a c then 0
      else let i := find c rest in
           if i =? -1 then -1 else i + 1
  end.

(** [s[:n]] for [n >= 0]. *)
Definition upto (n : Z) (s : string) : string := substring 0 (Z.to_nat n) s.

(** [needle in hay] *)
Fixpoint contains (needle hay : string) : bool :=
  String.prefix needle hay ||
  match hay with
  | EmptyString => false
  | String _ rest => contains needle rest
  end.

Section Detection.

(** [str.lower], the keys of [supported_models] ([printer_models.py] is not
    among the sources) and the result of [comports()]. *)
Variable lower : string -> string.
Variable supported_models : list string.
Variable comports : list ListPortInfo.

(** [m in supported_models.keys()] *)
Definition supported (m : string) : bool :=
  existsb (String.eqb m) supported_models.

(** The [for] loop of lines 104 to 126, [detected_devices] being the list
    built so far. *)
Fixpoint scan_ports (com_ports : list ListPortInfo)
         (detected_devices : list Detected) : raised + list Detected :=
  match com_ports with
  | [] => inr detected_devices
  | p :: rest =>
      if contains "USB" (hwid p) then
        match serial_number p with
        | None => inl AttributeError
        | Some sn =>
            let model_pos := find "-"%char sn in
            if model_pos =? -1 then scan_ports rest detected_devices
            else
              let model := upto model_pos sn in
              if supported (lower model) then
                scan_ports rest
                  (detected_devices ++
                   [{| detected_device := device p;
                       detected_model := model;
                       detected_serial_number := sn |}])
              else scan_ports rest detected_devices
        end
      else scan_ports rest detected_devices
  end.

(** [_detect_port_and_model]: the fields of [self] afterwards, and whether
    the warning of line 140 was logged. *)
Definition _detect_port_and_model (self : Self) : raised + (Self * bool) :=
  let com_ports := comports in
  if negb (String.eqb (_port self) "auto") && negb (String.eqb (_model self) "auto")
  then inr (self, false)
  else if String.eqb (_port self) "auto" then
    let com_ports := comports in
    match com_ports with
    | [] => inl (RuntimeError NoSerialPorts)
    | _ =>
        match scan_ports com_ports [] with
        | inl e => inl e
        | inr [] => inl (RuntimeError NoSupportedDevices)
        | inr [d] =>
            let m := lower (detected_model d) in
            let self' model :=
              {| _model := model;
                 _port := detected_device d;
                 _serial_number := Some (detected_serial_number d) |} in
            if String.eqb (_model self) "auto" then inr (self' m, false)
            else if negb (String.eqb (_model self) m)
                 then inr (self' (_model self), true)
                 else inr (self' (_model self), false)
        | inr detected_devices =>
            inl (RuntimeError (MultipleSupportedDevices detected_devices))
        end
    end
  else inl NameError.

End Detection.

End SerialTransport.

(** ** Predicates of the further statements *)

(** The state in which a call of [_recv] leaves [s] when it finishes: the
    transport after the read, and [buf] in the receive buffer. *)
Definition drained (s : Client) (buf : bytes) : Client :=
  {| _transport := snd (transport_read 1024 (_transport s));
     _packetbuf := buf;
     trace := trace s |}.

(** The bytes that a call of [_recv] on [s] works on: the buffer followed by
    what the read brings. *)
Definition incoming (s : Client) : bytes :=
  _packetbuf s ++ fst (transport_read 1024 (_transport s)).

(** [fr] is cut off the buffer as a frame and decodes to [p]. *)
Definition cut_as (from_bytes : bytes -> option NiimbotPacket)
           (fr : bytes) (p : NiimbotPacket) : Prop :=
  len fr = nth 3 fr 0 + 7 /\ from_bytes fr = Some p.

(** [fr] is a whole frame lying at the head of a buffer: more than four
    bytes, as long as its length byte says. *)
Definition whole_frame (fr : bytes) : Prop :=
  4 < len fr /\ nth 3 fr 0 + 7 = len fr.

(** [tail] is the beginning of a frame, more than four bytes of it, the
    frame not being complete. *)
Definition broken_frame (tail : bytes) : Prop :=
  4 < len tail /\ len tail < nth 3 tail 0 + 7.

(** The commands that return the flag of their reply, with their
    arguments. *)
Inductive FlagCommand :=
| SetLabelType (n : Z)
| SetLabelDensity (n : Z)
| StartPrint
| EndPrint
| StartPagePrint
| EndPagePrint
| AllowPrintClear
| SetDimension (w h : Z)
| SetQuantity (n : Z).

(** The method of the client that a [FlagCommand] names. *)
Definition run_command (to_bytes : NiimbotPacket -> option bytes)
           (from_bytes : bytes -> option NiimbotPacket)
           (cmd : FlagCommand) (fuel : nat) : M bool :=
  match cmd with
  | SetLabelType n => set_label_type to_bytes from_bytes fuel n
  | SetLabelDensity n => set_label_density to_bytes from_bytes fuel n
  | StartPrint => start_print to_bytes from_bytes fuel
  | EndPrint => end_print to_bytes from_bytes fuel
  | StartPagePrint => start_page_print to_bytes from_bytes fuel
  | EndPagePrint => end_page_print to_bytes from_bytes fuel
  | AllowPrintClear => allow_print_clear to_bytes from_bytes fuel
  | SetDimension w h => set_dimension to_bytes from_bytes fuel w h
  | SetQuantity n => set_quantity to_bytes from_bytes fuel n
  end.

(** The arguments that a command accepts. *)
Definition accepted_arguments (cmd : FlagCommand) : Prop :=
  match cmd with
  | SetLabelType n => 1 <= n <= 3
  | SetLabelDensity n => 1 <= n <= 5
  | SetDimension w h => 0 <= w <= 65535 /\ 0 <= h <= 65535
  | SetQuantity n => 0 <= n <= 65535
  | _ => True
  end.

(** The table of the protocol as the statements give it: the packet that a
    command sends, and the frame type of its reply. *)
Definition request_packet (cmd : FlagCommand) : NiimbotPacket :=
  match cmd with
  | SetLabelType n => mkPacket 35 [n]
  | SetLabelDensity n => mkPacket 33 [n]
  | StartPrint => mkPacket 1 [1]
  | EndPrint => mkPacket 243 [1]
  | StartPagePrint => mkPacket 3 [1]
  | EndPagePrint => mkPacket 227 [1]
  | AllowPrintClear => mkPacket 32 [1]
  | SetDimension w h => mkPacket 19 [w / 256; w mod 256; h / 256; h mod 256]
  | SetQuantity n => mkPacket 21 [n / 256; n mod 256]
  end.

Definition reply_code (cmd : FlagCommand) : Z :=
  match cmd with
  | SetLabelType _ => 51
  | SetLabelDensity _ => 49
  | StartPrint => 2
  | EndPrint => 244
  | StartPagePrint => 4
  | EndPagePrint => 228
  | AllowPrintClear => 48
  | SetDimension _ _ => 20
  | SetQuantity _ => 22
  end.

(** The fields of a heartbeat that are reported, as a list. *)
Definition reported_fields (h : Heartbeat) : list Z :=
  let some o := match o with Some v => [v] | None => [] end in
  some (closingstate h) ++ some (powerlevel h) ++ some (paperstate h)
    ++ some (rfidreadstate h).

(** The payload of a tag description: eight bytes of identifier, the
    barcode and the serial number each behind its length, then two 16-bit
    counters and a type byte. *)
Definition rfid_payload (uuid barcode serial : bytes) (total used type_ : Z)
  : bytes :=
  uuid ++ [len barcode] ++ barcode ++ [len serial] ++ serial
    ++ [total / 256; total mod 256; used / 256; used mod 256; type_].

(** A pixel of the bilevel image is inked when it is not 0. *)
Definition ink (pix : Z) : bool := negb (pix =? 0).

(** The number that the pixels of a row spell in base 2, the first pixel
    being the most significant digit. *)
Definition bits_value (l : list Z) : Z :=
  fold_left (fun acc pix => 2 * acc + Z.b2z (ink pix)) l 0.

(** The bilevel image that [_encode_image] works on. *)
Definition bilevel (dither : Z -> Z -> (Z -> Z -> Z) -> Z -> Z -> Z)
           (image : Image) : Image :=
  convert_1 dither (invert (convert_L image)).

(** What the loop of [_detect_port_and_model] appends for one port that
    has a serial number or is not a USB port: an entry when the port is a
    USB port whose serial number starts with a supported model name and a
    dash, nothing otherwise. *)
Definition detected_on (lower : string -> string)
           (supported_models : list string)
           (p : SerialTransport.ListPortInfo) : list SerialTransport.Detected :=
  if SerialTransport.contains "USB"%string (SerialTransport.hwid p) then
    match SerialTransport.serial_number p with
    | None => []
    | Some sn =>
        let model_pos := SerialTransport.find "-"%char sn in
        if model_pos =? -1 then []
        else if SerialTransport.supported supported_models
                  (lower (SerialTransport.upto model_pos sn))
             then [SerialTransport.mkDetected (SerialTransport.device p)
                     (SerialTransport.upto model_pos sn) sn]
             else []
    end
  else [].

(** A USB port that reports no serial number. *)
Definition anonymous_usb (p : SerialTransport.ListPortInfo) : bool :=
  SerialTransport.contains "USB"%string (SerialTransport.hwid p) &&
  match SerialTransport.serial_number p with
  | None => true
  | Some _ => false
  end.

(** [str.lower] on ASCII letters, for the examples. *)
Fixpoint ascii_lower (s : string) : string :=
  match s with
  | EmptyString => EmptyString
  | String c rest =>
      let n := nat_of_ascii c in
      String (if ((65 <=? n) && (n <=? 90))%nat then ascii_of_nat (n + 32)
              else c)
             (ascii_lower rest)
  end.

(** Two model names, as an example of the keys of [supported_models]. *)
Definition example_models : list string := ["b1"; "d11"]%string.

(** Example ports: a printer on a USB port, a second printer, a port that
    is not a USB port and a USB port without serial number. *)
Definition port_b1 : SerialTransport.ListPortInfo :=
  SerialTransport.mkPort "/dev/ttyACM0"%string "USB VID:PID=3513:0002"%string (Some "B1-G123456789"%string).

Definition port_d11 : SerialTransport.ListPortInfo :=
  SerialTransport.mkPort "/dev/ttyACM1"%string "USB VID:PID=3513:0002"%string (Some "D11-H000000001"%string).

Definition port_builtin : SerialTransport.ListPortInfo :=
  SerialTransport.mkPort "/dev/ttyS0"%string "PNP0501"%string None.

Definition port_anonymous : SerialTransport.ListPortInfo :=
  SerialTransport.mkPort "/dev/ttyUSB0"%string "USB VID:PID=1A86:7523"%string None.

(** ** A whole session *)

(** The chunk [fr] is a reply of type [code] that has a flag in it. *)
Definition answers (to_bytes : NiimbotPacket -> option bytes)
           (from_bytes : bytes -> option NiimbotPacket)
           (fr : bytes) (code : Z) : Prop :=
  exists x payload,
    carries to_bytes from_bytes fr (mkPacket code (x :: payload)).

(** The chunk [fr] is a status reply whose idle flag is [i]. *)
Definition reports_idle (to_bytes : NiimbotPacket -> option bytes)
           (from_bytes : bytes -> option NiimbotPacket)
           (i : bool) (fr : bytes) : Prop :=
  exists d st,
    carries to_bytes from_bytes fr (mkPacket 179 d) /\
    decode_print_status d = inr st /\ idle st = i.

(** The status request. *)
Definition status_request : NiimbotPacket :=
  mkPacket (request_code GET_PRINT_STATUS) [1].

(** What a session is seen to do when it prints [image] as the packets
    [rows], reads [busy] statuses that are not idle before the idle one, and
    has the end of the print refused [n] times. *)
Definition session_events (density : Z) (image : Image)
           (rows : list NiimbotPacket) (busy n : nat) : list event :=
  map Sent
    (map request_packet
       [SetLabelDensity density; SetLabelType 1; StartPrint; StartPagePrint;
        SetDimension (height image) (width image)]
     ++ rows
     ++ [request_packet EndPagePrint]
     ++ repeat status_request (S busy))
  ++ retries n.

(** The ten status bytes of a printer that is still printing. *)
Definition busy_status : bytes := [0; 0; 50; 50; 0; 0; 0; 0; 0; 0].

(** A device that answers every command of a session, is busy at the first
    status request and refuses the end of the print once. *)
Definition printing : Transport :=
  device [frame 49 [1]; frame 51 [1]; frame 2 [1]; frame 4 [1];
          frame 20 [1]; frame 228 [1]; frame 179 busy_status;
          frame 179 idle_status; frame 244 [0]; frame 244 [1]].

(** [bytes.decode()] on ASCII text, for the examples: a byte above 127 is
    refused. *)
Fixpoint ascii_decode (b : bytes) : option string :=
  match b with
  | [] => Some EmptyString
  | x :: rest =>
      if (0 <=? x) && (x <? 128) then
        match ascii_decode rest with
        | Some s => Some (String (ascii_of_nat (Z.to_nat x)) s)
        | None => None
        end
      else None
  end.

(** A client whose next two reads bring a frame cut after its fourth
    byte. *)
Definition split_reply : Client :=
  {| _transport := {| pending := [[85; 85; 2; 1]; [1; 1; 170; 170]];
                      written := [] |};
     _packetbuf := []; trace := [] |}.

(** A client whose next read brings two replies at once. *)
Definition two_replies : Client :=
  {| _transport := {| pending := [frame 2 [1] ++ frame 4 [1]];
                      written := [] |};
     _packetbuf := []; trace := [] |}.

(** [print_image] from the status poll on (lines 169 to 175). *)
Definition finish_print (to_bytes : NiimbotPacket -> option bytes)
           (from_bytes : bytes -> option NiimbotPacket)
           (fuel : nat) : M unit :=
  wait_idle to_bytes from_bytes fuel fuel ;;
  end_print_retry to_bytes from_bytes fuel fuel.

(** A device that reports failure, a flag of 0, for each of the six
    commands that come before the status poll, and refuses the end of the
    print once. *)
Definition unwilling : Transport :=
  device [frame 49 [0]; frame 51 [0]; frame 2 [0]; frame 4 [0];
          frame 20 [0]; frame 228 [0]; frame 179 idle_status;
          frame 244 [0]; frame 244 [1]].

(** The payload of a heartbeat of [n] bytes that ends with [fields]. *)
Definition heartbeat_payload (n : nat) (fields : bytes) : bytes :=
  repeat 0 (n - List.length fields) ++ fields.

(** An image of one column and 70000 rows. *)
Definition tall : Image :=
  {| width := 1; height := 70000; getpixel := fun _ _ => 255 |}.

(** * Properties *)

(** ** The monad *)

Lemma bind_Ret {A B} (m : M A) (f : A -> M B) s a s' :
  m s = Ret a s' -> bind m f s = f a s'.
Proof. intros H. unfold bind. now rewrite H. Qed.

Lemma bind_Raise {A B} (m : M A) (f : A -> M B) s e s' :
  m s = Raise e s' -> bind m f s = Raise e s'.
Proof. intros H. unfold bind. now rewrite H. Qed.

Lemma bind_OutOfFuel {A B} (m : M A) (f : A -> M B) s :
  m s = OutOfFuel -> bind m f s = OutOfFuel.
Proof. intros H. unfold bind. now rewrite H. Qed.

(** ** Status decoding *)

Lemma decode_print_status_layout u0 i p1 p2 u1 u2 e u3 u4 u5 :
  0 <= i <= 1 ->
  decode_print_status [u0; i; p1; p2; u1; u2; e; u3; u4; u5] =
  inr {| unknown0 := u0; idle := truthy i; progress1 := p1; progress2 := p2;
         unknown1 := u1; unknown2 := u2; error := truthy e; error_code := e;
         open_paper_compartment := e =? 1;
         unknown3 := u3; unknown4 := u4; unknown5 := u5 |}.
Proof.
  intros Hi. unfold decode_print_status.
  replace ((0 <=? i) && (i <=? 1)) with true; [reflexivity|].
  symmetry. apply andb_true_iff. split; apply Z.leb_le; lia.
Qed.

(** C2, the decoding as the code performs it: the payload
    [0,0,1,5,10,0,0,0,0,0] is read as one reserved byte, the idle flag, two
    progress counters, two reserved bytes, the error code and three reserved
    bytes, so that idle is false, progress1 is 1, progress2 is 5 and error is
    false. *)
Theorem status_example_decoded :
  exists st,
    decode_print_status status_example = inr st /\
    unknown0 st = 0 /\ idle st = false /\ progress1 st = 1 /\
    progress2 st = 5 /\ unknown1 st = 10 /\ unknown2 st = 0 /\
    error st = false /\ error_code st = 0 /\
    unknown3 st = 0 /\ unknown4 st = 0 /\ unknown5 st = 0.
Proof.
  unfold status_example. eexists. split.
  - apply decode_print_status_layout. lia.
  - cbn. repeat split.
Qed.

(** C2 as stated fails: the byte that the code reads as the idle flag is the
    second one, which is 0 in the example, so the decoded idle flag is false,
    not true. *)
Lemma status_example_not_idle :
  exists st, decode_print_status status_example = inr st /\ idle st = false.
Proof. eexists. split; [reflexivity|reflexivity]. Qed.

(** ** The raster encoder *)

Lemma two_level_white : two_level (getpixel (invert (convert_L white_1x8))).
Proof. intros x y. left. reflexivity. Qed.

Lemma two_level_black : two_level (getpixel (invert (convert_L black_1x8))).
Proof. intros x y. right. reflexivity. Qed.

Lemma convert_1_two_level dither img :
  keeps_two_level dither -> two_level (getpixel img) ->
  forall x y, getpixel (convert_1 dither img) x y = getpixel img x y.
Proof. intros H Hpx x y. unfold convert_1. cbn [getpixel]. now apply H. Qed.

(** C8: the encoder gives one row packet for the 8 by 1 white image, with
    packed data byte 0x00 after the six header bytes, and one row packet with
    data byte 0xFF for the black image, whenever the bilevel conversion leaves
    black and white buffers unchanged. *)
Theorem encode_white_and_black_row dither :
  keeps_two_level dither ->
  _encode_image dither white_1x8 = [inr (mkPacket 133 [0; 0; 0; 0; 0; 1; 0])] /\
  _encode_image dither black_1x8 = [inr (mkPacket 133 [0; 0; 0; 0; 0; 1; 255])].
Proof.
  intros H. split.
  - pose proof (convert_1_two_level dither _ H two_level_white) as E.
    unfold _encode_image.
    change (height (convert_1 dither (invert (convert_L white_1x8)))) with 1.
    change (range 1) with [0].
    cbn [encode_rows]. unfold _encode_row.
    change (width (convert_1 dither (invert (convert_L white_1x8)))) with 8.
    change (range 8) with [0; 1; 2; 3; 4; 5; 6; 7].
    cbn [map]. rewrite !E. reflexivity.
  - pose proof (convert_1_two_level dither _ H two_level_black) as E.
    unfold _encode_image.
    change (height (convert_1 dither (invert (convert_L black_1x8)))) with 1.
    change (range 1) with [0].
    cbn [encode_rows]. unfold _encode_row.
    change (width (convert_1 dither (invert (convert_L black_1x8)))) with 8.
    change (range 8) with [0; 1; 2; 3; 4; 5; 6; 7].
    cbn [map]. rewrite !E. reflexivity.
Qed.

Lemma threshold_keeps_two_level : keeps_two_level threshold.
Proof.
  intros w h px H x y. unfold threshold.
  destruct (H x y) as [E|E]; rewrite E; reflexivity.
Qed.

Lemma encode_white_and_black_row_witness :
  _encode_image threshold white_1x8 = [inr (mkPacket 133 [0; 0; 0; 0; 0; 1; 0])] /\
  _encode_image threshold black_1x8 = [inr (mkPacket 133 [0; 0; 0; 0; 0; 1; 255])].
Proof. exact (encode_white_and_black_row threshold threshold_keeps_two_level). Defined.

(** ** Draining the receive buffer *)

Section Drain.

Variable to_bytes : NiimbotPacket -> option bytes.
Variable from_bytes : bytes -> option NiimbotPacket.

Lemma transport_read_chunk n chunk rest w :
  len chunk <= n ->
  transport_read n {| pending := chunk :: rest; written := w |} =
  (chunk, {| pending := rest; written := w |}).
Proof.
  intros H. unfold transport_read, len in *. cbn [pending written].
  rewrite firstn_all2, skipn_all2 by lia. reflexivity.
Qed.

Lemma transport_read_silent n w :
  transport_read n {| pending := []; written := w |} =
  ([], {| pending := []; written := w |}).
Proof. reflexivity. Qed.

Lemma recv_unfold fuel s :
  _recv to_bytes from_bytes fuel s =
  _recv_loop to_bytes from_bytes fuel []
    {| _transport := snd (transport_read 1024 (_transport s));
       _packetbuf := _packetbuf s ++ fst (transport_read 1024 (_transport s));
       trace := trace s |}.
Proof.
  unfold _recv, bind, read, get_packetbuf, set_packetbuf.
  destruct (transport_read 1024 (_transport s)). reflexivity.
Qed.

(** The loop leaves with the packets found so far once at most four bytes
    are buffered. *)
Lemma recv_loop_short n packets s :
  len (_packetbuf s) <= 4 ->
  _recv_loop to_bytes from_bytes (S n) packets s = Ret packets s.
Proof.
  intros H. cbn [_recv_loop]. unfold bind, get_packetbuf.
  replace (4 <? len (_packetbuf s)) with false; [reflexivity|].
  symmetry. apply Z.ltb_ge. exact H.
Qed.

(** With more than four bytes buffered and the frame not yet complete, an
    iteration changes nothing: the test of the loop holds again, for ever. *)
Lemma recv_loop_stuck n packets s :
  4 < len (_packetbuf s) ->
  len (_packetbuf s) < nth 3 (_packetbuf s) 0 + 7 ->
  _recv_loop to_bytes from_bytes n packets s = OutOfFuel.
Proof.
  intros H4 Hlen. induction n as [|n IH]; [reflexivity|].
  cbn [_recv_loop]. unfold bind, get_packetbuf.
  replace (4 <? len (_packetbuf s)) with true by (symmetry; apply Z.ltb_lt; lia).
  replace (nth 3 (_packetbuf s) 0 + 7 <=? len (_packetbuf s)) with false
    by (symmetry; apply Z.leb_gt; lia).
  exact IH.
Qed.

(** A complete frame at the head of the buffer is decoded and removed. *)
Lemma recv_loop_frame n packets s fr rest p b :
  _packetbuf s = fr ++ rest ->
  4 < len fr ->
  nth 3 fr 0 + 7 = len fr ->
  from_bytes fr = Some p ->
  to_bytes p = Some b ->
  _recv_loop to_bytes from_bytes (S n) packets s =
  _recv_loop to_bytes from_bytes n (packets ++ [p])
    {| _transport := _transport s; _packetbuf := rest; trace := trace s |}.
Proof.
  intros Hbuf H4 Hlen Hfrom Hto. cbn [_recv_loop]. unfold bind at 1, get_packetbuf.
  assert (Hn : nth 3 (_packetbuf s) 0 = nth 3 fr 0).
  { rewrite Hbuf. apply app_nth1. unfold len in H4. lia. }
  assert (Hl : len (_packetbuf s) = len fr + len rest).
  { rewrite Hbuf. unfold len. rewrite length_app. lia. }
  replace (4 <? len (_packetbuf s)) with true
    by (symmetry; apply Z.ltb_lt; unfold len in *; lia).
  rewrite Hn.
  replace (nth 3 fr 0 + 7 <=? len (_packetbuf s)) with true
    by (symmetry; apply Z.leb_le; unfold len in *; lia).
  rewrite Hlen. unfold len at 1 2. rewrite Nat2Z.id, Hbuf.
  rewrite firstn_app, Nat.sub_diag, firstn_all, firstn_O, app_nil_r.
  rewrite skipn_app, Nat.sub_diag, skipn_all, skipn_O. cbn [app].
  unfold bind, lift_opt, _log_buffer, set_packetbuf, ret.
  rewrite Hfrom, Hto. reflexivity.
Qed.

End Drain.

Section DrainByteByByte.

Variable to_bytes : NiimbotPacket -> option bytes.
Variable from_bytes : bytes -> option NiimbotPacket.

Lemma recv_one_short fuel b rest w buf tr :
  len (buf ++ [b]) <= 4 ->
  _recv to_bytes from_bytes (S fuel)
    {| _transport := {| pending := [b] :: rest; written := w |};
       _packetbuf := buf; trace := tr |} =
  Ret [] {| _transport := {| pending := rest; written := w |};
            _packetbuf := buf ++ [b]; trace := tr |}.
Proof.
  intros H. rewrite recv_unfold. cbn [_transport _packetbuf trace].
  rewrite transport_read_chunk by (cbn; lia). cbn [fst snd].
  apply recv_loop_short. exact H.
Qed.

Lemma recv_one_stuck fuel b rest w buf tr :
  4 < len (buf ++ [b]) ->
  len (buf ++ [b]) < nth 3 (buf ++ [b]) 0 + 7 ->
  _recv to_bytes from_bytes fuel
    {| _transport := {| pending := [b] :: rest; written := w |};
       _packetbuf := buf; trace := tr |} = OutOfFuel.
Proof.
  intros H4 H. rewrite recv_unfold. cbn [_transport _packetbuf trace].
  rewrite transport_read_chunk by (cbn; lia). cbn [fst snd].
  apply recv_loop_stuck; assumption.
Qed.

Lemma recv_calls_S fuel k s batch s1 :
  _recv to_bytes from_bytes fuel s = Ret batch s1 ->
  recv_calls to_bytes from_bytes fuel (S k) s =
  match recv_calls to_bytes from_bytes fuel k s1 with
  | Ret more s' => Ret (batch :: more) s'
  | Raise e s' => Raise e s'
  | OutOfFuel => OutOfFuel
  end.
Proof.
  intros H. cbn [recv_calls]. unfold bind at 1. rewrite H.
  unfold bind, ret. destruct (recv_calls to_bytes from_bytes fuel k s1); reflexivity.
Qed.

(** C4, what the code does: whatever the stream of at least five bytes, when
    it arrives one byte per read the first four calls of [_recv] return no
    frame and keep the bytes, and the fifth call never returns, because the
    loop of [_recv] has no exit for a frame that is still incomplete. *)
Theorem recv_byte_per_read_hangs (stream : bytes) :
  Forall is_byte stream ->
  5 <= len stream ->
  (forall fuel, (0 < fuel)%nat ->
     exists s4,
       recv_calls to_bytes from_bytes fuel 4 (new_client (drip stream)) =
         Ret [[]; []; []; []] s4 /\
       _packetbuf s4 = firstn 4 stream) /\
  (forall fuel,
     recv_calls to_bytes from_bytes fuel 5 (new_client (drip stream)) =
       OutOfFuel).
Proof.
  intros Hb Hlen.
  destruct stream as [|b0 [|b1 [|b2 [|b3 [|b4 rest]]]]]; cbn in Hlen; try lia.
  assert (H3 : 0 <= b3).
  { do 3 apply Forall_inv_tail in Hb. apply Forall_inv in Hb. apply Hb. }
  unfold new_client, drip, device. cbn [map].
  split.
  - intros [|fuel] Hf; [lia|]. eexists.
    do 4 (erewrite recv_calls_S; [|apply recv_one_short; cbn; lia]).
    cbn [recv_calls app]. unfold ret. split; reflexivity.
  - intros [|fuel].
    + reflexivity.
    + do 4 (erewrite recv_calls_S; [|apply recv_one_short; cbn; lia]).
      cbn [recv_calls app]. rewrite bind_OutOfFuel; [reflexivity|].
      apply recv_one_stuck; cbn; lia.
Qed.

End DrainByteByByte.

(** The frame 55 55 02 01 01 01 AA AA of the reference codec, one byte per
    read. *)
Lemma recv_byte_per_read_hangs_witness :
  (forall fuel, (0 < fuel)%nat ->
     exists s4,
       recv_calls ref_to_bytes ref_from_bytes fuel 4
         (new_client (drip (frame 2 [1]))) = Ret [[]; []; []; []] s4 /\
       _packetbuf s4 = firstn 4 (frame 2 [1])) /\
  (forall fuel,
     recv_calls ref_to_bytes ref_from_bytes fuel 5
       (new_client (drip (frame 2 [1]))) = OutOfFuel).
Proof.
  apply (recv_byte_per_read_hangs ref_to_bytes ref_from_bytes (frame 2 [1])).
  - change (frame 2 [1]) with [85; 85; 2; 1; 1; 1; 170; 170].
    repeat constructor; unfold is_byte; lia.
  - vm_compute. discriminate.
Defined.

(** ** Scanning the frames of a drain pass *)

Lemma scan_unrelated respcode l resp :
  Forall (unrelated respcode) l ->
  scan_packets respcode l resp = inr resp.
Proof.
  induction 1 as [|p l [H1 [H2 H3]] _ IH]; [reflexivity|].
  cbn [scan_packets].
  apply Z.eqb_neq in H1, H2, H3. now rewrite H1, H2, H3.
Qed.

Lemma scan_app_clean respcode pre l resp :
  Forall not_error pre ->
  exists resp', scan_packets respcode (pre ++ l) resp = scan_packets respcode l resp'.
Proof.
  intros H. revert resp. induction H as [|p pre [H1 H2] _ IH]; intros resp.
  - now exists resp.
  - cbn [app scan_packets]. apply Z.eqb_neq in H1, H2. rewrite H1, H2.
    destruct (type p =? respcode); apply IH.
Qed.

Lemma scan_no_match respcode l resp :
  Forall not_error l ->
  Forall (fun q => type q <> respcode) l ->
  scan_packets respcode l resp = inr resp.
Proof.
  intros H1 H2. apply scan_unrelated.
  rewrite Forall_forall in *. intros q Hq.
  destruct (H1 q Hq). repeat split; auto.
Qed.

(** The first error frame of a batch decides. *)
Lemma scan_first_error respcode pre p post resp :
  Forall not_error pre ->
  (type p = 219 -> scan_packets respcode (pre ++ p :: post) resp = inl ValueError) /\
  (type p = 0 ->
   scan_packets respcode (pre ++ p :: post) resp = inl NotImplementedError).
Proof.
  intros H. destruct (scan_app_clean respcode pre (p :: post) resp H) as [r ->].
  cbn [scan_packets]. split; intros ->; reflexivity.
Qed.

(** The last frame with the expected code decides, when no frame is an error
    frame. *)
Lemma scan_last_match respcode pre p post resp :
  Forall not_error (pre ++ p :: post) ->
  type p = respcode ->
  Forall (fun q => type q <> respcode) post ->
  scan_packets respcode (pre ++ p :: post) resp = inr (Some p).
Proof.
  intros H Hp Hpost. apply Forall_app in H as [Hpre H].
  destruct (scan_app_clean respcode pre (p :: post) resp Hpre) as [r ->].
  inversion H as [|? ? [H1 H2] Hpost']; subst.
  cbn [scan_packets]. apply Z.eqb_neq in H1, H2. rewrite H1, H2, Z.eqb_refl.
  now apply scan_no_match.
Qed.

(** Frames of any other type have no effect on the scan. *)
Lemma scan_filter_relevant respcode l resp :
  scan_packets respcode l resp =
  scan_packets respcode (filter (relevant respcode) l) resp.
Proof.
  revert resp. induction l as [|p l IH]; intros resp; [reflexivity|].
  cbn [filter scan_packets]. unfold relevant at 1.
  destruct (type p =? 219) eqn:E1; cbn [orb scan_packets]; [now rewrite E1|].
  destruct (type p =? 0) eqn:E2; cbn [orb scan_packets]; [now rewrite E1, E2|].
  destruct (type p =? respcode) eqn:E3; cbn [orb scan_packets].
  - rewrite E1, E2, E3. apply IH.
  - apply IH.
Qed.

(** ** One round of the polling loop *)

Section Transceive.

Variable to_bytes : NiimbotPacket -> option bytes.
Variable from_bytes : bytes -> option NiimbotPacket.

Lemma poll_step fuel k respcode resp s batch s1 :
  _recv to_bytes from_bytes fuel s = Ret batch s1 ->
  _transceive_poll to_bytes from_bytes fuel (S k) respcode resp s =
  match scan_packets respcode batch resp with
  | inl e => Raise e s1
  | inr (Some p) => Ret (Some p) s1
  | inr None =>
      _transceive_poll to_bytes from_bytes fuel k respcode None (after Slept s1)
  end.
Proof.
  intros H. cbn [_transceive_poll]. unfold bind at 1. rewrite H.
  unfold bind at 1. unfold lift.
  destruct (scan_packets respcode batch resp) as [e|[p|]]; reflexivity.
Qed.

Lemma send_unfold packet b s :
  to_bytes packet = Some b ->
  _send to_bytes packet s = Ret tt (handed packet b s).
Proof. intros H. unfold _send, bind, lift_opt. rewrite H. reflexivity. Qed.

Lemma send_refused packet s :
  to_bytes packet = None ->
  _send to_bytes packet s = Raise EncodeError s.
Proof. intros H. unfold _send, bind, lift_opt. rewrite H. reflexivity. Qed.

Lemma transceive_unfold fuel reqcode d off s b :
  to_bytes (mkPacket reqcode d) = Some b ->
  _transceive to_bytes from_bytes fuel reqcode d off s =
  _transceive_poll to_bytes from_bytes fuel 6 (respcode_of reqcode off) None
    (handed (mkPacket reqcode d) b s).
Proof.
  intros H. unfold _transceive, bind, lift_opt, _log_buffer. rewrite H.
  unfold ret. rewrite (send_unfold _ _ _ H). reflexivity.
Qed.

Lemma transceive_refused fuel reqcode d off s :
  to_bytes (mkPacket reqcode d) = None ->
  _transceive to_bytes from_bytes fuel reqcode d off s = Raise EncodeError s.
Proof.
  intros H. unfold _transceive, bind, lift_opt. rewrite H. reflexivity.
Qed.

(** C5: in a round of the polling loop the drain pass is scanned to its end
    before the result is decided: when the pass returns [batch], none of its
    frames being an error frame, and [p] is the last frame of [batch] with
    the expected code, the loop returns [p] in the state the drain pass left,
    whatever other frames, with the expected code before [p] or with other
    codes anywhere, the batch has; frames of other types do not change the
    scan at all.  The first round of [_transceive] is such a round. *)
Theorem transceive_returns_last_match fuel k respcode s batch s1 pre p post :
  _recv to_bytes from_bytes fuel s = Ret batch s1 ->
  batch = pre ++ p :: post ->
  Forall not_error batch ->
  type p = respcode ->
  Forall (fun q => type q <> respcode) post ->
  _transceive_poll to_bytes from_bytes fuel (S k) respcode None s =
    Ret (Some p) s1 /\
  scan_packets respcode batch None =
    scan_packets respcode (filter (relevant respcode) batch) None /\
  (forall reqcode d off b s0,
     to_bytes (mkPacket reqcode d) = Some b ->
     s = handed (mkPacket reqcode d) b s0 ->
     respcode = respcode_of reqcode off ->
     _transceive to_bytes from_bytes fuel reqcode d off s0 = Ret (Some p) s1).
Proof.
  intros Hrecv -> Hclean Hp Hpost.
  assert (Hpoll : forall k',
            _transceive_poll to_bytes from_bytes fuel (S k') respcode None s =
            Ret (Some p) s1).
  { intros k'. erewrite poll_step by exact Hrecv.
    now rewrite (scan_last_match respcode pre p post None Hclean Hp Hpost). }
  split; [apply Hpoll|]. split; [apply scan_filter_relevant|].
  intros reqcode d off b s0 Hb -> ->.
  erewrite transceive_unfold by exact Hb. apply Hpoll.
Qed.

(** C6: in a round of the polling loop, the first frame of the drain pass
    that is an error frame ends the call at once: with type 219 the call
    raises [ValueError] (the command was invalid), with type 0 it raises
    [NotImplementedError] (the command is not supported), in the state the
    drain pass left, whatever code the request waits for and whatever reply
    was found before.  The first round of [_transceive] is such a round, for
    every request. *)
Theorem transceive_aborts_on_error_frame fuel k respcode resp s batch s1 pre p post :
  _recv to_bytes from_bytes fuel s = Ret batch s1 ->
  batch = pre ++ p :: post ->
  Forall not_error pre ->
  (type p = 219 ->
     _transceive_poll to_bytes from_bytes fuel (S k) respcode resp s =
       Raise ValueError s1 /\
     forall reqcode d off b s0,
       to_bytes (mkPacket reqcode d) = Some b ->
       s = handed (mkPacket reqcode d) b s0 ->
       _transceive to_bytes from_bytes fuel reqcode d off s0 =
         Raise ValueError s1) /\
  (type p = 0 ->
     _transceive_poll to_bytes from_bytes fuel (S k) respcode resp s =
       Raise NotImplementedError s1 /\
     forall reqcode d off b s0,
       to_bytes (mkPacket reqcode d) = Some b ->
       s = handed (mkPacket reqcode d) b s0 ->
       _transceive to_bytes from_bytes fuel reqcode d off s0 =
         Raise NotImplementedError s1).
Proof.
  intros Hrecv -> Hpre.
  split; intros Hp; split.
  - erewrite poll_step by exact Hrecv.
    destruct (scan_first_error respcode pre p post resp Hpre) as [-> _]; auto.
  - intros reqcode d off b s0 Hb ->.
    erewrite transceive_unfold by exact Hb; erewrite poll_step by exact Hrecv.
    destruct (scan_first_error (respcode_of reqcode off) pre p post None Hpre)
      as [-> _]; auto.
  - erewrite poll_step by exact Hrecv.
    destruct (scan_first_error respcode pre p post resp Hpre) as [_ ->]; auto.
  - intros reqcode d off b s0 Hb ->.
    erewrite transceive_unfold by exact Hb; erewrite poll_step by exact Hrecv.
    destruct (scan_first_error (respcode_of reqcode off) pre p post None Hpre)
      as [_ ->]; auto.
Qed.

End Transceive.

(** ** What the methods add to the trace *)

Lemma emits_ret {A} P (a : A) : emits P (ret a).
Proof. intros s. exists []. now rewrite app_nil_r. Qed.

Lemma emits_raise {A} P e : emits P (@raise A e).
Proof. intros s. exists []. now rewrite app_nil_r. Qed.

Lemma emits_bind {A B} P (m : M A) (f : A -> M B) :
  emits P m -> (forall a, emits P (f a)) -> emits P (bind m f).
Proof.
  intros Hm Hf s. unfold bind. specialize (Hm s).
  destruct (m s) as [a s1|e s1|]; auto.
  destruct Hm as [evs1 [E1 F1]]. specialize (Hf a s1).
  destruct (f a s1) as [b s2|e s2|]; auto;
    destruct Hf as [evs2 [E2 F2]]; exists (evs1 ++ evs2);
    (split; [rewrite E2, E1; now rewrite app_assoc | now apply Forall_app]).
Qed.

Lemma emits_log (P : event -> Prop) e : P e -> emits P (log e).
Proof. intros H s. exists [e]. split; [reflexivity|now constructor]. Qed.


Lemma emits_lift {A} P (r : exn + A) : emits P (lift r).
Proof. destruct r; [apply emits_raise | apply emits_ret]. Qed.

Lemma emits_lift_opt {A} P e (o : option A) : emits P (lift_opt e o).
Proof. destruct o; [apply emits_ret | apply emits_raise]. Qed.

Lemma emits_assertion P c : emits P (assertion c).
Proof. destruct c; [apply emits_ret | apply emits_raise]. Qed.

Lemma emits_get_packetbuf P : emits P get_packetbuf.
Proof. intros s. exists []. now rewrite app_nil_r. Qed.

Lemma emits_set_packetbuf P b : emits P (set_packetbuf b).
Proof. intros s. exists []. cbn. now rewrite app_nil_r. Qed.

Lemma emits_read P n : emits P (read n).
Proof.
  intros s. unfold read. destruct (transport_read n (_transport s)).
  exists []. cbn. now rewrite app_nil_r.
Qed.

Lemma emits_write P d : emits P (write d).
Proof. intros s. exists []. cbn. now rewrite app_nil_r. Qed.

Lemma emits_data_of P packet : emits P (data_of packet).
Proof. destruct packet; [apply emits_ret | apply emits_raise]. Qed.

Lemma emits_flag_of P d : emits P (flag_of d).
Proof. destruct d; [apply emits_raise | apply emits_ret]. Qed.

Create HintDb trace.
#[export] Hint Resolve emits_ret emits_raise emits_log emits_lift emits_lift_opt
  emits_assertion emits_get_packetbuf emits_set_packetbuf emits_read
  emits_write emits_data_of emits_flag_of : trace.

(** Splits a sequence of steps into its steps. *)
Ltac emits_steps :=
  repeat (match goal with
          | |- emits _ (bind _ _) => apply emits_bind; [|intros ?]
          end);
  auto with trace.

Lemma emits_nothing {A} (m : M A) s :
  emits (fun _ => False) m ->
  match m s with
  | Ret _ s' | Raise _ s' => trace s' = trace s
  | OutOfFuel => True
  end.
Proof.
  intros H. specialize (H s).
  destruct (m s); auto; destruct H as [[|ev evs] [E F]];
    try (now rewrite app_nil_r in E); inversion F; contradiction.
Qed.

Section Traces.

Variable to_bytes : NiimbotPacket -> option bytes.
Variable from_bytes : bytes -> option NiimbotPacket.
Variable dither : Z -> Z -> (Z -> Z -> Z) -> Z -> Z -> Z.

Lemma emits_recv_loop P n packets :
  emits P (_recv_loop to_bytes from_bytes n packets).
Proof.
  revert packets. induction n as [|n IH]; intros packets.
  - intros s. exact I.
  - cbn [_recv_loop]. apply emits_bind; [auto with trace|]. intros buf.
    destruct (4 <? len buf); [|auto with trace].
    destruct (nth 3 buf 0 + 7 <=? len buf); [|apply IH].
    unfold _log_buffer. emits_steps.
Qed.

Lemma emits_recv P fuel : emits P (_recv to_bytes from_bytes fuel).
Proof. unfold _recv. emits_steps. apply emits_recv_loop. Qed.

Lemma recv_trace fuel s :
  match _recv to_bytes from_bytes fuel s with
  | Ret _ s' | Raise _ s' => trace s' = trace s
  | OutOfFuel => True
  end.
Proof. apply emits_nothing, emits_recv. Qed.

Lemma emits_send (P : event -> Prop) packet :
  P (Sent packet) -> emits P (_send to_bytes packet).
Proof. intros H. unfold _send. emits_steps. Qed.

Lemma emits_poll (P : event -> Prop) fuel attempts respcode resp :
  P Slept -> P TimedOut ->
  emits P (_transceive_poll to_bytes from_bytes fuel attempts respcode resp).
Proof.
  intros HS HT. revert resp. induction attempts as [|k IH]; intros resp.
  - cbn [_transceive_poll]. destruct resp; emits_steps.
  - cbn [_transceive_poll]. apply emits_bind; [apply emits_recv|]. intros batch.
    apply emits_bind; [auto with trace|]. intros [p|]; [auto with trace|].
    apply emits_bind; [unfold sleep; auto with trace|]. intros _. apply IH.
Qed.

Lemma emits_transceive (P : event -> Prop) fuel reqcode d off :
  P (Sent (mkPacket reqcode d)) -> P Slept -> P TimedOut ->
  emits P (_transceive to_bytes from_bytes fuel reqcode d off).
Proof.
  intros H HS HT. unfold _transceive, _log_buffer.
  emits_steps; [now apply emits_send | now apply emits_poll].
Qed.

End Traces.

(** ** Timeouts are final *)










Section Timeouts.

Variable to_bytes : NiimbotPacket -> option bytes.
Variable from_bytes : bytes -> option NiimbotPacket.
Variable dither : Z -> Z -> (Z -> Z -> Z) -> Z -> Z -> Z.




















End Timeouts.

Section Session.

Variable to_bytes : NiimbotPacket -> option bytes.
Variable from_bytes : bytes -> option NiimbotPacket.
Variable dither : Z -> Z -> (Z -> Z -> Z) -> Z -> Z -> Z.

(** ** The polling budget *)

Lemma silent_polls_timeout fuel respcode n s s' :
  silent_polls to_bytes from_bytes fuel respcode n s s' ->
  _transceive_poll to_bytes from_bytes fuel n respcode None s =
    Ret None (after TimedOut s') /\
  trace s' = trace s ++ repeat Slept n.
Proof.
  revert s. induction n as [|n IH]; intros s H.
  - cbn in H. subst s'. split; [reflexivity|]. cbn. now rewrite app_nil_r.
  - destruct H as [batch [s1 [Hr [Hb H]]]].
    destruct (IH _ H) as [IH1 IH2]. split.
    + erewrite poll_step by exact Hr. now rewrite scan_unrelated.
    + pose proof (recv_trace to_bytes from_bytes fuel s) as Ht.
      rewrite Hr in Ht. rewrite IH2. cbn. rewrite Ht, <- app_assoc. reflexivity.
Qed.


End Session.


(** ** Images without columns *)

Lemma range_pos n : 1 <= n -> exists rest, range n = 0 :: rest.
Proof.
  intros H. unfold range.
  destruct (Z.to_nat n) as [|k] eqn:E; [lia|].
  cbn [seq map]. eexists. reflexivity.
Qed.

Lemma no_row_sent c d : c <> 133 -> no_row (Sent (mkPacket c d)).
Proof. intros H p [= <-]. exact H. Qed.

Lemma no_row_slept : no_row Slept.
Proof. intros p H. discriminate H. Qed.

Lemma no_row_timed_out : no_row TimedOut.
Proof. intros p H. discriminate H. Qed.

Section ZeroWidth.

Variable to_bytes : NiimbotPacket -> option bytes.
Variable from_bytes : bytes -> option NiimbotPacket.
Variable dither : Z -> Z -> (Z -> Z -> Z) -> Z -> Z -> Z.

Lemma encode_row_zero_width img y :
  width img = 0 -> _encode_row img y = inl ValueError.
Proof. intros H. unfold _encode_row. rewrite H. reflexivity. Qed.

Lemma encode_image_zero_width image :
  width image = 0 -> 1 <= height image ->
  exists rest, _encode_image dither image = inl ValueError :: rest.
Proof.
  intros Hw Hh. unfold _encode_image.
  change (height (convert_1 dither (invert (convert_L image))))
    with (height image).
  destruct (range_pos _ Hh) as [rest ->]. cbn [encode_rows].
  rewrite encode_row_zero_width by exact Hw. eexists. reflexivity.
Qed.

Lemma send_rows_error e rest s :
  send_rows to_bytes (inl e :: rest) s = Raise e s.
Proof. reflexivity. Qed.

(** The commands of a session add to the trace their request, the sleeps of
    the polling loop and its timeout; [P] is any property of those events. *)
Section CommandEvents.

Variable P : event -> Prop.
Hypothesis P_request : forall c d, c <> 133 -> P (Sent (mkPacket c d)).
Hypothesis P_slept : P Slept.
Hypothesis P_timed_out : P TimedOut.

Lemma emits_request fuel reqcode d off :
  reqcode <> 133 ->
  emits P (_transceive to_bytes from_bytes fuel reqcode d off).
Proof. intros H. apply emits_transceive; auto. Qed.

Ltac emits_command :=
  emits_steps; apply emits_request; cbn; discriminate.

Lemma emits_set_label_density fuel n :
  emits P (set_label_density to_bytes from_bytes fuel n).
Proof. unfold set_label_density. emits_command. Qed.

Lemma emits_set_label_type fuel n :
  emits P (set_label_type to_bytes from_bytes fuel n).
Proof. unfold set_label_type. emits_command. Qed.

Lemma emits_start_print fuel :
  emits P (start_print to_bytes from_bytes fuel).
Proof. unfold start_print. emits_command. Qed.

Lemma emits_end_print fuel :
  emits P (end_print to_bytes from_bytes fuel).
Proof. unfold end_print. emits_command. Qed.

Lemma emits_start_page_print fuel :
  emits P (start_page_print to_bytes from_bytes fuel).
Proof. unfold start_page_print. emits_command. Qed.

Lemma emits_end_page_print fuel :
  emits P (end_page_print to_bytes from_bytes fuel).
Proof. unfold end_page_print. emits_command. Qed.

Lemma emits_set_dimension fuel w h :
  emits P (set_dimension to_bytes from_bytes fuel w h).
Proof. unfold set_dimension. emits_command. Qed.

Lemma emits_get_print_status fuel :
  emits P (get_print_status to_bytes from_bytes fuel).
Proof. unfold get_print_status. emits_command. Qed.

Lemma emits_wait_idle fuel n :
  emits P (wait_idle to_bytes from_bytes fuel n).
Proof.
  induction n as [|n IH]; cbn [wait_idle]; [intros s; exact I|].
  apply emits_bind; [apply emits_get_print_status|]. intros st.
  destruct (idle st); [auto with trace|exact IH].
Qed.

Lemma emits_end_print_retry fuel n :
  emits P (end_print_retry to_bytes from_bytes fuel n).
Proof.
  induction n as [|n IH]; cbn [end_print_retry]; [intros s; exact I|].
  apply emits_bind; [apply emits_end_print|]. intros done.
  destruct (negb done); [|auto with trace].
  apply emits_bind; [now apply emits_log|]. intros _. exact IH.
Qed.

Lemma emits_send_rows rows :
  (forall p, In (inr p) rows -> P (Sent p)) ->
  emits P (send_rows to_bytes rows).
Proof.
  induction rows as [|row rows IH]; intros H; cbn [send_rows];
    [auto with trace|].
  destruct row as [e|p]; [intros s; exists []; now rewrite app_nil_r|].
  assert (Hs : emits P (_send to_bytes p ;; send_rows to_bytes rows)).
  { apply emits_bind; [apply emits_send, H; now left|]. intros _.
    apply IH. intros q Hq. apply H. now right. }
  intros s. exact (Hs s).
Qed.

End CommandEvents.

Lemma emits_print_image_zero_width fuel image density :
  width image = 0 -> 1 <= height image ->
  emits no_row (print_image to_bytes from_bytes dither fuel image density).
Proof.
  intros Hw Hh. unfold print_image.
  destruct (encode_image_zero_width image Hw Hh) as [rest ->].
  pose proof no_row_sent as H1. pose proof no_row_slept as H2.
  pose proof no_row_timed_out as H3.
  apply emits_bind; [now apply emits_set_label_density|]. intros _.
  apply emits_bind; [now apply emits_set_label_type|]. intros _.
  apply emits_bind; [now apply emits_start_print|]. intros _.
  apply emits_bind; [now apply emits_start_page_print|]. intros _.
  apply emits_bind; [now apply emits_set_dimension|]. intros _.
  apply emits_bind.
  - intros s. rewrite send_rows_error. exists []. now rewrite app_nil_r.
  - intros _.
    apply emits_bind; [now apply emits_end_page_print|]. intros _.
    apply emits_bind; [now apply emits_wait_idle|]. intros _.
    now apply emits_end_print_retry.
Qed.

Lemma print_image_zero_width_never_returns fuel image density s :
  width image = 0 -> 1 <= height image ->
  forall a s',
    print_image to_bytes from_bytes dither fuel image density s <> Ret a s'.
Proof.
  intros Hw Hh a s' Hp.
  destruct (encode_image_zero_width image Hw Hh) as [rest Hrows].
  unfold print_image in Hp. rewrite Hrows in Hp. unfold bind in Hp.
  destruct (set_label_density to_bytes from_bytes fuel density s);
    try discriminate Hp.
  destruct (set_label_type to_bytes from_bytes fuel 1 _); try discriminate Hp.
  destruct (start_print to_bytes from_bytes fuel _); try discriminate Hp.
  destruct (start_page_print to_bytes from_bytes fuel _); try discriminate Hp.
  destruct (set_dimension to_bytes from_bytes fuel _ _ _); discriminate Hp.
Qed.

(** C10: for an image of width 0 and height at least 1 the first row that
    the encoder is asked for raises [ValueError], the empty string being no
    binary literal; so sending the rows raises before anything is sent, a
    session whose five commands before the rows return ends with that
    [ValueError], and no session returns normally or sends a raster row
    packet. *)
Theorem zero_width_image_sends_no_row fuel image density s :
  width image = 0 ->
  1 <= height image ->
  hd_error (_encode_image dither image) = Some (inl ValueError) /\
  (forall s0,
     send_rows to_bytes (_encode_image dither image) s0 = Raise ValueError s0) /\
  (forall a1 s1 a2 s2 a3 s3 a4 s4 a5 s5,
     set_label_density to_bytes from_bytes fuel density s = Ret a1 s1 ->
     set_label_type to_bytes from_bytes fuel 1 s1 = Ret a2 s2 ->
     start_print to_bytes from_bytes fuel s2 = Ret a3 s3 ->
     start_page_print to_bytes from_bytes fuel s3 = Ret a4 s4 ->
     set_dimension to_bytes from_bytes fuel (height image) (width image) s4 =
       Ret a5 s5 ->
     print_image to_bytes from_bytes dither fuel image density s =
       Raise ValueError s5) /\
  match print_image to_bytes from_bytes dither fuel image density s with
  | Ret _ _ => False
  | Raise _ s' => exists evs, trace s' = trace s ++ evs /\ Forall no_row evs
  | OutOfFuel => True
  end.
Proof.
  intros Hw Hh.
  destruct (encode_image_zero_width image Hw Hh) as [rest Hrows].
  split; [now rewrite Hrows|]. split; [intros s0; now rewrite Hrows|].
  assert (Hrun : forall a1 s1 a2 s2 a3 s3 a4 s4 a5 s5,
     set_label_density to_bytes from_bytes fuel density s = Ret a1 s1 ->
     set_label_type to_bytes from_bytes fuel 1 s1 = Ret a2 s2 ->
     start_print to_bytes from_bytes fuel s2 = Ret a3 s3 ->
     start_page_print to_bytes from_bytes fuel s3 = Ret a4 s4 ->
     set_dimension to_bytes from_bytes fuel (height image) (width image) s4 =
       Ret a5 s5 ->
     print_image to_bytes from_bytes dither fuel image density s =
       Raise ValueError s5).
  { intros a1 s1 a2 s2 a3 s3 a4 s4 a5 s5 H1 H2 H3 H4 H5. unfold print_image.
    rewrite (bind_Ret _ _ _ _ _ H1), (bind_Ret _ _ _ _ _ H2),
      (bind_Ret _ _ _ _ _ H3), (bind_Ret _ _ _ _ _ H4), (bind_Ret _ _ _ _ _ H5).
    apply bind_Raise. now rewrite Hrows. }
  split; [exact Hrun|].
  pose proof (emits_print_image_zero_width fuel image density Hw Hh s) as He.
  pose proof (print_image_zero_width_never_returns fuel image density s Hw Hh)
    as Hn.
  destruct (print_image to_bytes from_bytes dither fuel image density s)
    as [a s'|e s'|]; auto.
  now apply (Hn a s').
Qed.

End ZeroWidth.

(** ** A reply that arrives in one read *)

Section Replies.

Variable to_bytes : NiimbotPacket -> option bytes.
Variable from_bytes : bytes -> option NiimbotPacket.
Variable dither : Z -> Z -> (Z -> Z -> Z) -> Z -> Z -> Z.

Lemma recv_reply fuel s fr p rest :
  pending (_transport s) = fr :: rest ->
  _packetbuf s = [] ->
  carries to_bytes from_bytes fr p ->
  _recv to_bytes from_bytes (S (S fuel)) s =
  Ret [p] {| _transport := {| pending := rest;
                              written := written (_transport s) |};
             _packetbuf := []; trace := trace s |}.
Proof.
  intros Hp Hb (H4 & H1024 & Hlen & Hfrom & Hto).
  destruct (to_bytes p) as [b|] eqn:Eb; [clear Hto|contradiction].
  rewrite recv_unfold. destruct s as [[pend w] buf tr]. cbn in Hp, Hb. subst.
  cbn [_transport _packetbuf trace written].
  rewrite transport_read_chunk by exact H1024. cbn [fst snd app].
  erewrite recv_loop_frame with (fr := fr) (rest := []); eauto.
  - cbn [_transport trace app]. now apply recv_loop_short.
  - cbn. now rewrite app_nil_r.
Qed.

Lemma transceive_reply fuel reqcode d off s b fr p rest :
  to_bytes (mkPacket reqcode d) = Some b ->
  pending (_transport s) = fr :: rest ->
  _packetbuf s = [] ->
  carries to_bytes from_bytes fr p ->
  type p = respcode_of reqcode off ->
  not_error p ->
  _transceive to_bytes from_bytes (S (S fuel)) reqcode d off s =
  Ret (Some p) (replied (mkPacket reqcode d) b rest s).
Proof.
  intros Hb Hp Hbuf Hc Ht [H219 H0].
  erewrite transceive_unfold by exact Hb.
  erewrite poll_step
    by (apply recv_reply with (fr := fr) (rest := rest); [exact Hp|exact Hbuf|exact Hc]).
  cbn [scan_packets]. apply Z.eqb_neq in H219, H0.
  rewrite H219, H0, Ht, Z.eqb_refl. reflexivity.
Qed.

Lemma end_print_reply fuel s b fr x payload rest :
  to_bytes end_print_request = Some b ->
  pending (_transport s) = fr :: rest ->
  _packetbuf s = [] ->
  carries to_bytes from_bytes fr (mkPacket 244 (x :: payload)) ->
  end_print to_bytes from_bytes (S (S fuel)) s =
  Ret (truthy x) (replied end_print_request b rest s).
Proof.
  intros Hb Hp Hbuf Hc. unfold end_print.
  erewrite bind_Ret
    by (apply transceive_reply with (fr := fr) (rest := rest) (b := b);
        [exact Hb|exact Hp|exact Hbuf|exact Hc|reflexivity|split; discriminate]).
  reflexivity.
Qed.

(** ** The two loops at the end of a session *)

Lemma wait_idle_step fuel k s st s' :
  get_print_status to_bytes from_bytes fuel s = Ret st s' ->
  wait_idle to_bytes from_bytes fuel (S k) s =
  if idle st then Ret tt s' else wait_idle to_bytes from_bytes fuel k s'.
Proof.
  intros H. cbn [wait_idle]. rewrite (bind_Ret _ _ _ _ _ H).
  now destruct (idle st).
Qed.

Lemma end_print_retry_step fuel k s a s' :
  end_print to_bytes from_bytes fuel s = Ret a s' ->
  end_print_retry to_bytes from_bytes fuel (S k) s =
  if a then Ret tt s'
  else end_print_retry to_bytes from_bytes fuel k (after Slept s').
Proof.
  intros H. cbn [end_print_retry]. rewrite (bind_Ret _ _ _ _ _ H).
  now destruct a.
Qed.

Lemma print_image_after_idle fuel image density s s8 :
  print_until_idle to_bytes from_bytes dither fuel image density s = Ret tt s8 ->
  print_image to_bytes from_bytes dither fuel image density s =
  end_print_retry to_bytes from_bytes fuel fuel s8.
Proof.
  unfold print_until_idle, print_image, bind. intros H.
  destruct (set_label_density to_bytes from_bytes fuel density s);
    try discriminate H.
  destruct (set_label_type to_bytes from_bytes fuel 1 _); try discriminate H.
  destruct (start_print to_bytes from_bytes fuel _); try discriminate H.
  destruct (start_page_print to_bytes from_bytes fuel _); try discriminate H.
  destruct (set_dimension to_bytes from_bytes fuel _ _ _); try discriminate H.
  destruct (send_rows to_bytes _ _); try discriminate H.
  destruct (end_page_print to_bytes from_bytes fuel _); try discriminate H.
  destruct (wait_idle to_bytes from_bytes fuel fuel _) as [[] s'| |];
    try discriminate H.
  now inversion H.
Qed.

Lemma print_image_fails_fast fuel image density s e s' :
  print_until_idle to_bytes from_bytes dither fuel image density s =
    Raise e s' ->
  print_image to_bytes from_bytes dither fuel image density s = Raise e s'.
Proof.
  unfold print_until_idle, print_image, bind. intros H.
  destruct (set_label_density to_bytes from_bytes fuel density s);
    try discriminate H; try exact H.
  destruct (set_label_type to_bytes from_bytes fuel 1 _);
    try discriminate H; try exact H.
  destruct (start_print to_bytes from_bytes fuel _);
    try discriminate H; try exact H.
  destruct (start_page_print to_bytes from_bytes fuel _);
    try discriminate H; try exact H.
  destruct (set_dimension to_bytes from_bytes fuel _ _ _);
    try discriminate H; try exact H.
  destruct (send_rows to_bytes _ _); try discriminate H; try exact H.
  destruct (end_page_print to_bytes from_bytes fuel _);
    try discriminate H; try exact H.
  destruct (wait_idle to_bytes from_bytes fuel fuel _);
    try discriminate H; exact H.
Qed.

Lemma end_print_retry_refusals fuel b refusal payload accepted y payload' rest n :
  to_bytes end_print_request = Some b ->
  carries to_bytes from_bytes refusal (mkPacket 244 (0 :: payload)) ->
  carries to_bytes from_bytes accepted (mkPacket 244 (y :: payload')) ->
  y <> 0 ->
  forall k s,
    pending (_transport s) = repeat refusal n ++ accepted :: rest ->
    _packetbuf s = [] ->
    (n < k)%nat ->
    exists s',
      end_print_retry to_bytes from_bytes (S (S fuel)) k s = Ret tt s' /\
      trace s' = trace s ++ retries n /\
      written (_transport s') = written (_transport s) ++ repeat b (S n) /\
      pending (_transport s') = rest.
Proof.
  intros Hb Href Hacc Hy. induction n as [|n IH]; intros k s Hp Hbuf Hk.
  - destruct k as [|k]; [lia|]. cbn [repeat app] in Hp.
    erewrite end_print_retry_step
      by (eapply end_print_reply; [exact Hb|exact Hp|exact Hbuf|exact Hacc]).
    replace (truthy y) with true
      by (unfold truthy; apply Z.eqb_neq in Hy; now rewrite Hy).
    eexists. split; [reflexivity|]. cbn. auto.
  - destruct k as [|k]; [lia|]. cbn [repeat app] in Hp.
    erewrite end_print_retry_step
      by (eapply end_print_reply; [exact Hb|exact Hp|exact Hbuf|exact Href]).
    cbn [truthy Z.eqb negb].
    destruct (IH k (after Slept (replied end_print_request b
                                   (repeat refusal n ++ accepted :: rest) s)))
      as [s' [Hr [Ht [Hw Hpend]]]]; [reflexivity|reflexivity|lia|].
    exists s'. split; [exact Hr|]. split; [|split; [|exact Hpend]].
    + rewrite Ht. cbn [after replied trace]. unfold retries.
      cbn [repeat List.concat]. rewrite <- !app_assoc. reflexivity.
    + rewrite Hw. cbn [after replied _transport written].
      rewrite <- app_assoc. reflexivity.
Qed.

Lemma print_image_discards_all_flags fuel image density
      s a1 s1 a2 s2 a3 s3 a4 s4 a5 s5 s6 a6 s7 :
  set_label_density to_bytes from_bytes fuel density s = Ret a1 s1 ->
  set_label_type to_bytes from_bytes fuel 1 s1 = Ret a2 s2 ->
  start_print to_bytes from_bytes fuel s2 = Ret a3 s3 ->
  start_page_print to_bytes from_bytes fuel s3 = Ret a4 s4 ->
  set_dimension to_bytes from_bytes fuel (height image) (width image) s4 =
    Ret a5 s5 ->
  send_rows to_bytes (_encode_image dither image) s5 = Ret tt s6 ->
  end_page_print to_bytes from_bytes fuel s6 = Ret a6 s7 ->
  print_image to_bytes from_bytes dither fuel image density s =
  finish_print to_bytes from_bytes fuel s7.
Proof.
  intros H1 H2 H3 H4 H5 H6 H7. unfold print_image.
  rewrite (bind_Ret _ _ _ _ _ H1), (bind_Ret _ _ _ _ _ H2),
    (bind_Ret _ _ _ _ _ H3), (bind_Ret _ _ _ _ _ H4),
    (bind_Ret _ _ _ _ _ H5), (bind_Ret _ _ _ _ _ H6),
    (bind_Ret _ _ _ _ _ H7).
  reflexivity.
Qed.

Lemma end_print_retry_raises fuel k s e s' :
  end_print to_bytes from_bytes fuel s = Raise e s' ->
  end_print_retry to_bytes from_bytes fuel (S k) s = Raise e s'.
Proof. intros H. cbn [end_print_retry]. apply bind_Raise. exact H. Qed.

(** C9, what the code does: the status poll ends when a status says idle;
    the session then goes into the end-print loop; in that loop a refused
    end-print is followed by a 100 ms sleep and another end-print, an
    accepted one ends the loop; whatever the number [n] of refusals the
    device answers before it accepts, the loop sends [n + 1] end-print
    requests with [n] sleeps between them and returns.  The earlier steps
    are not fail-fast on a reported failure: whatever flags the six commands
    before the status poll report, the session goes on to the status poll
    and the end-print loop.  What ends a session is a step that raises, and
    this holds inside the loop as it does before it: an end-print that
    raises is not tried again. *)
Theorem end_print_retried_until_accepted fuel image density :
  (forall k s st s',
     get_print_status to_bytes from_bytes fuel s = Ret st s' ->
     wait_idle to_bytes from_bytes fuel (S k) s =
     if idle st then Ret tt s' else wait_idle to_bytes from_bytes fuel k s') /\
  (forall s s8,
     print_until_idle to_bytes from_bytes dither fuel image density s =
       Ret tt s8 ->
     print_image to_bytes from_bytes dither fuel image density s =
     end_print_retry to_bytes from_bytes fuel fuel s8) /\
  (forall k s a s',
     end_print to_bytes from_bytes fuel s = Ret a s' ->
     end_print_retry to_bytes from_bytes fuel (S k) s =
     if a then Ret tt s'
     else end_print_retry to_bytes from_bytes fuel k (after Slept s')) /\
  (forall n s b refusal payload accepted y payload' rest,
     to_bytes end_print_request = Some b ->
     carries to_bytes from_bytes refusal (mkPacket 244 (0 :: payload)) ->
     carries to_bytes from_bytes accepted (mkPacket 244 (y :: payload')) ->
     y <> 0 ->
     pending (_transport s) = repeat refusal n ++ accepted :: rest ->
     _packetbuf s = [] ->
     (2 <= fuel)%nat ->
     (n < fuel)%nat ->
     exists s',
       end_print_retry to_bytes from_bytes fuel fuel s = Ret tt s' /\
       trace s' = trace s ++ retries n /\
       written (_transport s') = written (_transport s) ++ repeat b (S n) /\
       pending (_transport s') = rest) /\
  (forall s a1 s1 a2 s2 a3 s3 a4 s4 a5 s5 s6 a6 s7,
     set_label_density to_bytes from_bytes fuel density s = Ret a1 s1 ->
     set_label_type to_bytes from_bytes fuel 1 s1 = Ret a2 s2 ->
     start_print to_bytes from_bytes fuel s2 = Ret a3 s3 ->
     start_page_print to_bytes from_bytes fuel s3 = Ret a4 s4 ->
     set_dimension to_bytes from_bytes fuel (height image) (width image) s4 =
       Ret a5 s5 ->
     send_rows to_bytes (_encode_image dither image) s5 = Ret tt s6 ->
     end_page_print to_bytes from_bytes fuel s6 = Ret a6 s7 ->
     print_image to_bytes from_bytes dither fuel image density s =
     finish_print to_bytes from_bytes fuel s7) /\
  (forall k s e s',
     end_print to_bytes from_bytes fuel s = Raise e s' ->
     end_print_retry to_bytes from_bytes fuel (S k) s = Raise e s') /\
  (forall s e s',
     print_until_idle to_bytes from_bytes dither fuel image density s =
       Raise e s' ->
     print_image to_bytes from_bytes dither fuel image density s =
       Raise e s').
Proof.
  split; [intros; now apply wait_idle_step|].
  split; [intros; now apply print_image_after_idle|].
  split; [intros; now apply end_print_retry_step|].
  split; [|split; [intros; eapply print_image_discards_all_flags; eassumption|];
           split; [intros; now apply end_print_retry_raises
                  |intros; now apply print_image_fails_fast]].
  intros n s b refusal payload accepted y payload' rest Hb Href Hacc Hy Hp Hbuf
    Hf Hn.
  destruct fuel as [|[|f]]; try lia.
  eapply end_print_retry_refusals; eauto.
Qed.

End Replies.

Lemma bind_assoc {A B C} (m : M A) (f : A -> M B) (g : B -> M C) s :
  bind (bind m f) g s = bind m (fun a => bind (f a) g) s.
Proof. unfold bind. destruct (m s); reflexivity. Qed.

(** ** The flags of the first three steps *)

Section Flags.

Variable to_bytes : NiimbotPacket -> option bytes.
Variable from_bytes : bytes -> option NiimbotPacket.
Variable dither : Z -> Z -> (Z -> Z -> Z) -> Z -> Z -> Z.

Lemma flag_tail (tx : M (option NiimbotPacket)) s a s' :
  (packet <- tx ;; d <- data_of packet ;; flag_of d) s = Ret a s' ->
  reported tx s a s'.
Proof.
  unfold bind, reported. intros H.
  destruct (tx s) as [[p|] s1|e s1|]; try discriminate H.
  cbn in H. destruct (data p) as [|x rest] eqn:Ed; try discriminate H.
  cbn in H. inversion H; subst. exists p, x, rest. auto.
Qed.

Lemma set_label_density_reported fuel n s a s' :
  set_label_density to_bytes from_bytes fuel n s = Ret a s' ->
  reported (_transceive to_bytes from_bytes fuel 33 [n] 16) s a s'.
Proof.
  unfold set_label_density, assertion, bytes1. intros H.
  destruct ((1 <=? n) && (n <=? 5)); [|discriminate H].
  destruct ((0 <=? n) && (n <? 256)); [|discriminate H].
  now apply flag_tail.
Qed.

Lemma set_label_type_reported fuel s a s' :
  set_label_type to_bytes from_bytes fuel 1 s = Ret a s' ->
  reported (_transceive to_bytes from_bytes fuel 35 [1] 16) s a s'.
Proof. intros H. now apply flag_tail. Qed.

Lemma start_print_reported fuel s a s' :
  start_print to_bytes from_bytes fuel s = Ret a s' ->
  reported (_transceive to_bytes from_bytes fuel 1 [1] 1) s a s'.
Proof. intros H. now apply flag_tail. Qed.

Lemma emits_anything_poll fuel attempts respcode resp :
  emits (fun _ => True)
    (_transceive_poll to_bytes from_bytes fuel attempts respcode resp).
Proof. now apply emits_poll. Qed.

Lemma transceive_returned_sent fuel c d off s r s' :
  _transceive to_bytes from_bytes fuel c d off s = Ret r s' ->
  exists evs, trace s' = trace s ++ Sent (mkPacket c d) :: evs.
Proof.
  intros H. destruct (to_bytes (mkPacket c d)) as [b|] eqn:Eb.
  - erewrite transceive_unfold in H by exact Eb.
    pose proof (emits_anything_poll fuel 6 (respcode_of c off) None
                  (handed (mkPacket c d) b s)) as He.
    rewrite H in He. destruct He as [evs [E _]]. exists evs.
    rewrite E. cbn [handed after trace wrote]. now rewrite <- app_assoc.
  - rewrite transceive_refused in H by exact Eb. discriminate H.
Qed.

Lemma reported_sent fuel c d off s a s' :
  reported (_transceive to_bytes from_bytes fuel c d off) s a s' ->
  exists evs, trace s' = trace s ++ Sent (mkPacket c d) :: evs.
Proof. intros (p & x & rest & H & _). eapply transceive_returned_sent; eauto. Qed.

Lemma bind_transceive_sends {B} fuel c d off
      (K : option NiimbotPacket -> M B) s b :
  to_bytes (mkPacket c d) = Some b ->
  (forall a, emits (fun _ => True) (K a)) ->
  match bind (_transceive to_bytes from_bytes fuel c d off) K s with
  | Ret _ s' | Raise _ s' =>
      exists evs, trace s' = trace s ++ Sent (mkPacket c d) :: evs
  | OutOfFuel => True
  end.
Proof.
  intros Hb HK. unfold bind. erewrite transceive_unfold by exact Hb.
  pose proof (emits_anything_poll fuel 6 (respcode_of c off) None
                (handed (mkPacket c d) b s)) as He.
  destruct (_transceive_poll to_bytes from_bytes fuel 6 (respcode_of c off) None
              (handed (mkPacket c d) b s)) as [a s1|e s1|]; auto.
  - destruct He as [evs1 [E1 _]]. specialize (HK a s1).
    destruct (K a s1) as [u s2|e s2|]; auto;
      destruct HK as [evs2 [E2 _]]; exists (evs1 ++ evs2); rewrite E2, E1;
      cbn [handed after trace wrote]; now rewrite <- !app_assoc.
  - destruct He as [evs [E _]]. exists evs. rewrite E.
    cbn [handed after trace wrote]. now rewrite <- app_assoc.
Qed.

Lemma print_page_sends_first fuel image s b :
  to_bytes (mkPacket 3 [1]) = Some b ->
  match print_page to_bytes from_bytes dither fuel image s with
  | Ret _ s' | Raise _ s' =>
      exists evs, trace s' = trace s ++ Sent (mkPacket 3 [1]) :: evs
  | OutOfFuel => True
  end.
Proof.
  intros Hb. unfold print_page, start_page_print.
  rewrite bind_assoc. change (request_code START_PAGE_PRINT) with 3.
  apply bind_transceive_sends with (b := b); [exact Hb|]. intros packet.
  assert (HP : forall c d, c <> 133 ->
                           (fun _ : event => True) (Sent (mkPacket c d)))
    by auto.
  apply emits_bind.
  - apply emits_bind; [auto with trace|]. intros. auto with trace.
  - intros _.
    apply emits_bind; [now apply emits_set_dimension|]. intros _.
    apply emits_bind; [now apply emits_send_rows|]. intros _.
    apply emits_bind; [now apply emits_end_page_print|]. intros _.
    apply emits_bind; [now apply emits_wait_idle|]. intros _.
    now apply emits_end_print_retry.
Qed.

(** C1, what the code does: [print_image] does not look at what the label
    density, label type and start-print commands return.  Whenever the three
    commands return, their flags being the truth values of the first payload
    bytes of their replies, whether true or false, the label type request is
    sent after the density reply and the start-print request after the label
    type reply, and the session goes on from the state the start-print reply
    left with the rest of the sequence, whose first action is to send the
    start-page-print request. *)
Theorem print_image_discards_step_flags fuel image density s a1 s1 a2 s2 a3 s3 :
  set_label_density to_bytes from_bytes fuel density s = Ret a1 s1 ->
  set_label_type to_bytes from_bytes fuel 1 s1 = Ret a2 s2 ->
  start_print to_bytes from_bytes fuel s2 = Ret a3 s3 ->
  reported (_transceive to_bytes from_bytes fuel 33 [density] 16) s a1 s1 /\
  reported (_transceive to_bytes from_bytes fuel 35 [1] 16) s1 a2 s2 /\
  reported (_transceive to_bytes from_bytes fuel 1 [1] 1) s2 a3 s3 /\
  (exists evs, trace s2 = trace s1 ++ Sent (mkPacket 35 [1]) :: evs) /\
  (exists evs, trace s3 = trace s2 ++ Sent (mkPacket 1 [1]) :: evs) /\
  print_image to_bytes from_bytes dither fuel image density s =
    print_page to_bytes from_bytes dither fuel image s3 /\
  (forall b,
     to_bytes (mkPacket 3 [1]) = Some b ->
     match print_page to_bytes from_bytes dither fuel image s3 with
     | Ret _ s' | Raise _ s' =>
         exists evs, trace s' = trace s3 ++ Sent (mkPacket 3 [1]) :: evs
     | OutOfFuel => True
     end).
Proof.
  intros H1 H2 H3.
  pose proof (set_label_density_reported _ _ _ _ _ H1) as R1.
  pose proof (set_label_type_reported _ _ _ _ H2) as R2.
  pose proof (start_print_reported _ _ _ _ H3) as R3.
  repeat split; auto.
  - eapply reported_sent; eauto.
  - eapply reported_sent; eauto.
  - unfold print_image.
    rewrite (bind_Ret _ _ _ _ _ H1), (bind_Ret _ _ _ _ _ H2),
      (bind_Ret _ _ _ _ _ H3). reflexivity.
  - intros b Hb. now apply print_page_sends_first with (b := b).
Qed.

(** ** The reply code of GET_INFO *)

Lemma bytes1_info k : bytes1 (info_value k) = inr [info_value k].
Proof. destruct k; reflexivity. Qed.

(** ** The division of the version numbers

    What [truediv] computes: the quotient has 53 binary digits at the
    exponent it chooses, the mantissa it returns is one of the two integers
    next to the quotient, the nearer one and in a tie the even one, and the
    division by 100 overflows from [100 * (2 ^ 1024 - 2 ^ 970)] on, the
    quotient half way between the largest float and [2 ^ 1024]. *)

Lemma round_half_even_nearest num den :
  0 < den -> 0 <= num ->
  let q := num / den in
  let r := num mod den in
  let m := if (den <? 2 * r) || ((den =? 2 * r) && Z.odd q) then q + 1
           else q in
  2 * Z.abs (num - m * den) <= den.
Proof.
  intros Hd Hn q r m.
  pose proof (Z.div_mod num den ltac:(lia)) as E.
  pose proof (Z.mod_pos_bound num den Hd) as Hr.
  fold q r in E, Hr. subst m.
  destruct (den <? 2 * r) eqn:E1; cbn [orb].
  - apply Z.ltb_lt in E1. nia.
  - apply Z.ltb_ge in E1.
    destruct ((den =? 2 * r) && Z.odd q) eqn:E2.
    + apply andb_true_iff in E2. destruct E2 as [E2 _].
      apply Z.eqb_eq in E2. nia.
    + nia.
Qed.

Lemma truediv_nearest a b x :
  0 < a -> 0 < b -> truediv a b = inr x ->
  (0 <= exponent x ->
   2 * Z.abs (a - mantissa x * (b * 2 ^ exponent x)) <= b * 2 ^ exponent x) /\
  (exponent x < 0 ->
   2 * Z.abs (a * 2 ^ (- exponent x) - mantissa x * b) <= b).
Proof.
  intros Ha Hb. unfold truediv.
  destruct (a =? 0) eqn:Ea; [apply Z.eqb_eq in Ea; lia|clear Ea].
  set (e0 := Z.log2 a - Z.log2 b - 52).
  match goal with
  | |- context [if ?c then e0 - 1 else e0] =>
      set (e := if c then e0 - 1 else e0)
  end.
  clearbody e. clear e0.
  set (num := if 0 <=? e then a else a * 2 ^ (- e)).
  set (den := if 0 <=? e then b * 2 ^ e else b).
  assert (Hden : 0 < den).
  { subst den. destruct (0 <=? e) eqn:E; [apply Z.leb_le in E|lia].
    pose proof (Z.pow_pos_nonneg 2 e ltac:(lia) E). nia. }
  assert (Hnum : 0 <= num).
  { subst num. destruct (0 <=? e) eqn:E; [lia|apply Z.leb_gt in E].
    pose proof (Z.pow_pos_nonneg 2 (- e) ltac:(lia) ltac:(lia)). nia. }
  pose proof (round_half_even_nearest num den Hden Hnum) as Hr.
  cbv zeta in Hr.
  set (m := if (den <? 2 * (num mod den))
               || ((den =? 2 * (num mod den)) && Z.odd (num / den))
            then num / den + 1 else num / den) in *.
  clearbody m.
  destruct (m =? 2 ^ 53) eqn:Em.
  - apply Z.eqb_eq in Em.
    destruct (1024 <? e + 1 + 53); [discriminate|].
    intros H. inversion H; subst x. cbn [mantissa exponent]. clear H.
    subst num den. rewrite Em in Hr.
    destruct (0 <=? e) eqn:E; [apply Z.leb_le in E|apply Z.leb_gt in E].
    + split; [intros _|lia].
      rewrite Z.pow_add_r by lia. change (2 ^ 1) with 2.
      change (2 ^ 53) with (2 ^ 52 * 2) in Hr.
      pose proof (Z.pow_pos_nonneg 2 e ltac:(lia) E). nia.
    + destruct (Z.eq_dec e (-1)) as [->|Hne].
      * split; [intros _|lia].
        change (- -1) with 1 in Hr. change (-1 + 1) with 0.
        change (2 ^ 1) with 2 in Hr. change (2 ^ 0) with 1.
        change (2 ^ 53) with (2 ^ 52 * 2) in Hr. lia.
      * split; [lia|intros _].
        replace (- e) with (1 + - (e + 1)) in Hr by lia.
        rewrite Z.pow_add_r in Hr by lia. change (2 ^ 1) with 2 in Hr.
        change (2 ^ 53) with (2 ^ 52 * 2) in Hr. lia.
  - destruct (1024 <? e + 53); [discriminate|].
    intros H. inversion H; subst x. cbn [mantissa exponent]. clear H.
    subst num den.
    destruct (0 <=? e) eqn:E; [apply Z.leb_le in E|apply Z.leb_gt in E].
    + split; [intros _; exact Hr|lia].
    + split; [lia|intros _; exact Hr].
Qed.

Lemma round_half_even_tie num den :
  0 < den -> 0 <= num ->
  let q := num / den in
  let r := num mod den in
  let m := if (den <? 2 * r) || ((den =? 2 * r) && Z.odd q) then q + 1
           else q in
  2 * Z.abs (num - m * den) = den -> Z.even m = true.
Proof.
  intros Hd Hn q r m.
  pose proof (Z.div_mod num den ltac:(lia)) as E.
  pose proof (Z.mod_pos_bound num den Hd) as Hr.
  fold q r in E, Hr. subst m.
  destruct (den <? 2 * r) eqn:E1; cbn [orb].
  - apply Z.ltb_lt in E1. intros H. exfalso. nia.
  - apply Z.ltb_ge in E1.
    destruct (den =? 2 * r) eqn:E2; cbn [andb].
    + destruct (Z.odd q) eqn:Eo; intros _.
      * change (q + 1) with (Z.succ q). now rewrite Z.even_succ.
      * now rewrite <- Z.negb_odd, Eo.
    + apply Z.eqb_neq in E2. intros H. exfalso. nia.
Qed.

Lemma truediv_ties_to_even a b x :
  0 < a -> 0 < b -> truediv a b = inr x ->
  (0 <= exponent x ->
   2 * Z.abs (a - mantissa x * (b * 2 ^ exponent x)) = b * 2 ^ exponent x ->
   Z.even (mantissa x) = true) /\
  (exponent x < 0 ->
   2 * Z.abs (a * 2 ^ (- exponent x) - mantissa x * b) = b ->
   Z.even (mantissa x) = true).
Proof.
  intros Ha Hb. unfold truediv.
  destruct (a =? 0) eqn:Ea; [apply Z.eqb_eq in Ea; lia|clear Ea].
  set (e0 := Z.log2 a - Z.log2 b - 52).
  match goal with
  | |- context [if ?c then e0 - 1 else e0] =>
      set (e := if c then e0 - 1 else e0)
  end.
  clearbody e. clear e0.
  set (num := if 0 <=? e then a else a * 2 ^ (- e)).
  set (den := if 0 <=? e then b * 2 ^ e else b).
  assert (Hden : 0 < den).
  { subst den. destruct (0 <=? e) eqn:E; [apply Z.leb_le in E|lia].
    pose proof (Z.pow_pos_nonneg 2 e ltac:(lia) E). nia. }
  assert (Hnum : 0 <= num).
  { subst num. destruct (0 <=? e) eqn:E; [lia|apply Z.leb_gt in E].
    pose proof (Z.pow_pos_nonneg 2 (- e) ltac:(lia) ltac:(lia)). nia. }
  pose proof (round_half_even_tie num den Hden Hnum) as Hr.
  cbv zeta in Hr.
  set (m := if (den <? 2 * (num mod den))
               || ((den =? 2 * (num mod den)) && Z.odd (num / den))
            then num / den + 1 else num / den) in *.
  clearbody m.
  destruct (m =? 2 ^ 53) eqn:Em.
  - destruct (1024 <? e + 1 + 53); [discriminate|].
    intros H. inversion H; subst x. cbn [mantissa exponent].
    split; intros _ _; reflexivity.
  - destruct (1024 <? e + 53); [discriminate|].
    intros H. inversion H; subst x. cbn [mantissa exponent]. clear H.
    subst num den.
    destruct (0 <=? e) eqn:E; [apply Z.leb_le in E|apply Z.leb_gt in E].
    + split; [intros _; exact Hr|lia].
    + split; [lia|intros _; exact Hr].
Qed.

Lemma div_between n d lo hi :
  0 < d -> lo * d <= n -> n < hi * d -> lo <= n / d < hi.
Proof.
  intros Hd Hlo Hhi. split.
  - apply Z.div_le_lower_bound; lia.
  - apply Z.div_lt_upper_bound; lia.
Qed.

Lemma div_below n d hi : 0 < d -> n / d < hi -> n < hi * d.
Proof.
  intros Hd H. pose proof (Z.div_mod n d ltac:(lia)).
  pose proof (Z.mod_pos_bound n d Hd). nia.
Qed.

Lemma truediv_digits a b :
  0 < a -> 0 < b ->
  let e0 := Z.log2 a - Z.log2 b - 52 in
  let quotient e :=
    if 0 <=? e then a / (b * 2 ^ e) else (a * 2 ^ (- e)) / b in
  let e := if quotient e0 <? 2 ^ 52 then e0 - 1 else e0 in
  2 ^ 52 <= quotient e < 2 ^ 53.
Proof.
  intros Ha Hb e0 quotient e. subst e.
  destruct (Z.log2_spec a Ha) as [Ha1 Ha2].
  destruct (Z.log2_spec b Hb) as [Hb1 Hb2].
  rewrite Z.pow_succ_r in Ha2, Hb2 by apply Z.log2_nonneg.
  pose proof (Z.log2_nonneg a) as Hla. pose proof (Z.log2_nonneg b) as Hlb.
  set (A := 2 ^ Z.log2 a) in *. set (B := 2 ^ Z.log2 b) in *.
  assert (HB : 0 < B) by (apply Z.pow_pos_nonneg; lia).
  destruct (Z_le_gt_dec 0 e0) as [He0|He0].
  - set (E := 2 ^ e0).
    assert (HE : 0 < E) by (apply Z.pow_pos_nonneg; lia).
    assert (HA : A = B * 2 ^ 52 * E).
    { subst A B E. rewrite <- !Z.pow_add_r by lia. f_equal. subst e0. lia. }
    assert (H0 : 2 ^ 51 <= quotient e0 < 2 ^ 53).
    { unfold quotient. replace (0 <=? e0) with true by (symmetry; apply Z.leb_le; lia).
      fold E. apply div_between; [nia| |].
      - change (2 ^ 52) with (2 ^ 51 * 2) in HA. nia.
      - change (2 ^ 53) with (2 * 2 ^ 52). nia. }
    destruct (quotient e0 <? 2 ^ 52) eqn:Eq; cbv iota;
      [apply Z.ltb_lt in Eq|apply Z.ltb_ge in Eq; lia].
    unfold quotient in Eq.
    replace (0 <=? e0) with true in Eq by (symmetry; apply Z.leb_le; lia).
    fold E in Eq. apply div_below in Eq; [|nia].
    unfold quotient.
    destruct (Z.eq_dec e0 0) as [Hz|Hz].
    + rewrite Hz. change (0 <=? 0 - 1) with false. change (- (0 - 1)) with 1.
      change (2 ^ 1) with 2.
      assert (E = 1) by (subst E; rewrite Hz; reflexivity).
      apply div_between; [lia| |].
      * change (2 ^ 52) with (2 ^ 52) in *. nia.
      * change (2 ^ 53) with (2 * 2 ^ 52). nia.
    + replace (0 <=? e0 - 1) with true by (symmetry; apply Z.leb_le; lia).
      set (E' := 2 ^ (e0 - 1)).
      assert (HE' : 0 < E') by (apply Z.pow_pos_nonneg; lia).
      assert (HEE : E = 2 * E').
      { subst E E'. rewrite <- Z.pow_succ_r by lia. f_equal. lia. }
      apply div_between; [nia| |].
      * nia.
      * change (2 ^ 53) with (2 * 2 ^ 52). nia.
  - set (F := 2 ^ (- e0)).
    assert (HF : 0 < F) by (apply Z.pow_pos_nonneg; lia).
    assert (HA : A * F = B * 2 ^ 52).
    { subst A B F. rewrite <- !Z.pow_add_r by lia. f_equal. subst e0. lia. }
    assert (H0 : 2 ^ 51 <= quotient e0 < 2 ^ 53).
    { unfold quotient. replace (0 <=? e0) with false by (symmetry; apply Z.leb_gt; lia).
      fold F. apply div_between; [lia| |].
      - change (2 ^ 52) with (2 ^ 51 * 2) in HA. nia.
      - change (2 ^ 53) with (2 * 2 ^ 52). nia. }
    destruct (quotient e0 <? 2 ^ 52) eqn:Eq; cbv iota;
      [apply Z.ltb_lt in Eq|apply Z.ltb_ge in Eq; lia].
    unfold quotient in Eq.
    replace (0 <=? e0) with false in Eq by (symmetry; apply Z.leb_gt; lia).
    fold F in Eq. apply div_below in Eq; [|lia].
    unfold quotient.
    replace (0 <=? e0 - 1) with false by (symmetry; apply Z.leb_gt; lia).
    replace (2 ^ (- (e0 - 1))) with (2 * F)
      by (subst F; rewrite <- Z.pow_succ_r by lia; f_equal; lia).
    apply div_between; [lia| |].
    * nia.
    * change (2 ^ 53) with (2 * 2 ^ 52). nia.
Qed.

Lemma truediv_normal a b x :
  0 < a -> 0 < b -> truediv a b = inr x ->
  2 ^ 52 <= mantissa x < 2 ^ 53.
Proof.
  intros Ha Hb. pose proof (truediv_digits a b Ha Hb) as Hq.
  cbv zeta in Hq. unfold truediv.
  destruct (a =? 0) eqn:Ea; [apply Z.eqb_eq in Ea; lia|clear Ea].
  set (e0 := Z.log2 a - Z.log2 b - 52) in *.
  match goal with
  | |- context [if ?c then e0 - 1 else e0] =>
      set (e := if c then e0 - 1 else e0) in *
  end.
  clearbody e. clear e0.
  set (num := if 0 <=? e then a else a * 2 ^ (- e)).
  set (den := if 0 <=? e then b * 2 ^ e else b).
  assert (Hqq : 2 ^ 52 <= num / den < 2 ^ 53)
    by (cbv beta in Hq; subst num den; revert Hq; destruct (0 <=? e);
        intros Hq; exact Hq).
  clear Hq.
  set (m := if (den <? 2 * (num mod den))
               || ((den =? 2 * (num mod den)) && Z.odd (num / den))
            then num / den + 1 else num / den).
  assert (Hm : 2 ^ 52 <= m <= 2 ^ 53) by (subst m; destruct (_ || _); lia).
  clearbody m.
  destruct (m =? 2 ^ 53) eqn:Em.
  - destruct (1024 <? e + 1 + 53); [discriminate|].
    intros H. inversion H. cbn. lia.
  - apply Z.eqb_neq in Em. destruct (1024 <? e + 53); [discriminate|].
    intros H. inversion H. cbn [mantissa]. lia.
Qed.

Lemma truediv_100_overflow a :
  0 < a ->
  (a < 100 * (2 ^ 1024 - 2 ^ 970) -> exists x, truediv a 100 = inr x) /\
  (100 * (2 ^ 1024 - 2 ^ 970) <= a -> truediv a 100 = inl OverflowError).
Proof.
  intros Ha. pose proof (truediv_digits a 100 Ha ltac:(lia)) as Hq.
  cbv zeta in Hq. cbv beta in Hq.
  unfold truediv.
  destruct (a =? 0) eqn:Ea; [apply Z.eqb_eq in Ea; lia|clear Ea].
  set (e0 := Z.log2 a - Z.log2 100 - 52) in *.
  match goal with
  | |- context [if ?c then e0 - 1 else e0] =>
      set (e := if c then e0 - 1 else e0) in *
  end.
  clearbody e. clear e0.
  set (num := if 0 <=? e then a else a * 2 ^ (- e)).
  set (den := if 0 <=? e then 100 * 2 ^ e else 100).
  assert (Hqq : 2 ^ 52 <= num / den < 2 ^ 53)
    by (subst num den; revert Hq; destruct (0 <=? e); intros Hq; exact Hq).
  clear Hq.
  assert (Hden : 0 < den).
  { subst den. destruct (0 <=? e) eqn:E; [apply Z.leb_le in E|lia].
    pose proof (Z.pow_pos_nonneg 2 e ltac:(lia) E). lia. }
  pose proof (Z.div_mod num den ltac:(lia)) as Hdm.
  pose proof (Z.mod_pos_bound num den Hden) as Hr.
  set (q := num / den) in *. set (r := num mod den) in *.
  assert (Hodd : q = 2 ^ 53 - 1 -> Z.odd q = true) by (intros ->; reflexivity).
  set (up := (den <? 2 * r) || ((den =? 2 * r) && Z.odd q)).
  assert (Hup : up = true <-> den < 2 * r \/ (den = 2 * r /\ Z.odd q = true)).
  { subst up. rewrite orb_true_iff, andb_true_iff, Z.ltb_lt, Z.eqb_eq.
    reflexivity. }
  assert (Hm : 2 ^ 52 <= (if up then q + 1 else q) <= 2 ^ 53)
    by (destruct up; lia).
  assert (Hmq : (if up then q + 1 else q) = 2 ^ 53 <->
                q = 2 ^ 53 - 1 /\ up = true).
  { destruct up; split; intros H; try lia; destruct H; try lia; discriminate. }
  set (m := if up then q + 1 else q) in *.
  assert (Hnum : (0 <= e -> num = a /\ den = 100 * 2 ^ e) /\
                 (e < 0 -> a <= num /\ den = 100)).
  { subst num den. split; intros He.
    - replace (0 <=? e) with true by (symmetry; apply Z.leb_le; lia). auto.
    - replace (0 <=? e) with false by (symmetry; apply Z.leb_gt; lia).
      pose proof (Z.pow_pos_nonneg 2 (- e) ltac:(lia) ltac:(lia)).
      split; [nia|reflexivity]. }
  destruct Hnum as [Hpos Hneg].
  assert (Hqd : den * 2 ^ 52 <= den * q) by (apply Z.mul_le_mono_nonneg_l; lia).
  assert (Hqd' : den * q <= den * (2 ^ 53 - 1))
    by (apply Z.mul_le_mono_nonneg_l; lia).
  clearbody m up q r num den.
  destruct (Z_le_gt_dec 972 e) as [He|He].
  - (* the quotient is 2 ^ 1024 or more *)
    destruct (Hpos ltac:(lia)) as [-> ->].
    pose proof (Z.pow_le_mono_r 2 972 e ltac:(lia) He) as Hp.
    assert (100 * 2 ^ 1024 <= a).
    { change (100 * 2 ^ 1024) with (100 * 2 ^ 972 * 2 ^ 52).
      apply Z.le_trans with (100 * 2 ^ e * 2 ^ 52); [|lia].
      apply Z.mul_le_mono_nonneg_r; lia. }
    split; [intros Hlt; exfalso; lia|intros _].
    destruct (m =? 2 ^ 53);
      [replace (1024 <? e + 1 + 53) with true
         by (symmetry; apply Z.ltb_lt; lia)
      |replace (1024 <? e + 53) with true
         by (symmetry; apply Z.ltb_lt; lia)];
      reflexivity.
  - destruct (Z.eq_dec e 971) as [->|Hne].
    + (* the last exponent of the floats *)
      destruct (Hpos ltac:(lia)) as [-> ->].
      change (1024 <? 971 + 1 + 53) with true.
      change (1024 <? 971 + 53) with false.
      assert (HT : 2 * (100 * (2 ^ 1024 - 2 ^ 970)) =
                   (2 ^ 54 - 1) * (100 * 2 ^ 971)) by reflexivity.
      set (D := 100 * 2 ^ 971) in *.
      assert (HD : 0 < D) by (subst D; reflexivity).
      clearbody D.
      destruct (m =? 2 ^ 53) eqn:Em;
        [apply Z.eqb_eq in Em|apply Z.eqb_neq in Em].
      * apply Hmq in Em. destruct Em as [Eq Eu]. apply Hup in Eu.
        split; [intros Hlt; exfalso|reflexivity]. subst q. nia.
      * split; [eexists; reflexivity|intros Hge; exfalso].
        apply Em. apply Hmq.
        assert (Eq : q = 2 ^ 53 - 1).
        { destruct (Z.eq_dec q (2 ^ 53 - 1)) as [E|E]; [exact E|exfalso].
          assert (D * q <= D * (2 ^ 53 - 2))
            by (apply Z.mul_le_mono_nonneg_l; lia).
          nia. }
        split; [exact Eq|]. apply Hup. specialize (Hodd Eq). subst q.
        destruct (Z_lt_le_dec D (2 * r)) as [Hl|Hl]; [left; exact Hl|right].
        split; [nia|exact Hodd].
    + (* a float below the last exponent *)
      assert (He' : e <= 970) by lia.
      assert (Hlt : a < 100 * (2 ^ 1024 - 2 ^ 970)).
      { destruct (Z_le_gt_dec 0 e) as [H0|H0].
        - destruct (Hpos H0) as [-> ->].
          pose proof (Z.pow_le_mono_r 2 e 970 ltac:(lia) He') as Hp.
          pose proof (Z.pow_pos_nonneg 2 e ltac:(lia) H0) as Hp0.
          assert (100 * 2 ^ e * 2 ^ 53 <= 100 * 2 ^ 970 * 2 ^ 53)
            by (apply Z.mul_le_mono_nonneg_r; lia).
          assert (100 * 2 ^ 970 * 2 ^ 53 < 100 * (2 ^ 1024 - 2 ^ 970))
            by reflexivity.
          nia.
        - destruct (Hneg ltac:(lia)) as [Hn ->].
          assert (100 * 2 ^ 53 < 100 * (2 ^ 1024 - 2 ^ 970)) by reflexivity.
          nia. }
      split; [intros _|intros Hge; exfalso; lia].
      destruct (m =? 2 ^ 53);
        [replace (1024 <? e + 1 + 53) with false
           by (symmetry; apply Z.ltb_ge; lia)
        |replace (1024 <? e + 53) with false
           by (symmetry; apply Z.ltb_ge; lia)];
        eexists; reflexivity.
Qed.

Lemma truediv_examples :
  truediv 0 100 = inr {| mantissa := 0; exponent := 0 |} /\
  truediv 1 100 = inr {| mantissa := 5764607523034235; exponent := -59 |} /\
  truediv 300 100 = inr {| mantissa := 6755399441055744; exponent := -51 |} /\
  truediv (100 * (2 ^ 53 + 1)) 100 =
    inr {| mantissa := 4503599627370496; exponent := 1 |} /\
  truediv (100 * (2 ^ 1024 - 2 ^ 970) - 1) 100 =
    inr {| mantissa := 2 ^ 53 - 1; exponent := 971 |} /\
  truediv (100 * (2 ^ 1024 - 2 ^ 970)) 100 = inl OverflowError.
Proof. repeat split; vm_compute; reflexivity. Qed.

(** C3, what the code does: for every info key [k] the request GET_INFO for
    [k] waits for the frame type 64 + k, the code of GET_INFO plus the key: a
    reply of that type is what [get_info] makes its result of, and a frame
    whose type is [k] itself is unrelated to the request.  The result is a
    value for every key but the two version keys, whose division by 100
    raises [OverflowError] exactly when the number of the payload is
    [100 * (2 ^ 1024 - 2 ^ 970)] or more, too large for a float. *)
Theorem get_info_waits_for_offset_code (k : InfoEnum) fuel s b fr p rest :
  to_bytes (mkPacket (request_code GET_INFO) [info_value k]) = Some b ->
  pending (_transport s) = fr :: rest ->
  _packetbuf s = [] ->
  carries to_bytes from_bytes fr p ->
  type p = 64 + info_value k ->
  respcode_of (request_code GET_INFO) (info_value k) = 64 + info_value k /\
  get_info to_bytes from_bytes (S (S fuel)) (info_value k) s =
    match info_of (info_value k) p with
    | inr v =>
        Ret (Some v)
          (replied (mkPacket (request_code GET_INFO) [info_value k]) b rest s)
    | inl e =>
        Raise e
          (replied (mkPacket (request_code GET_INFO) [info_value k]) b rest s)
    end /\
  (k <> SOFTVERSION /\ k <> HARDVERSION \/
   0 <= _packet_to_int p < 100 * (2 ^ 1024 - 2 ^ 970) ->
   exists v, info_of (info_value k) p = inr v) /\
  (k = SOFTVERSION \/ k = HARDVERSION ->
   100 * (2 ^ 1024 - 2 ^ 970) <= _packet_to_int p ->
   info_of (info_value k) p = inl OverflowError) /\
  (forall q,
     type q = info_value k ->
     unrelated (respcode_of (request_code GET_INFO) (info_value k)) q).
Proof.
  intros Hb Hp Hbuf Hc Ht.
  assert (Hr : respcode_of (request_code GET_INFO) (info_value k) =
               64 + info_value k)
    by (unfold respcode_of; cbn [request_code]; lia).
  assert (Hfits : 0 <= _packet_to_int p < 100 * (2 ^ 1024 - 2 ^ 970) ->
                  exists x, truediv (_packet_to_int p) 100 = inr x).
  { intros [H0 H]. destruct (Z.eq_dec (_packet_to_int p) 0) as [->|Hnz];
      [eexists; reflexivity|].
    now apply truediv_100_overflow; [lia|]. }
  split; [exact Hr|]. split; [|split; [|split]].
  - unfold get_info. rewrite bytes1_info. cbn [lift]. unfold bind at 1. cbn [ret].
    erewrite bind_Ret
      by (apply transceive_reply with (fr := fr) (rest := rest) (b := b);
          [exact Hb|exact Hp|exact Hbuf|exact Hc|now rewrite Hr
          |split; rewrite Ht; destruct k; discriminate]).
    unfold info_of.
    destruct k; cbn [info_value Z.eqb Pos.eqb orb]; try reflexivity;
      unfold bind, lift, ebind;
      destruct (truediv (_packet_to_int p) 100); reflexivity.
  - intros H. unfold info_of.
    destruct k; cbn [info_value Z.eqb Pos.eqb orb];
      try (eexists; reflexivity);
      (destruct H as [[Hs Hh]|Hn]; [contradiction|]);
      destruct (Hfits Hn) as [x ->]; eexists; reflexivity.
  - intros Hk Hn. unfold info_of.
    assert (Hov : truediv (_packet_to_int p) 100 = inl OverflowError)
      by (apply truediv_100_overflow; [|exact Hn];
          assert (0 < 100 * (2 ^ 1024 - 2 ^ 970)) by reflexivity; lia).
    destruct Hk as [-> | ->]; cbn [info_value Z.eqb Pos.eqb orb];
      rewrite Hov; reflexivity.
  - intros q Hq. unfold unrelated. rewrite Hr, Hq.
    repeat split; destruct k; cbn; lia.
Qed.

End Flags.

(** ** Runs on the reference codec *)

(** Closes a goal [carries ref_to_bytes ref_from_bytes fr p] on concrete
    data. *)
Ltac carries_ref :=
  unfold carries; repeat split;
  try (vm_compute; reflexivity); try (vm_compute; discriminate).

(** C1 as stated fails: a device that reports failure (first payload byte 0)
    for the label density, the label type and the start of the print does not
    stop the session; [print_image] sends every later command and
    returns. *)
Lemma failure_flags_do_not_stop_the_session :
  exists s1 s',
    set_label_density ref_to_bytes ref_from_bytes 3 3
      (new_client (answering 0 0 0)) = Ret false s1 /\
    print_image ref_to_bytes ref_from_bytes threshold 3 white_1x8 3
      (new_client (answering 0 0 0)) = Ret tt s' /\
    trace s' =
      [Sent (mkPacket 33 [3]); Sent (mkPacket 35 [1]); Sent (mkPacket 1 [1]);
       Sent (mkPacket 3 [1]); Sent (mkPacket 19 [0; 1; 0; 8]);
       Sent (mkPacket 133 [0; 0; 0; 0; 0; 1; 0]); Sent (mkPacket 227 [1]);
       Sent (mkPacket 163 [1]); Sent (mkPacket 243 [1]); Slept;
       Sent (mkPacket 243 [1])].
Proof.
  eexists. eexists.
  split; [lazy; reflexivity|]. split; [lazy; reflexivity|]. reflexivity.
Qed.

Lemma print_image_discards_step_flags_witness :
  exists s1 s2 s3,
    set_label_density ref_to_bytes ref_from_bytes 3 3
      (new_client (answering 0 0 0)) = Ret false s1 /\
    set_label_type ref_to_bytes ref_from_bytes 3 1 s1 = Ret false s2 /\
    start_print ref_to_bytes ref_from_bytes 3 s2 = Ret false s3 /\
    print_image ref_to_bytes ref_from_bytes threshold 3 white_1x8 3
      (new_client (answering 0 0 0)) =
    print_page ref_to_bytes ref_from_bytes threshold 3 white_1x8 s3.
Proof.
  eexists. eexists. eexists.
  split; [lazy; reflexivity|]. split; [lazy; reflexivity|].
  split; [lazy; reflexivity|].
  eapply (print_image_discards_step_flags ref_to_bytes ref_from_bytes threshold
            3 white_1x8 3 (new_client (answering 0 0 0)) false _ false _ false _);
    lazy; reflexivity.
Defined.

(** C3 as stated fails: the reply to GET_INFO for the key DENSITY (1) is not
    a frame of type 1.  Such a frame is ignored and [get_info] times out; the
    frame that is taken as the reply has type 65. *)
Lemma get_info_ignores_frame_typed_by_key :
  exists s' s'',
    get_info ref_to_bytes ref_from_bytes 2 (info_value DENSITY)
      (new_client (device [frame (info_value DENSITY) [3]])) = Ret None s' /\
    get_info ref_to_bytes ref_from_bytes 2 (info_value DENSITY)
      (new_client (device [frame 65 [3]])) = Ret (Some (InfoInt 3)) s''.
Proof.
  eexists. eexists. split; lazy; reflexivity.
Qed.

Lemma get_info_waits_for_offset_code_witness :
  get_info ref_to_bytes ref_from_bytes 2 (info_value SOFTVERSION)
    (new_client (device [frame 73 [1; 44]])) =
  Ret (Some (InfoFloat {| mantissa := 6755399441055744; exponent := -51 |}))
      (replied (mkPacket 64 [9]) (frame 64 [9]) []
         (new_client (device [frame 73 [1; 44]]))) /\
  get_info ref_to_bytes ref_from_bytes 2 (info_value SOFTVERSION)
    (new_client (device [frame 73 (repeat 255 129)])) =
  Raise OverflowError
      (replied (mkPacket 64 [9]) (frame 64 [9]) []
         (new_client (device [frame 73 (repeat 255 129)]))).
Proof.
  split.
  - destruct (get_info_waits_for_offset_code ref_to_bytes ref_from_bytes
                SOFTVERSION 0 (new_client (device [frame 73 [1; 44]]))
                (frame 64 [9]) (frame 73 [1; 44]) (mkPacket 73 [1; 44]) [])
      as [_ [H _]];
      [reflexivity | reflexivity | reflexivity | carries_ref | reflexivity |].
    exact H.
  - destruct (get_info_waits_for_offset_code ref_to_bytes ref_from_bytes
                SOFTVERSION 0
                (new_client (device [frame 73 (repeat 255 129)]))
                (frame 64 [9]) (frame 73 (repeat 255 129))
                (mkPacket 73 (repeat 255 129)) [])
      as [_ [H [_ [Hov _]]]];
      [reflexivity | reflexivity | reflexivity | carries_ref | reflexivity |].
    rewrite H, Hov; [reflexivity | left; reflexivity | vm_compute; discriminate].
Defined.

(** A read that brings four frames, the third being the second reply. *)
Lemma transceive_returns_last_match_witness :
  _transceive ref_to_bytes ref_from_bytes 5 1 [1] 1 (new_client crowded) =
  Ret (Some (mkPacket 2 [1]))
      (replied (mkPacket 1 [1]) (frame 1 [1]) [] (new_client crowded)).
Proof.
  destruct (transceive_returns_last_match ref_to_bytes ref_from_bytes 5 5 2
              (handed (mkPacket 1 [1]) (frame 1 [1]) (new_client crowded))
              [mkPacket 221 [9]; mkPacket 2 [0]; mkPacket 2 [1];
               mkPacket 220 [7]]
              (replied (mkPacket 1 [1]) (frame 1 [1]) [] (new_client crowded))
              [mkPacket 221 [9]; mkPacket 2 [0]] (mkPacket 2 [1])
              [mkPacket 220 [7]])
    as [_ [_ H]].
  - vm_compute. reflexivity.
  - reflexivity.
  - repeat constructor; cbn; discriminate.
  - reflexivity.
  - repeat constructor; cbn; discriminate.
  - apply (H 1 [1] 1 (frame 1 [1]) (new_client crowded)); reflexivity.
Defined.

(** A read that brings a reply and then an error frame. *)
Lemma transceive_aborts_on_error_frame_witness :
  _transceive ref_to_bytes ref_from_bytes 5 1 [1] 1 (new_client (failing 219)) =
    Raise ValueError
      (replied (mkPacket 1 [1]) (frame 1 [1]) [] (new_client (failing 219))) /\
  _transceive ref_to_bytes ref_from_bytes 5 1 [1] 1 (new_client (failing 0)) =
    Raise NotImplementedError
      (replied (mkPacket 1 [1]) (frame 1 [1]) [] (new_client (failing 0))).
Proof.
  split.
  - destruct (transceive_aborts_on_error_frame ref_to_bytes ref_from_bytes 5 5 2
                None
                (handed (mkPacket 1 [1]) (frame 1 [1]) (new_client (failing 219)))
                [mkPacket 2 [1]; mkPacket 219 [1]]
                (replied (mkPacket 1 [1]) (frame 1 [1]) []
                   (new_client (failing 219)))
                [mkPacket 2 [1]] (mkPacket 219 [1]) [])
      as [H _].
    + vm_compute. reflexivity.
    + reflexivity.
    + repeat constructor; cbn; discriminate.
    + destruct (H eq_refl) as [_ H'].
      apply (H' 1 [1] 1 (frame 1 [1]) (new_client (failing 219))); reflexivity.
  - destruct (transceive_aborts_on_error_frame ref_to_bytes ref_from_bytes 5 5 2
                None
                (handed (mkPacket 1 [1]) (frame 1 [1]) (new_client (failing 0)))
                [mkPacket 2 [1]; mkPacket 0 [1]]
                (replied (mkPacket 1 [1]) (frame 1 [1]) []
                   (new_client (failing 0)))
                [mkPacket 2 [1]] (mkPacket 0 [1]) [])
      as [_ H].
    + vm_compute. reflexivity.
    + reflexivity.
    + repeat constructor; cbn; discriminate.
    + destruct (H eq_refl) as [_ H'].
      apply (H' 1 [1] 1 (frame 1 [1]) (new_client (failing 0))); reflexivity.
Defined.

(** C9 as stated fails: a failure that an earlier step reports is not
    treated fail-fast.  On a device that reports failure, a flag of 0, for
    all six commands before the status poll, each of them returns [False],
    the session goes on, and [print_image] returns after the end-print
    loop. *)
Lemma reported_failures_are_not_fail_fast :
  exists s1 s2 s3 s4 s5 s6 s7 s',
    set_label_density ref_to_bytes ref_from_bytes 3 3 (new_client unwilling) =
      Ret false s1 /\
    set_label_type ref_to_bytes ref_from_bytes 3 1 s1 = Ret false s2 /\
    start_print ref_to_bytes ref_from_bytes 3 s2 = Ret false s3 /\
    start_page_print ref_to_bytes ref_from_bytes 3 s3 = Ret false s4 /\
    set_dimension ref_to_bytes ref_from_bytes 3 1 8 s4 = Ret false s5 /\
    send_rows ref_to_bytes (_encode_image threshold white_1x8) s5 =
      Ret tt s6 /\
    end_page_print ref_to_bytes ref_from_bytes 3 s6 = Ret false s7 /\
    print_image ref_to_bytes ref_from_bytes threshold 3 white_1x8 3
      (new_client unwilling) = Ret tt s' /\
    trace s' =
      [Sent (mkPacket 33 [3]); Sent (mkPacket 35 [1]); Sent (mkPacket 1 [1]);
       Sent (mkPacket 3 [1]); Sent (mkPacket 19 [0; 1; 0; 8]);
       Sent (mkPacket 133 [0; 0; 0; 0; 0; 1; 0]); Sent (mkPacket 227 [1]);
       Sent (mkPacket 163 [1]); Sent (mkPacket 243 [1]); Slept;
       Sent (mkPacket 243 [1])].
Proof.
  do 8 eexists.
  do 8 (split; [lazy; reflexivity|]). reflexivity.
Qed.

(** Two refusals of end-print, then its acceptance; and a device whose
    six earlier replies all report failure, on which the session reaches
    the status poll with the three last replies still to be read. *)
Lemma end_print_retried_until_accepted_witness :
  (exists s',
     end_print_retry ref_to_bytes ref_from_bytes 3 3
       (new_client (device [frame 244 [0]; frame 244 [0]; frame 244 [1]])) =
       Ret tt s' /\
     trace s' =
       [Sent end_print_request; Slept; Sent end_print_request; Slept;
        Sent end_print_request] /\
     written (_transport s') =
       [frame 243 [1]; frame 243 [1]; frame 243 [1]] /\
     pending (_transport s') = []) /\
  (exists s7,
     print_image ref_to_bytes ref_from_bytes threshold 3 white_1x8 3
       (new_client unwilling) =
     finish_print ref_to_bytes ref_from_bytes 3 s7 /\
     pending (_transport s7) =
       [frame 179 idle_status; frame 244 [0]; frame 244 [1]]).
Proof.
  destruct (end_print_retried_until_accepted ref_to_bytes ref_from_bytes
              threshold 3 white_1x8 3) as [_ [_ [_ [H [H5 _]]]]].
  split.
  - apply (H 2%nat
             (new_client (device [frame 244 [0]; frame 244 [0]; frame 244 [1]]))
             (frame 243 [1]) (frame 244 [0]) [] (frame 244 [1]) 1 [] []);
      try reflexivity; try carries_ref; lia.
  - eexists. split.
    + eapply (H5 (new_client unwilling)); lazy; reflexivity.
    + reflexivity.
Defined.

(** An image without columns, on a device that answers the five commands
    that come before the rows. *)
Lemma zero_width_image_sends_no_row_witness :
  exists s5,
    print_image ref_to_bytes ref_from_bytes threshold 3 no_columns 3
      (new_client (answering 1 1 1)) = Raise ValueError s5 /\
    trace s5 =
      [Sent (mkPacket 33 [3]); Sent (mkPacket 35 [1]); Sent (mkPacket 1 [1]);
       Sent (mkPacket 3 [1]); Sent (mkPacket 19 [0; 2; 0; 0])].
Proof.
  destruct (zero_width_image_sends_no_row ref_to_bytes ref_from_bytes threshold
              3 no_columns 3 (new_client (answering 1 1 1)))
    as [_ [_ [H _]]]; [reflexivity | cbn; lia |].
  eexists. split.
  - eapply H; lazy; reflexivity.
  - reflexivity.
Defined.

(** ** The loop budget is immaterial

    The budget of the model only cuts runs short: a run that finishes with
    some budget finishes in the same way with any larger one. *)

Lemma budget_free_const {A} (m : M A) : budget_free (fun _ => m).
Proof. intros n n' s _ _. reflexivity. Qed.

Lemma budget_free_bind {A B} (m : nat -> M A) (f : nat -> A -> M B) :
  budget_free m ->
  (forall a, budget_free (fun n => f n a)) ->
  budget_free (fun n => bind (m n) (f n)).
Proof.
  intros Hm Hf n n' s Hle Hfin. unfold bind in *.
  assert (Hmfin : finished (m n s)).
  { intros E. rewrite E in Hfin. now apply Hfin. }
  rewrite (Hm n n' s Hle Hmfin).
  destruct (m n s) as [a s1|e s1|]; try reflexivity.
  now apply (Hf a).
Qed.

Section Budget.

Variable to_bytes : NiimbotPacket -> option bytes.
Variable from_bytes : bytes -> option NiimbotPacket.
Variable dither : Z -> Z -> (Z -> Z -> Z) -> Z -> Z -> Z.

Lemma recv_loop_S n packets s :
  _recv_loop to_bytes from_bytes (S n) packets s =
  if 4 <? len (_packetbuf s) then
    if nth 3 (_packetbuf s) 0 + 7 <=? len (_packetbuf s) then
      match from_bytes (firstn (Z.to_nat (nth 3 (_packetbuf s) 0 + 7))
                          (_packetbuf s)) with
      | None => Raise DecodeError s
      | Some p =>
          match to_bytes p with
          | None => Raise EncodeError s
          | Some _ =>
              _recv_loop to_bytes from_bytes n (packets ++ [p])
                {| _transport := _transport s;
                   _packetbuf := skipn (Z.to_nat (nth 3 (_packetbuf s) 0 + 7))
                                   (_packetbuf s);
                   trace := trace s |}
          end
      end
    else _recv_loop to_bytes from_bytes n packets s
  else Ret packets s.
Proof.
  cbn [_recv_loop]. unfold bind at 1. unfold get_packetbuf.
  destruct (4 <? len (_packetbuf s)); [|reflexivity].
  destruct (nth 3 (_packetbuf s) 0 + 7 <=? len (_packetbuf s)); [|reflexivity].
  unfold bind, lift_opt.
  destruct (from_bytes _) as [p|]; cbn [ret raise]; [|reflexivity].
  destruct (to_bytes p); reflexivity.
Qed.

Lemma budget_free_recv_loop packets :
  budget_free (fun n => _recv_loop to_bytes from_bytes n packets).
Proof.
  intros n. revert packets.
  induction n as [|n IH]; intros packets n' s Hle Hfin.
  - exfalso. now apply Hfin.
  - destruct n' as [|n']; [lia|]. rewrite !recv_loop_S.
    rewrite recv_loop_S in Hfin.
    destruct (4 <? len (_packetbuf s)); [|reflexivity].
    destruct (nth 3 (_packetbuf s) 0 + 7 <=? len (_packetbuf s)).
    + destruct (from_bytes _) as [p|]; [|reflexivity].
      destruct (to_bytes p); [|reflexivity].
      apply IH; [lia|exact Hfin].
    + apply IH; [lia|exact Hfin].
Qed.

Lemma budget_free_recv : budget_free (_recv to_bytes from_bytes).
Proof.
  unfold _recv.
  apply (budget_free_bind (fun _ => read 1024)); [apply budget_free_const|].
  intros chunk.
  apply (budget_free_bind (fun _ => get_packetbuf)); [apply budget_free_const|].
  intros buf.
  apply (budget_free_bind (fun _ => set_packetbuf (buf ++ chunk)));
    [apply budget_free_const|].
  intros _. apply budget_free_recv_loop.
Qed.

Lemma budget_free_poll attempts respcode resp :
  budget_free (fun fuel => _transceive_poll to_bytes from_bytes fuel attempts
                             respcode resp).
Proof.
  revert resp. induction attempts as [|k IH]; intros resp.
  - cbn [_transceive_poll]. apply budget_free_const.
  - cbn [_transceive_poll].
    apply (budget_free_bind (_recv to_bytes from_bytes)); [apply budget_free_recv|].
    intros batch.
    apply (budget_free_bind (fun _ => lift (scan_packets respcode batch resp)));
      [apply budget_free_const|].
    intros [p|]; [apply budget_free_const|].
    apply (budget_free_bind (fun _ => sleep)); [apply budget_free_const|].
    intros _. apply IH.
Qed.

Lemma budget_free_transceive reqcode d off :
  budget_free (fun fuel => _transceive to_bytes from_bytes fuel reqcode d off).
Proof.
  unfold _transceive.
  apply (budget_free_bind
           (fun _ => lift_opt EncodeError (to_bytes (mkPacket reqcode d))));
    [apply budget_free_const|].
  intros buff.
  apply (budget_free_bind (fun _ => _log_buffer buff)); [apply budget_free_const|].
  intros _.
  apply (budget_free_bind (fun _ => _send to_bytes (mkPacket reqcode d)));
    [apply budget_free_const|].
  intros _. apply budget_free_poll.
Qed.

(** A command that sends one request and reads the reply. *)
Lemma budget_free_reply {B} reqcode d off (k : bytes -> M B) :
  budget_free (fun fuel =>
                 packet <- _transceive to_bytes from_bytes fuel reqcode d off ;;
                 payload <- data_of packet ;;
                 k payload).
Proof.
  apply (budget_free_bind
           (fun fuel => _transceive to_bytes from_bytes fuel reqcode d off));
    [apply budget_free_transceive|].
  intros packet. apply budget_free_const.
Qed.

Lemma budget_free_set_label_density n :
  budget_free (fun fuel => set_label_density to_bytes from_bytes fuel n).
Proof.
  unfold set_label_density.
  apply (budget_free_bind (fun _ => assertion ((1 <=? n) && (n <=? 5))));
    [apply budget_free_const|].
  intros _.
  apply (budget_free_bind (fun _ => lift (bytes1 n))); [apply budget_free_const|].
  intros payload. apply budget_free_reply.
Qed.

Lemma budget_free_set_label_type n :
  budget_free (fun fuel => set_label_type to_bytes from_bytes fuel n).
Proof.
  unfold set_label_type.
  apply (budget_free_bind (fun _ => assertion ((1 <=? n) && (n <=? 3))));
    [apply budget_free_const|].
  intros _.
  apply (budget_free_bind (fun _ => lift (bytes1 n))); [apply budget_free_const|].
  intros payload. apply budget_free_reply.
Qed.

Lemma budget_free_set_dimension w h :
  budget_free (fun fuel => set_dimension to_bytes from_bytes fuel w h).
Proof.
  unfold set_dimension.
  apply (budget_free_bind (fun _ => lift (pack_HH w h)));
    [apply budget_free_const|].
  intros payload. apply budget_free_reply.
Qed.

Lemma budget_free_get_print_status :
  budget_free (fun fuel => get_print_status to_bytes from_bytes fuel).
Proof.
  unfold get_print_status.
  apply (budget_free_reply _ _ _ (fun d => lift (decode_print_status d))).
Qed.

Lemma budget_free_end_print :
  budget_free (fun fuel => end_print to_bytes from_bytes fuel).
Proof. unfold end_print. apply (budget_free_reply _ _ _ flag_of). Qed.

Lemma budget_free_wait_idle s :
  forall n n' fuel fuel',
    (n <= n')%nat -> (fuel <= fuel')%nat ->
    finished (wait_idle to_bytes from_bytes fuel n s) ->
    wait_idle to_bytes from_bytes fuel' n' s =
    wait_idle to_bytes from_bytes fuel n s.
Proof.
  intros n. revert s. induction n as [|n IH]; intros s n' fuel fuel' Hn Hf Hfin.
  - exfalso. now apply Hfin.
  - destruct n' as [|n']; [lia|].
    assert (Hg : finished (get_print_status to_bytes from_bytes fuel s)).
    { intros E. cbn [wait_idle] in Hfin.
      rewrite (bind_OutOfFuel _ _ _ E) in Hfin. now apply Hfin. }
    pose proof (budget_free_get_print_status fuel fuel' s Hf Hg) as Hg'.
    cbv beta in Hg'.
    destruct (get_print_status to_bytes from_bytes fuel s) as [st s1|e s1|] eqn:E.
    + rewrite (wait_idle_step _ _ _ _ _ _ _ Hg').
      rewrite (wait_idle_step _ _ _ _ _ _ _ E) in *.
      destruct (idle st); [reflexivity|]. apply IH; [lia|exact Hf|exact Hfin].
    + cbn [wait_idle].
      now rewrite (bind_Raise _ _ _ _ _ Hg'), (bind_Raise _ _ _ _ _ E).
    + exfalso. now apply Hg.
Qed.

Lemma budget_free_end_print_retry s :
  forall n n' fuel fuel',
    (n <= n')%nat -> (fuel <= fuel')%nat ->
    finished (end_print_retry to_bytes from_bytes fuel n s) ->
    end_print_retry to_bytes from_bytes fuel' n' s =
    end_print_retry to_bytes from_bytes fuel n s.
Proof.
  intros n. revert s. induction n as [|n IH]; intros s n' fuel fuel' Hn Hf Hfin.
  - exfalso. now apply Hfin.
  - destruct n' as [|n']; [lia|].
    assert (Hg : finished (end_print to_bytes from_bytes fuel s)).
    { intros E. cbn [end_print_retry] in Hfin.
      rewrite (bind_OutOfFuel _ _ _ E) in Hfin. now apply Hfin. }
    pose proof (budget_free_end_print fuel fuel' s Hf Hg) as Hg'.
    cbv beta in Hg'.
    destruct (end_print to_bytes from_bytes fuel s) as [done s1|e s1|] eqn:E.
    + rewrite (end_print_retry_step _ _ _ _ _ _ _ Hg').
      rewrite (end_print_retry_step _ _ _ _ _ _ _ E) in *.
      destruct done; [reflexivity|]. apply IH; [lia|exact Hf|exact Hfin].
    + cbn [end_print_retry].
      now rewrite (bind_Raise _ _ _ _ _ Hg'), (bind_Raise _ _ _ _ _ E).
    + exfalso. now apply Hg.
Qed.

(** The whole session: what [print_image] does when it finishes does not
    depend on the budget it was run with. *)
Lemma budget_free_print_image image density :
  budget_free (fun fuel => print_image to_bytes from_bytes dither fuel image
                             density).
Proof.
  unfold print_image.
  apply (budget_free_bind
           (fun fuel => set_label_density to_bytes from_bytes fuel density));
    [apply budget_free_set_label_density|]. intros _.
  apply (budget_free_bind
           (fun fuel => set_label_type to_bytes from_bytes fuel 1));
    [apply budget_free_set_label_type|]. intros _.
  apply (budget_free_bind (fun fuel => start_print to_bytes from_bytes fuel));
    [apply budget_free_reply|]. intros _.
  apply (budget_free_bind
           (fun fuel => start_page_print to_bytes from_bytes fuel));
    [apply budget_free_reply|]. intros _.
  apply (budget_free_bind
           (fun fuel => set_dimension to_bytes from_bytes fuel (height image)
                          (width image)));
    [apply budget_free_set_dimension|]. intros _.
  apply (budget_free_bind
           (fun _ => send_rows to_bytes (_encode_image dither image)));
    [apply budget_free_const|]. intros _.
  apply (budget_free_bind (fun fuel => end_page_print to_bytes from_bytes fuel));
    [apply budget_free_reply|]. intros _.
  apply (budget_free_bind
           (fun fuel => wait_idle to_bytes from_bytes fuel fuel)).
  - intros n n' s Hle Hfin. now apply budget_free_wait_idle.
  - intros _ n n' s Hle Hfin. now apply budget_free_end_print_retry.
Qed.

End Budget.

(** * Further properties *)

(** ** What a drain pass returns *)

Section DrainPass.

Variable to_bytes : NiimbotPacket -> option bytes.
Variable from_bytes : bytes -> option NiimbotPacket.

Lemma recv_incoming fuel s :
  _recv to_bytes from_bytes fuel s =
  _recv_loop to_bytes from_bytes fuel [] (drained s (incoming s)).
Proof. apply recv_unfold. Qed.

Lemma carries_whole fr p :
  carries to_bytes from_bytes fr p -> whole_frame fr.
Proof. intros (H4 & _ & Hlen & _). split; assumption. Qed.

Lemma recv_loop_frames frs ps :
  Forall2 (fun fr p => whole_frame fr /\ from_bytes fr = Some p /\
                       to_bytes p <> None) frs ps ->
  forall tail n packets s,
    _packetbuf s = List.concat frs ++ tail ->
    len tail <= 4 ->
    (List.length frs < n)%nat ->
    _recv_loop to_bytes from_bytes n packets s =
    Ret (packets ++ ps)
        {| _transport := _transport s; _packetbuf := tail; trace := trace s |}.
Proof.
  induction 1 as [|fr p frs ps [[H4 Hlen] [Hfrom Hto]] _ IH];
    intros tail n packets s Hbuf Htail Hn.
  - destruct n as [|n]; [cbn in Hn; lia|]. cbn [List.concat app] in Hbuf.
    rewrite app_nil_r, recv_loop_short by (rewrite Hbuf; exact Htail).
    destruct s as [t buf tr]. cbn in Hbuf. now subst.
  - destruct n as [|n]; [cbn in Hn; lia|].
    destruct (to_bytes p) as [b|] eqn:Eb; [|contradiction].
    cbn [List.concat] in Hbuf. rewrite <- app_assoc in Hbuf.
    erewrite recv_loop_frame by eauto.
    erewrite IH; [|reflexivity|exact Htail|cbn in Hn; lia].
    cbn [_transport trace]. now rewrite <- app_assoc.
Qed.

Lemma recv_frames_then_tail fuel s frs ps tail :
  Forall2 (fun fr p => whole_frame fr /\ from_bytes fr = Some p /\
                       to_bytes p <> None) frs ps ->
  incoming s = List.concat frs ++ tail ->
  len tail <= 4 ->
  (List.length frs < fuel)%nat ->
  _recv to_bytes from_bytes fuel s = Ret ps (drained s tail).
Proof.
  intros HF Hin Htail Hfuel. rewrite recv_incoming.
  rewrite (recv_loop_frames frs ps HF tail fuel [] (drained s (incoming s)));
    [reflexivity | exact Hin | exact Htail | exact Hfuel].
Qed.

(** X1: a drain pass whose bytes are whole frames, with at most four bytes left
    over, returns the packets of all the frames in their order of arrival
    and keeps the leftover bytes for the next pass. *)
Theorem recv_returns_whole_frames fuel s frs ps tail :
  Forall2 (fun fr p => whole_frame fr /\ from_bytes fr = Some p /\
                       to_bytes p <> None) frs ps ->
  incoming s = List.concat frs ++ tail ->
  len tail <= 4 ->
  (List.length frs < fuel)%nat ->
  _recv to_bytes from_bytes fuel s = Ret ps (drained s tail).
Proof. apply recv_frames_then_tail. Qed.

(** X2: a frame that is split between two reads after at most four bytes is put
    together again: the first pass returns nothing, the second one the
    packet. *)
Theorem recv_joins_short_split fuel s a b p rest w tr :
  s = {| _transport := {| pending := a :: b :: rest; written := w |};
         _packetbuf := []; trace := tr |} ->
  len a <= 4 ->
  len b <= 1024 ->
  whole_frame (a ++ b) ->
  from_bytes (a ++ b) = Some p ->
  to_bytes p <> None ->
  _recv to_bytes from_bytes (S (S fuel)) s =
    Ret [] {| _transport := {| pending := b :: rest; written := w |};
              _packetbuf := a; trace := tr |} /\
  _recv to_bytes from_bytes (S (S fuel))
    {| _transport := {| pending := b :: rest; written := w |};
       _packetbuf := a; trace := tr |} =
    Ret [p] {| _transport := {| pending := rest; written := w |};
               _packetbuf := []; trace := tr |}.
Proof.
  intros -> Ha Hb Hw Hfrom Hto. split.
  - rewrite (recv_frames_then_tail (S (S fuel)) _ [] [] a).
    + unfold drained. cbn [_transport trace].
      rewrite transport_read_chunk by lia. reflexivity.
    + constructor.
    + unfold incoming. cbn [_transport _packetbuf].
      rewrite transport_read_chunk by lia. reflexivity.
    + exact Ha.
    + cbn. lia.
  - rewrite (recv_frames_then_tail (S (S fuel)) _ [a ++ b] [p] []).
    + unfold drained. cbn [_transport trace].
      rewrite transport_read_chunk by lia. reflexivity.
    + constructor; [auto | constructor].
    + unfold incoming. cbn [_transport _packetbuf].
      rewrite transport_read_chunk by lia. cbn. now rewrite !app_nil_r.
    + cbn. lia.
    + cbn. lia.
Qed.

Lemma recv_loop_sound n :
  forall packets s batch s',
    Forall is_byte (_packetbuf s) ->
    _recv_loop to_bytes from_bytes n packets s = Ret batch s' ->
    exists frs ps,
      batch = packets ++ ps /\
      Forall2 (cut_as from_bytes) frs ps /\
      _packetbuf s = List.concat frs ++ _packetbuf s' /\
      len (_packetbuf s') <= 4 /\
      _transport s' = _transport s /\ trace s' = trace s.
Proof.
  induction n as [|n IH]; intros packets s batch s' Hbytes H;
    [discriminate H|].
  rewrite recv_loop_S in H.
  destruct (4 <? len (_packetbuf s)) eqn:E4.
  - apply Z.ltb_lt in E4.
    destruct (nth 3 (_packetbuf s) 0 + 7 <=? len (_packetbuf s)) eqn:El.
    + apply Z.leb_le in El.
      set (k := Z.to_nat (nth 3 (_packetbuf s) 0 + 7)) in *.
      assert (H3 : 0 <= nth 3 (_packetbuf s) 0).
      { rewrite Forall_forall in Hbytes.
        apply (Hbytes (nth 3 (_packetbuf s) 0)). apply nth_In.
        unfold len in E4. lia. }
      destruct (from_bytes (firstn k (_packetbuf s))) as [p|] eqn:Ef;
        [|discriminate H].
      destruct (to_bytes p); [|discriminate H].
      apply IH in H.
      * destruct H as (frs & ps & -> & HF & Hbuf & Hlen & Ht & Htr).
        cbn [_packetbuf _transport trace] in *.
        exists (firstn k (_packetbuf s) :: frs), (p :: ps).
        repeat split; auto.
        -- now rewrite <- app_assoc.
        -- constructor; [|exact HF]. split; [|exact Ef].
           assert (Hk : len (firstn k (_packetbuf s)) =
                        nth 3 (_packetbuf s) 0 + 7).
           { unfold len in *. rewrite length_firstn. subst k. lia. }
           rewrite Hk, nth_firstn.
           replace (3 <? k)%nat with true; [reflexivity|].
           symmetry. apply Nat.ltb_lt. subst k. lia.
        -- cbn [List.concat]. rewrite <- app_assoc, <- Hbuf.
           now rewrite firstn_skipn.
      * cbn [_packetbuf].
        rewrite <- (firstn_skipn k (_packetbuf s)) in Hbytes.
        now apply Forall_app in Hbytes.
    + apply IH in H; [|exact Hbytes]. exact H.
  - apply Z.ltb_ge in E4. inversion H; subst.
    exists [], []. rewrite app_nil_r. repeat split; auto using Forall2_nil.
Qed.

(** X3: whenever a drain pass returns, it has cut its packets off the head of
    the bytes it worked on, one frame of [length byte + 7] bytes after the
    other, in order; what it leaves in the buffer is the remainder, at most
    four bytes; no byte is lost or moved. *)
Theorem recv_cuts_frames_in_order fuel s batch s' :
  Forall is_byte (incoming s) ->
  _recv to_bytes from_bytes fuel s = Ret batch s' ->
  exists frs,
    Forall2 (cut_as from_bytes) frs batch /\
    incoming s = List.concat frs ++ _packetbuf s' /\
    len (_packetbuf s') <= 4 /\
    s' = drained s (_packetbuf s').
Proof.
  intros Hb H. rewrite recv_incoming in H.
  apply recv_loop_sound in H; [|exact Hb].
  destruct H as (frs & ps & -> & HF & Hbuf & Hlen & Ht & Htr).
  exists frs. repeat split; auto.
  destruct s' as [t' buf' tr']. cbn in *. unfold drained. now subst.
Qed.

(** X4: a drain pass whose bytes end inside a frame, more than four bytes into
    it, never returns, whatever whole frames come before the broken one:
    their packets are never handed to the caller. *)
Theorem recv_hangs_inside_frame s frs ps tail :
  Forall2 (fun fr p => whole_frame fr /\ from_bytes fr = Some p /\
                       to_bytes p <> None) frs ps ->
  incoming s = List.concat frs ++ tail ->
  broken_frame tail ->
  forall fuel, _recv to_bytes from_bytes fuel s = OutOfFuel.
Proof.
  intros HF Hin [H4 Hlen] fuel. rewrite recv_incoming.
  assert (Hgen : forall n packets s0,
             _packetbuf s0 = List.concat frs ++ tail ->
             _recv_loop to_bytes from_bytes n packets s0 = OutOfFuel).
  { clear Hin. induction HF as [|fr p frs ps [[Hf4 Hflen] [Hfrom Hto]] _ IH];
      intros n packets s0 Hbuf.
    - cbn in Hbuf. apply recv_loop_stuck; rewrite Hbuf; assumption.
    - destruct n as [|n]; [reflexivity|].
      destruct (to_bytes p) as [b|] eqn:Eb; [|contradiction].
      cbn [List.concat] in Hbuf. rewrite <- app_assoc in Hbuf.
      erewrite recv_loop_frame by eauto. apply IH. reflexivity. }
  apply Hgen. exact Hin.
Qed.

(** X5: a frame that the codec refuses is never removed from the buffer: the
    drain pass raises with the frame still at the head of the buffer, and so
    does every later pass, whatever the transport brings. *)
Theorem recv_keeps_refused_frame fuel s fr rest :
  incoming s = fr ++ rest ->
  whole_frame fr ->
  from_bytes fr = None ->
  _recv to_bytes from_bytes (S fuel) s =
    Raise DecodeError (drained s (fr ++ rest)) /\
  forall fuel' s1,
    _packetbuf s1 = fr ++ rest ->
    _recv to_bytes from_bytes (S fuel') s1 =
      Raise DecodeError (drained s1 (incoming s1)).
Proof.
  intros Hin [H4 Hlen] Hfrom.
  assert (Hgen : forall f s0 more,
             incoming s0 = fr ++ more ->
             _recv to_bytes from_bytes (S f) s0 =
             Raise DecodeError (drained s0 (incoming s0))).
  { intros f s0 more Hs0. rewrite recv_incoming, recv_loop_S.
    cbn [drained _packetbuf]. rewrite Hs0.
    assert (Hn : nth 3 (fr ++ more) 0 = nth 3 fr 0)
      by (apply app_nth1; unfold len in H4; lia).
    assert (Hl : len (fr ++ more) = len fr + len more)
      by (unfold len; rewrite length_app; lia).
    replace (4 <? len (fr ++ more)) with true
      by (symmetry; apply Z.ltb_lt; unfold len in *; lia).
    rewrite Hn.
    replace (nth 3 fr 0 + 7 <=? len (fr ++ more)) with true
      by (symmetry; apply Z.leb_le; unfold len in *; lia).
    rewrite Hlen. unfold len at 1. rewrite Nat2Z.id.
    rewrite firstn_app, Nat.sub_diag, firstn_all, firstn_O, app_nil_r.
    now rewrite Hfrom. }
  split.
  - rewrite (Hgen fuel s rest Hin). now rewrite Hin.
  - intros fuel' s1 Hs1.
    apply (Hgen fuel' s1
             (rest ++ fst (transport_read 1024 (_transport s1)))).
    unfold incoming. now rewrite Hs1, <- app_assoc.
Qed.

End DrainPass.

(** ** When the reply comes, and what is thrown away *)

Section Waiting.

Variable to_bytes : NiimbotPacket -> option bytes.
Variable from_bytes : bytes -> option NiimbotPacket.

Lemma silent_polls_skip fuel respcode k s s1 :
  silent_polls to_bytes from_bytes fuel respcode k s s1 ->
  forall m,
    _transceive_poll to_bytes from_bytes fuel (k + m) respcode None s =
    _transceive_poll to_bytes from_bytes fuel m respcode None s1.
Proof.
  revert s. induction k as [|k IH]; intros s H m.
  - cbn in H. now subst.
  - destruct H as (batch & s' & Hr & Hb & H).
    cbn [Nat.add]. erewrite poll_step by exact Hr.
    rewrite scan_unrelated by exact Hb. now apply IH.
Qed.

Lemma silent_polls_trace fuel respcode k s s1 :
  silent_polls to_bytes from_bytes fuel respcode k s s1 ->
  trace s1 = trace s ++ repeat Slept k.
Proof. intros H. now destruct (silent_polls_timeout _ _ _ _ _ _ _ H). Qed.

(** X6: a reply that comes with the poll after [k] silent ones, [k] being at
    most 5, is returned after exactly [k] sleeps of 100 ms: the request is
    sent once and nothing else is. *)
Theorem transceive_returns_after_k_sleeps fuel reqcode d off b s k s1 batch s2
        pre p post :
  to_bytes (mkPacket reqcode d) = Some b ->
  (k < 6)%nat ->
  silent_polls to_bytes from_bytes fuel (respcode_of reqcode off) k
    (handed (mkPacket reqcode d) b s) s1 ->
  _recv to_bytes from_bytes fuel s1 = Ret batch s2 ->
  batch = pre ++ p :: post ->
  Forall not_error batch ->
  type p = respcode_of reqcode off ->
  Forall (fun q => type q <> respcode_of reqcode off) post ->
  _transceive to_bytes from_bytes fuel reqcode d off s = Ret (Some p) s2 /\
  trace s2 = trace s ++ Sent (mkPacket reqcode d) :: repeat Slept k.
Proof.
  intros Hb Hk Hs Hr -> Hclean Hp Hpost. split.
  - erewrite transceive_unfold by exact Hb.
    replace 6%nat with (k + S (5 - k))%nat by lia.
    rewrite (silent_polls_skip _ _ _ _ _ Hs).
    erewrite poll_step by exact Hr.
    now rewrite (scan_last_match _ pre p post None Hclean Hp Hpost).
  - pose proof (recv_trace to_bytes from_bytes fuel s1) as Ht.
    rewrite Hr in Ht. rewrite Ht, (silent_polls_trace _ _ _ _ _ Hs).
    cbn [handed after trace wrote]. now rewrite <- app_assoc.
Qed.

Lemma recv_silence fuel s :
  pending (_transport s) = [] ->
  _packetbuf s = [] ->
  _recv to_bytes from_bytes (S fuel) s = Ret [] s.
Proof.
  intros Hp Hb.
  rewrite (recv_frames_then_tail to_bytes from_bytes (S fuel) s [] [] []).
  - destruct s as [[pend w] buf tr]. cbn in Hp, Hb. subst. reflexivity.
  - constructor.
  - destruct s as [[pend w] buf tr]. cbn in Hp, Hb. subst. reflexivity.
  - cbn. lia.
  - cbn. lia.
Qed.

Lemma silent_polls_silence fuel respcode n s :
  pending (_transport s) = [] ->
  _packetbuf s = [] ->
  exists s',
    silent_polls to_bytes from_bytes (S fuel) respcode n s s' /\
    pending (_transport s') = [] /\ _packetbuf s' = [].
Proof.
  revert s. induction n as [|n IH]; intros s Hp Hb.
  - exists s. cbn. auto.
  - destruct (IH (after Slept s) Hp Hb) as (s' & H & Hp' & Hb').
    exists s'. split; [|auto]. exists [], s.
    split; [now apply recv_silence|]. split; [constructor|exact H].
Qed.

(** A request whose reply does not come, on a device that stays silent,
    times out. *)
Lemma transceive_silence fuel reqcode d off b s :
  to_bytes (mkPacket reqcode d) = Some b ->
  pending (_transport s) = [] ->
  _packetbuf s = [] ->
  exists s',
    _transceive to_bytes from_bytes (S fuel) reqcode d off s = Ret None s' /\
    trace s' = trace s ++ Sent (mkPacket reqcode d) :: repeat Slept 6
                 ++ [TimedOut].
Proof.
  intros Hb Hp Hbuf.
  destruct (silent_polls_silence fuel (respcode_of reqcode off) 6
              (handed (mkPacket reqcode d) b s) Hp Hbuf) as (s' & H & _).
  exists (after TimedOut s').
  destruct (silent_polls_timeout _ _ _ _ _ _ _ H) as [H1 H2]. split.
  - erewrite transceive_unfold by exact Hb. exact H1.
  - cbn [after trace]. rewrite H2. cbn [handed after trace wrote].
    now rewrite <- !app_assoc.
Qed.

(** X7: a frame that arrives in the same read as the awaited reply and is not
    that reply is thrown away: when the replies to two requests come in one
    read, the first request gets its reply and the second one, sent
    afterwards, times out. *)
Theorem transceive_drops_other_frames fuel s w tr fr1 p1 fr2 p2
        reqcode1 d1 off1 b1 reqcode2 d2 off2 b2 :
  s = {| _transport := {| pending := [fr1 ++ fr2]; written := w |};
         _packetbuf := []; trace := tr |} ->
  len (fr1 ++ fr2) <= 1024 ->
  carries to_bytes from_bytes fr1 p1 ->
  carries to_bytes from_bytes fr2 p2 ->
  to_bytes (mkPacket reqcode1 d1) = Some b1 ->
  to_bytes (mkPacket reqcode2 d2) = Some b2 ->
  type p1 = respcode_of reqcode1 off1 ->
  type p2 = respcode_of reqcode2 off2 ->
  type p2 <> respcode_of reqcode1 off1 ->
  not_error p1 -> not_error p2 ->
  exists s1 s2,
    _transceive to_bytes from_bytes (S (S (S fuel))) reqcode1 d1 off1 s =
      Ret (Some p1) s1 /\
    _transceive to_bytes from_bytes (S (S (S fuel))) reqcode2 d2 off2 s1 =
      Ret None s2.
Proof.
  intros -> Hlen Hc1 Hc2 Hb1 Hb2 Ht1 Ht2 Hne He1 He2.
  set (s0 := {| _transport := {| pending := [fr1 ++ fr2]; written := w |};
                _packetbuf := []; trace := tr |}).
  set (s1 := replied (mkPacket reqcode1 d1) b1 [] s0).
  exists s1.
  assert (Hr : _recv to_bytes from_bytes (S (S (S fuel)))
                 (handed (mkPacket reqcode1 d1) b1 s0) = Ret [p1; p2] s1).
  { rewrite (recv_frames_then_tail to_bytes from_bytes _ _ [fr1; fr2]
               [p1; p2] []).
    - unfold drained, s1, replied, handed, after, wrote, s0, transport_write.
      cbn [_transport _packetbuf trace pending written].
      rewrite transport_read_chunk by exact Hlen. reflexivity.
    - destruct Hc1 as (? & ? & ? & ? & ?), Hc2 as (? & ? & ? & ? & ?).
      repeat constructor; auto.
    - unfold incoming, handed, after, wrote, s0, transport_write.
      cbn [_transport _packetbuf trace pending written].
      rewrite transport_read_chunk by exact Hlen.
      cbn [List.concat fst app]. now rewrite !app_nil_r.
    - cbn. lia.
    - cbn. lia. }
  destruct (transceive_silence (S (S fuel)) reqcode2 d2 off2 b2 s1 Hb2
              eq_refl eq_refl) as (s2 & H2 & _).
  exists s2. split; [|exact H2].
  erewrite transceive_unfold by exact Hb1.
  erewrite poll_step by exact Hr.
  assert (Hs : scan_packets (respcode_of reqcode1 off1) ([] ++ p1 :: [p2]) None =
               inr (Some p1)).
  { apply scan_last_match; [|exact Ht1|].
    - constructor; [exact He1|]. constructor; [exact He2|constructor].
    - constructor; [exact Hne|constructor]. }
  cbn [app] in Hs. now rewrite Hs.
Qed.

(** X8: [get_info] is the command that survives a timeout: when its six polls
    bring nothing related to the request, it returns [None] and raises
    nothing. *)
Theorem get_info_returns_none_on_timeout fuel key b s s' :
  0 <= key < 256 ->
  to_bytes (mkPacket (request_code GET_INFO) [key]) = Some b ->
  silent_polls to_bytes from_bytes fuel
    (respcode_of (request_code GET_INFO) key) 6
    (handed (mkPacket (request_code GET_INFO) [key]) b s) s' ->
  get_info to_bytes from_bytes fuel key s = Ret None (after TimedOut s').
Proof.
  intros Hk Hb H. unfold get_info, bytes1.
  replace ((0 <=? key) && (key <? 256)) with true
    by (symmetry; apply andb_true_iff; split;
        [apply Z.leb_le|apply Z.ltb_lt]; lia).
  cbn [lift]. unfold bind at 1. cbn [ret].
  destruct (silent_polls_timeout _ _ _ _ _ _ _ H) as [H1 _].
  erewrite bind_Ret by (erewrite transceive_unfold by exact Hb; exact H1).
  reflexivity.
Qed.

(** X9: arguments are checked before anything is sent: a label density outside
    1..5 and a label type outside 1..3 fail the assertion, a dimension
    outside 0..65535 fails [struct.pack], an info key outside 0..255 fails
    [bytes]; the client is left as it was. *)
Theorem bad_arguments_send_nothing fuel s :
  (forall n, n < 1 \/ 5 < n ->
     set_label_density to_bytes from_bytes fuel n s = Raise AssertionError s) /\
  (forall n, n < 1 \/ 3 < n ->
     set_label_type to_bytes from_bytes fuel n s = Raise AssertionError s) /\
  (forall w h, w < 0 \/ 65535 < w \/ h < 0 \/ 65535 < h ->
     set_dimension to_bytes from_bytes fuel w h s = Raise StructError s) /\
  (forall key, key < 0 \/ 255 < key ->
     get_info to_bytes from_bytes fuel key s = Raise ValueError s).
Proof.
  repeat split.
  - intros n Hn. unfold set_label_density, assertion.
    replace ((1 <=? n) && (n <=? 5)) with false; [reflexivity|].
    symmetry. apply andb_false_iff.
    destruct Hn; [left; apply Z.leb_gt|right; apply Z.leb_gt]; lia.
  - intros n Hn. unfold set_label_type, assertion.
    replace ((1 <=? n) && (n <=? 3)) with false; [reflexivity|].
    symmetry. apply andb_false_iff.
    destruct Hn; [left; apply Z.leb_gt|right; apply Z.leb_gt]; lia.
  - intros w h H. unfold set_dimension, pack_HH, pack_cat, pack_H.
    destruct ((0 <=? w) && (w <=? 65535)) eqn:Ew; [|reflexivity].
    destruct ((0 <=? h) && (h <=? 65535)) eqn:Eh; [|reflexivity].
    apply andb_true_iff in Ew, Eh.
    rewrite !Z.leb_le in Ew, Eh. lia.
  - intros key Hk. unfold get_info, bytes1.
    replace ((0 <=? key) && (key <? 256)) with false; [reflexivity|].
    symmetry. apply andb_false_iff.
    destruct Hk; [left; apply Z.leb_gt|right; apply Z.ltb_ge]; lia.
Qed.

End Waiting.

(** ** The commands and their replies *)

Section Commands.

Variable to_bytes : NiimbotPacket -> option bytes.
Variable from_bytes : bytes -> option NiimbotPacket.

Lemma flag_reply fuel reqcode d off s b fr payload rest :
  to_bytes (mkPacket reqcode d) = Some b ->
  pending (_transport s) = fr :: rest ->
  _packetbuf s = [] ->
  carries to_bytes from_bytes fr (mkPacket (respcode_of reqcode off) payload) ->
  respcode_of reqcode off <> 219 ->
  respcode_of reqcode off <> 0 ->
  (packet <- _transceive to_bytes from_bytes (S (S fuel)) reqcode d off ;;
   d <- data_of packet ;;
   flag_of d) s =
  match payload with
  | [] => Raise IndexError (replied (mkPacket reqcode d) b rest s)
  | x :: _ => Ret (truthy x) (replied (mkPacket reqcode d) b rest s)
  end.
Proof.
  intros Hb Hp Hbuf Hc H219 H0.
  erewrite bind_Ret
    by (apply transceive_reply with (fr := fr) (rest := rest) (b := b);
        [exact Hb|exact Hp|exact Hbuf|exact Hc|reflexivity|split; assumption]).
  cbn [data_of data]. unfold bind, ret. now destruct payload.
Qed.

Lemma pack_H_ok v :
  0 <= v <= 65535 -> pack_H v = inr [v / 256; v mod 256].
Proof.
  intros H. unfold pack_H.
  replace ((0 <=? v) && (v <=? 65535)) with true; [reflexivity|].
  symmetry. apply andb_true_iff. split; apply Z.leb_le; lia.
Qed.

Lemma bytes1_ok n : 0 <= n < 256 -> bytes1 n = inr [n].
Proof.
  intros H. unfold bytes1.
  replace ((0 <=? n) && (n <? 256)) with true; [reflexivity|].
  symmetry. apply andb_true_iff. split; [apply Z.leb_le|apply Z.ltb_lt]; lia.
Qed.

Lemma assertion_ok lo hi n s :
  lo <= n <= hi -> assertion ((lo <=? n) && (n <=? hi)) s = Ret tt s.
Proof.
  intros H. unfold assertion.
  replace ((lo <=? n) && (n <=? hi)) with true; [reflexivity|].
  symmetry. apply andb_true_iff. split; apply Z.leb_le; lia.
Qed.

Lemma command_reply cmd fuel s b fr payload rest :
  accepted_arguments cmd ->
  to_bytes (request_packet cmd) = Some b ->
  pending (_transport s) = fr :: rest ->
  _packetbuf s = [] ->
  carries to_bytes from_bytes fr (mkPacket (reply_code cmd) payload) ->
  run_command to_bytes from_bytes cmd (S (S fuel)) s =
  match payload with
  | [] => Raise IndexError (replied (request_packet cmd) b rest s)
  | x :: _ => Ret (truthy x) (replied (request_packet cmd) b rest s)
  end.
Proof.
  intros Hacc Hb Hp Hbuf Hc.
  destruct cmd; cbn [run_command request_packet reply_code accepted_arguments] in *.
  - unfold set_label_type. erewrite bind_Ret by (apply assertion_ok; lia).
    rewrite bytes1_ok by lia. cbn [lift]. unfold bind at 1. cbn [ret].
    apply flag_reply with (fr := fr); auto; discriminate.
  - unfold set_label_density. erewrite bind_Ret by (apply assertion_ok; lia).
    rewrite bytes1_ok by lia. cbn [lift]. unfold bind at 1. cbn [ret].
    apply flag_reply with (fr := fr); auto; discriminate.
  - apply flag_reply with (fr := fr); auto; discriminate.
  - apply flag_reply with (fr := fr); auto; discriminate.
  - apply flag_reply with (fr := fr); auto; discriminate.
  - apply flag_reply with (fr := fr); auto; discriminate.
  - apply flag_reply with (fr := fr); auto; discriminate.
  - unfold set_dimension, pack_HH. destruct Hacc as [Hw Hh].
    rewrite !pack_H_ok by assumption. cbn [pack_cat lift app].
    unfold bind at 1. cbn [ret].
    apply flag_reply with (fr := fr); auto; discriminate.
  - unfold set_quantity. rewrite pack_H_ok by assumption. cbn [lift].
    unfold bind at 1. cbn [ret].
    apply flag_reply with (fr := fr); auto; discriminate.
Qed.

(** X10: every command that reports a flag sends the packet of the table and
    takes as its reply the frame whose type the table gives; it returns
    whether the first byte of the payload of the reply is not zero, and it
    raises [IndexError] when that payload is empty. *)
Theorem command_returns_flag_of_reply cmd fuel s b fr payload rest :
  accepted_arguments cmd ->
  to_bytes (request_packet cmd) = Some b ->
  pending (_transport s) = fr :: rest ->
  _packetbuf s = [] ->
  carries to_bytes from_bytes fr (mkPacket (reply_code cmd) payload) ->
  run_command to_bytes from_bytes cmd (S (S fuel)) s =
  match payload with
  | [] => Raise IndexError (replied (request_packet cmd) b rest s)
  | x :: _ => Ret (truthy x) (replied (request_packet cmd) b rest s)
  end.
Proof. apply command_reply. Qed.

(** ** The status of the print *)

Lemma get_print_status_reply fuel s b fr d rest :
  to_bytes (mkPacket (request_code GET_PRINT_STATUS) [1]) = Some b ->
  pending (_transport s) = fr :: rest ->
  _packetbuf s = [] ->
  carries to_bytes from_bytes fr (mkPacket 179 d) ->
  get_print_status to_bytes from_bytes (S (S fuel)) s =
  lift (decode_print_status d)
    (replied (mkPacket (request_code GET_PRINT_STATUS) [1]) b rest s).
Proof.
  intros Hb Hp Hbuf Hc. unfold get_print_status.
  erewrite bind_Ret
    by (apply transceive_reply with (fr := fr) (rest := rest) (b := b);
        [exact Hb|exact Hp|exact Hbuf|exact Hc|reflexivity
        |split; discriminate]).
  reflexivity.
Qed.

Lemma decode_print_status_length d :
  len d <> 10 -> decode_print_status d = inl StructError.
Proof.
  intros H.
  do 10 (destruct d as [|? d]; [reflexivity|]).
  destruct d; [exfalso; apply H; reflexivity|reflexivity].
Qed.

Lemma length_10 (d : bytes) :
  len d = 10 ->
  d = [nth 0 d 0; nth 1 d 0; nth 2 d 0; nth 3 d 0; nth 4 d 0; nth 5 d 0;
       nth 6 d 0; nth 7 d 0; nth 8 d 0; nth 9 d 0].
Proof.
  intros H.
  do 10 (destruct d as [|? d]; [discriminate H|]).
  destruct d; [reflexivity|]. unfold len in H. cbn in H. lia.
Qed.

(** X11: [get_print_status] on the reply it gets: a payload that is not of ten
    bytes fails [struct.unpack], a second byte other than 0 and 1 fails the
    assertion, and otherwise the dictionary says idle when that byte is 1,
    error when the seventh byte is not 0, and to open the paper compartment
    when it is 1. *)
Theorem get_print_status_decodes_or_raises fuel s b fr d rest :
  to_bytes (mkPacket (request_code GET_PRINT_STATUS) [1]) = Some b ->
  pending (_transport s) = fr :: rest ->
  _packetbuf s = [] ->
  carries to_bytes from_bytes fr (mkPacket 179 d) ->
  let s' := replied (mkPacket (request_code GET_PRINT_STATUS) [1]) b rest s in
  (len d <> 10 ->
     get_print_status to_bytes from_bytes (S (S fuel)) s =
       Raise StructError s') /\
  (len d = 10 -> nth 1 d 0 < 0 \/ 1 < nth 1 d 0 ->
     get_print_status to_bytes from_bytes (S (S fuel)) s =
       Raise AssertionError s') /\
  (len d = 10 -> 0 <= nth 1 d 0 <= 1 ->
     exists st,
       get_print_status to_bytes from_bytes (S (S fuel)) s = Ret st s' /\
       idle st = (nth 1 d 0 =? 1) /\
       progress1 st = nth 2 d 0 /\ progress2 st = nth 3 d 0 /\
       error_code st = nth 6 d 0 /\
       error st = negb (nth 6 d 0 =? 0) /\
       open_paper_compartment st = (nth 6 d 0 =? 1)).
Proof.
  intros Hb Hp Hbuf Hc s'.
  assert (Hrun : get_print_status to_bytes from_bytes (S (S fuel)) s =
                 lift (decode_print_status d) s').
  { unfold get_print_status.
    erewrite bind_Ret
      by (apply transceive_reply with (fr := fr) (rest := rest) (b := b);
          [exact Hb|exact Hp|exact Hbuf|exact Hc|reflexivity
          |split; discriminate]).
    reflexivity. }
  rewrite Hrun. repeat split.
  - intros Hl. now rewrite decode_print_status_length.
  - intros Hl Hi. rewrite (length_10 d Hl). unfold decode_print_status.
    replace ((0 <=? nth 1 d 0) && (nth 1 d 0 <=? 1)) with false; [reflexivity|].
    symmetry. apply andb_false_iff.
    destruct Hi; [left|right]; apply Z.leb_gt; lia.
  - intros Hl Hi. eexists. split.
    + rewrite (length_10 d Hl) at 1.
      rewrite decode_print_status_layout by exact Hi. reflexivity.
    + cbn [idle progress1 progress2 error_code error open_paper_compartment].
      unfold truthy. repeat split.
      assert (nth 1 d 0 = 0 \/ nth 1 d 0 = 1) as [->| ->] by lia; reflexivity.
Qed.

End Commands.

(** ** The heartbeat *)

(** Turns a list whose length is known into the list of its elements. *)
Ltac elements :=
  repeat match goal with
  | Hn : List.length ?d = S _ |- _ =>
      destruct d as [|? ?];
      [discriminate Hn|cbn [List.length] in Hn; apply Nat.succ_inj in Hn]
  | Hn : List.length ?d = O |- _ =>
      destruct d; [clear Hn|discriminate Hn]
  end.

Lemma length_of_len {A} (d : list A) n :
  len d = Z.of_nat n -> List.length d = n.
Proof. unfold len. lia. Qed.

(** X12: the fields of a heartbeat are read by fixed indices that the
    length of the payload selects, and no index falls outside the payload,
    so that the decoding never raises: of 20 bytes, byte 18 is the paper
    state and byte 19 the RFID state; of 13 bytes, bytes 9 to 12 are the
    closing state, the power level, the paper state and the RFID state; of
    19 bytes, bytes 15 to 18 are these four; of 10 bytes, byte 8 is the
    closing state and also the RFID state, byte 9 the power level; of 9
    bytes, byte 8 is the closing state; a field not named is [None], and
    for any other length all four are. *)
Theorem heartbeat_fields_by_length d :
  (len d = 20 ->
   heartbeat_fields d =
   inr {| closingstate := None; powerlevel := None;
          paperstate := Some (nth 18 d 0);
          rfidreadstate := Some (nth 19 d 0) |}) /\
  (len d = 13 ->
   heartbeat_fields d =
   inr {| closingstate := Some (nth 9 d 0); powerlevel := Some (nth 10 d 0);
          paperstate := Some (nth 11 d 0);
          rfidreadstate := Some (nth 12 d 0) |}) /\
  (len d = 19 ->
   heartbeat_fields d =
   inr {| closingstate := Some (nth 15 d 0); powerlevel := Some (nth 16 d 0);
          paperstate := Some (nth 17 d 0);
          rfidreadstate := Some (nth 18 d 0) |}) /\
  (len d = 10 ->
   heartbeat_fields d =
   inr {| closingstate := Some (nth 8 d 0); powerlevel := Some (nth 9 d 0);
          paperstate := None;
          rfidreadstate := Some (nth 8 d 0) |}) /\
  (len d = 9 ->
   heartbeat_fields d =
   inr {| closingstate := Some (nth 8 d 0); powerlevel := None;
          paperstate := None; rfidreadstate := None |}) /\
  (~ In (len d) [9; 10; 13; 19; 20] ->
   heartbeat_fields d =
   inr {| closingstate := None; powerlevel := None;
          paperstate := None; rfidreadstate := None |}).
Proof.
  repeat split.
  - intros H. apply (length_of_len d 20) in H. elements. reflexivity.
  - intros H. apply (length_of_len d 13) in H. elements. reflexivity.
  - intros H. apply (length_of_len d 19) in H. elements. reflexivity.
  - intros H. apply (length_of_len d 10) in H. elements. reflexivity.
  - intros H. apply (length_of_len d 9) in H. elements. reflexivity.
  - intros H. unfold heartbeat_fields.
    destruct (len d =? 20) eqn:E20;
      [apply Z.eqb_eq in E20; exfalso; apply H; rewrite E20; cbn; tauto|].
    destruct (len d =? 13) eqn:E13;
      [apply Z.eqb_eq in E13; exfalso; apply H; rewrite E13; cbn; tauto|].
    destruct (len d =? 19) eqn:E19;
      [apply Z.eqb_eq in E19; exfalso; apply H; rewrite E19; cbn; tauto|].
    destruct (len d =? 10) eqn:E10;
      [apply Z.eqb_eq in E10; exfalso; apply H; rewrite E10; cbn; tauto|].
    destruct (len d =? 9) eqn:E9;
      [apply Z.eqb_eq in E9; exfalso; apply H; rewrite E9; cbn; tauto|].
    reflexivity.
Qed.

(** ** The description of the tag *)

Lemma len_app {A} (a b : list A) : len (a ++ b) = len a + len b.
Proof. unfold len. rewrite length_app. lia. Qed.

Lemma len_nonneg {A} (a : list A) : 0 <= len a.
Proof. unfold len. lia. Qed.

Lemma getitem_app pre x post : getitem (pre ++ x :: post) (len pre) = inr x.
Proof.
  unfold getitem, len. rewrite Nat2Z.id, nth_error_app2, Nat.sub_diag by lia.
  reflexivity.
Qed.

Lemma slice_app pre mid post :
  slice (pre ++ mid ++ post) (len pre) (len pre + len mid) = mid.
Proof.
  unfold slice. replace (len pre + len mid - len pre) with (len mid) by lia.
  unfold len. rewrite !Nat2Z.id.
  rewrite skipn_app, skipn_all, Nat.sub_diag, skipn_O. cbn [app].
  rewrite firstn_app, firstn_all, Nat.sub_diag, firstn_O. apply app_nil_r.
Qed.

Lemma slice_from_app pre post : slice_from (pre ++ post) (len pre) = post.
Proof.
  unfold slice_from, len. rewrite Nat2Z.id.
  now rewrite skipn_app, skipn_all, Nat.sub_diag, skipn_O.
Qed.

Lemma unpack_HHB_packed total used t :
  0 <= total <= 65535 -> 0 <= used <= 65535 ->
  unpack_HHB [total / 256; total mod 256; used / 256; used mod 256; t] =
  inr (total, used, t).
Proof.
  intros Ht Hu. unfold unpack_HHB.
  rewrite (Z.mul_comm (total / 256)), (Z.mul_comm (used / 256)).
  now rewrite <- !Z.div_mod by lia.
Qed.

Section Tag.

Variable to_bytes : NiimbotPacket -> option bytes.
Variable from_bytes : bytes -> option NiimbotPacket.
Variable decode : bytes -> option string.

Lemma parse_rfid_payload uuid barcode serial total used t bs ss :
  len uuid = 8 ->
  nth 0 uuid 0 <> 0 ->
  decode barcode = Some bs ->
  decode serial = Some ss ->
  0 <= total <= 65535 ->
  0 <= used <= 65535 ->
  parse_rfid decode (rfid_payload uuid barcode serial total used t) =
  inr (Some {| uuid := uuid; barcode := bs; serial := ss;
               used_len := used; total_len := total; type_ := t |}).
Proof.
  intros Hu H0 Hbs Hss Ht Hused. unfold parse_rfid, rfid_payload.
  set (tl := [total / 256; total mod 256; used / 256; used mod 256; t]).
  assert (Hfirst : getitem (uuid ++ [len barcode] ++ barcode ++ [len serial]
                            ++ serial ++ tl) 0 = inr (nth 0 uuid 0)).
  { destruct uuid as [|u0 uuid']; [discriminate Hu|reflexivity]. }
  rewrite Hfirst. cbn [ebind].
  apply Z.eqb_neq in H0. rewrite H0.
  assert (Huuid : slice (uuid ++ [len barcode] ++ barcode ++ [len serial]
                           ++ serial ++ tl) 0 8 = uuid).
  { change 0 with (len (@nil Z)) at 1. rewrite <- Hu.
    change (len uuid) with (len (@nil Z) + len uuid).
    apply (slice_app [] uuid). }
  rewrite Huuid.
  assert (Hlb : getitem (uuid ++ [len barcode] ++ barcode ++ [len serial]
                         ++ serial ++ tl) 8 = inr (len barcode)).
  { rewrite <- Hu. apply getitem_app. }
  rewrite Hlb. cbn [ebind].
  assert (Hbar : slice (uuid ++ [len barcode] ++ barcode ++ [len serial]
                          ++ serial ++ tl) (8 + 1) (8 + 1 + len barcode) =
                 barcode).
  { replace (8 + 1) with (len (uuid ++ [len barcode]))
      by (rewrite !len_app, Hu; unfold len; cbn [List.length]; lia).
    rewrite (app_assoc uuid). apply slice_app. }
  rewrite Hbar, Hbs.
  assert (Hls : getitem (uuid ++ [len barcode] ++ barcode ++ [len serial]
                         ++ serial ++ tl) (8 + 1 + len barcode) =
                inr (len serial)).
  { replace (8 + 1 + len barcode) with (len (uuid ++ [len barcode] ++ barcode))
      by (rewrite !len_app, Hu; unfold len; cbn [List.length]; lia).
    rewrite (app_assoc [len barcode]), (app_assoc uuid). apply getitem_app. }
  rewrite Hls. cbn [ebind].
  assert (Hser : slice (uuid ++ [len barcode] ++ barcode ++ [len serial]
                          ++ serial ++ tl) (8 + 1 + len barcode + 1)
                   (8 + 1 + len barcode + 1 + len serial) = serial).
  { replace (8 + 1 + len barcode + 1)
      with (len (uuid ++ [len barcode] ++ barcode ++ [len serial]))
      by (rewrite !len_app, Hu; unfold len; cbn [List.length]; lia).
    rewrite (app_assoc barcode), (app_assoc [len barcode]), (app_assoc uuid).
    rewrite <- !app_assoc. rewrite (app_assoc barcode),
      (app_assoc [len barcode]), (app_assoc uuid). apply slice_app. }
  rewrite Hser, Hss.
  assert (Htl : slice_from (uuid ++ [len barcode] ++ barcode ++ [len serial]
                              ++ serial ++ tl)
                  (8 + 1 + len barcode + 1 + len serial) = tl).
  { replace (8 + 1 + len barcode + 1 + len serial)
      with (len (uuid ++ [len barcode] ++ barcode ++ [len serial] ++ serial))
      by (rewrite !len_app, Hu; unfold len; cbn [List.length]; lia).
    rewrite (app_assoc [len serial]), (app_assoc barcode),
      (app_assoc [len barcode]), (app_assoc uuid).
    rewrite <- !app_assoc.
    rewrite (app_assoc [len serial]), (app_assoc barcode),
      (app_assoc [len barcode]), (app_assoc uuid).
    apply slice_from_app. }
  rewrite Htl. unfold tl. rewrite unpack_HHB_packed by assumption.
  reflexivity.
Qed.

(** X14: [get_rfid] reads back a tag description: from a reply whose payload is
    the identifier (eight bytes, the first not 0), the barcode and the
    serial number behind their length bytes, two 16-bit counters and a type
    byte, it returns these very fields.  A payload that begins with 0 means
    no tag, whatever follows; an empty payload raises [IndexError]. *)
Theorem get_rfid_reads_tag fuel s b fr payload rest :
  to_bytes (mkPacket (request_code GET_RFID) [1]) = Some b ->
  pending (_transport s) = fr :: rest ->
  _packetbuf s = [] ->
  carries to_bytes from_bytes fr (mkPacket 27 payload) ->
  let s' := replied (mkPacket (request_code GET_RFID) [1]) b rest s in
  (forall uuid barcode serial total used t bs ss,
     payload = rfid_payload uuid barcode serial total used t ->
     len uuid = 8 -> nth 0 uuid 0 <> 0 ->
     decode barcode = Some bs -> decode serial = Some ss ->
     0 <= total <= 65535 -> 0 <= used <= 65535 ->
     get_rfid to_bytes from_bytes decode (S (S fuel)) s =
       Ret (Some {| uuid := uuid; barcode := bs; serial := ss;
                    used_len := used; total_len := total; type_ := t |}) s') /\
  (forall more, payload = 0 :: more ->
     get_rfid to_bytes from_bytes decode (S (S fuel)) s = Ret None s') /\
  (payload = [] ->
     get_rfid to_bytes from_bytes decode (S (S fuel)) s = Raise IndexError s').
Proof.
  intros Hb Hp Hbuf Hc s'.
  assert (Hrun : get_rfid to_bytes from_bytes decode (S (S fuel)) s =
                 lift (parse_rfid decode payload) s').
  { unfold get_rfid.
    erewrite bind_Ret
      by (apply transceive_reply with (fr := fr) (rest := rest) (b := b);
          [exact Hb|exact Hp|exact Hbuf|exact Hc|reflexivity
          |split; discriminate]).
    reflexivity. }
  rewrite Hrun. repeat split.
  - intros uuid barcode serial total used t bs ss -> Hu H0 Hbs Hss Ht Hused.
    now rewrite (parse_rfid_payload _ _ _ _ _ _ bs ss Hu H0 Hbs Hss Ht Hused).
  - intros more ->. reflexivity.
  - intros ->. reflexivity.
Qed.

End Tag.

(** ** The rows of the raster *)

Lemma base2_digits_fold l acc :
  base2_digits (bit_string l) acc =
  inr (fold_left (fun a pix => 2 * a + Z.b2z (ink pix)) l acc).
Proof.
  revert acc. induction l as [|pix l IH]; intros acc; [reflexivity|].
  cbn [bit_string base2_digits fold_left]. unfold ink at 2.
  destruct (pix =? 0); cbn [Ascii.eqb Bool.eqb negb Z.b2z andb]; rewrite IH.
  - now rewrite Z.add_0_r.
  - reflexivity.
Qed.

Lemma int_base2_bits l :
  l <> [] -> int_base2 (bit_string l) = inr (bits_value l).
Proof.
  intros H. destruct l as [|pix l]; [contradiction|].
  unfold int_base2. cbn [bit_string]. apply (base2_digits_fold (pix :: l)).
Qed.

Lemma bits_value_snoc l pix :
  bits_value (l ++ [pix]) = 2 * bits_value l + Z.b2z (ink pix).
Proof. unfold bits_value. now rewrite fold_left_app. Qed.

Lemma bits_value_range l : 0 <= bits_value l < 2 ^ len l.
Proof.
  induction l as [|pix l IH] using rev_ind; [cbn; lia|].
  rewrite bits_value_snoc, len_app.
  change (len [pix]) with 1. rewrite Z.pow_add_r by (unfold len; lia).
  destruct (ink pix); cbn [Z.b2z]; lia.
Qed.

(** Pixel [i] of a row is the binary digit of weight [2 ^ (n - 1 - i)]. *)
Lemma bits_value_testbit l i :
  (i < List.length l)%nat ->
  Z.testbit (bits_value l) (len l - 1 - Z.of_nat i) = ink (nth i l 0).
Proof.
  revert i. induction l as [|pix l IH] using rev_ind; intros i Hi;
    [cbn in Hi; lia|].
  rewrite length_app in Hi. cbn [List.length] in Hi.
  rewrite bits_value_snoc, len_app. change (len [pix]) with 1.
  destruct (Nat.eq_dec i (List.length l)) as [->|Hne].
  - replace (len l + 1 - 1 - Z.of_nat (List.length l)) with 0
      by (unfold len; lia).
    rewrite Z.testbit_0_r, app_nth2, Nat.sub_diag by lia. reflexivity.
  - replace (len l + 1 - 1 - Z.of_nat i)
      with (Z.succ (len l - 1 - Z.of_nat i)) by lia.
    rewrite Z.testbit_succ_r by (unfold len; lia).
    rewrite app_nth1 by lia. apply IH. lia.
Qed.

Lemma int_from_bytes_big_endian_acc k v acc :
  fold_left (fun a x => a * 256 + x) (big_endian k v) acc =
  acc * 256 ^ Z.of_nat k + v mod 256 ^ Z.of_nat k.
Proof.
  revert acc. induction k as [|k IH]; intros acc.
  - cbn. rewrite Z.mod_1_r. lia.
  - cbn [big_endian fold_left]. rewrite IH.
    rewrite Nat2Z.inj_succ, Z.pow_succ_r by lia.
    rewrite (Z.mul_comm 256 (256 ^ Z.of_nat k)).
    rewrite (Z.rem_mul_r v (256 ^ Z.of_nat k) 256) by lia. lia.
Qed.

(** [int.from_bytes] undoes [int.to_bytes]. *)
Lemma int_from_bytes_to_bytes v n b :
  0 <= n ->
  int_to_bytes v n = inr b ->
  int_from_bytes b = v /\ len b = n.
Proof.
  intros Hn. unfold int_to_bytes.
  destruct ((0 <=? v) && (v <? 256 ^ n)) eqn:E; [|discriminate].
  apply andb_true_iff in E. destruct E as [E1 E2].
  apply Z.leb_le in E1. apply Z.ltb_lt in E2.
  intros [= <-]. unfold int_from_bytes. split.
  - rewrite int_from_bytes_big_endian_acc, Z2Nat.id by lia.
    rewrite Z.mod_small by lia. lia.
  - assert (Hl : forall k, List.length (big_endian k v) = k)
      by (induction k; cbn; congruence).
    unfold len. rewrite Hl. lia.
Qed.

Lemma ceil_div8_covers w : 0 <= w -> 2 ^ w <= 256 ^ ceil_div8 w.
Proof.
  intros Hw. unfold ceil_div8.
  change 256 with (2 ^ 8). rewrite <- Z.pow_mul_r by (try apply Z.div_pos; lia).
  apply Z.pow_le_mono_r; [lia|].
  pose proof (Z.div_mod (w + 7) 8). pose proof (Z.mod_pos_bound (w + 7) 8). lia.
Qed.

Lemma nth_map_in {A B} (f : A -> B) l i d d' :
  (i < List.length l)%nat -> nth i (map f l) d = f (nth i l d').
Proof.
  intros H. rewrite (nth_indep _ d (f d')) by (rewrite length_map; lia).
  apply map_nth.
Qed.

Lemma range_length n : 0 <= n -> len (range n) = n.
Proof. intros H. unfold len, range. rewrite length_map, length_seq. lia. Qed.

Lemma range_nth n i :
  (i < Z.to_nat n)%nat -> nth i (range n) 0 = Z.of_nat i.
Proof.
  intros H. unfold range.
  change 0 with (Z.of_nat 0) at 1. rewrite map_nth, seq_nth by lia. lia.
Qed.

Lemma encode_row_line img y :
  0 < width img ->
  exists line,
    _encode_row img y =
      ebind (pack_H3BB y 0 0 0 1)
            (fun header => inr (mkPacket 133 (header ++ line))) /\
    len line = ceil_div8 (width img) /\
    (forall x, 0 <= x < width img ->
       Z.testbit (int_from_bytes line) (width img - 1 - x) =
       ink (getpixel img x y)) /\
    (forall i, width img <= i -> Z.testbit (int_from_bytes line) i = false).
Proof.
  intros Hw. unfold _encode_row.
  set (pixels := map (fun x => getpixel img x y) (range (width img))).
  assert (Hlen : len pixels = width img).
  { unfold pixels, len. rewrite length_map. apply range_length. lia. }
  assert (Hne : pixels <> []).
  { intros E. rewrite E in Hlen. cbn in Hlen. lia. }
  rewrite (int_base2_bits pixels Hne). cbn [ebind].
  pose proof (bits_value_range pixels) as Hv. rewrite Hlen in Hv.
  pose proof (ceil_div8_covers (width img) ltac:(lia)) as Hc.
  destruct (int_to_bytes (bits_value pixels) (ceil_div8 (width img)))
    as [e|line] eqn:El.
  { unfold int_to_bytes in El.
    replace ((0 <=? bits_value pixels) &&
             (bits_value pixels <? 256 ^ ceil_div8 (width img))) with true in El;
      [discriminate El|].
    symmetry. apply andb_true_iff.
    split; [apply Z.leb_le|apply Z.ltb_lt]; lia. }
  assert (Hc0 : 0 <= ceil_div8 (width img))
    by (unfold ceil_div8; apply Z.div_pos; lia).
  destruct (int_from_bytes_to_bytes _ _ _ Hc0 El) as [Hval Hll].
  cbn [ebind]. exists line. repeat split; auto.
  - intros x Hx. rewrite Hval, <- Hlen.
    rewrite <- (Z2Nat.id x) at 1 by lia.
    rewrite bits_value_testbit by (unfold len in Hlen; lia).
    f_equal. unfold pixels.
    rewrite (nth_map_in _ _ _ _ 0)
      by (pose proof (range_length (width img)); unfold len in *; lia).
    rewrite range_nth by lia. f_equal. lia.
  - intros i Hi. rewrite Hval.
    destruct (Z.eq_dec (bits_value pixels) 0) as [->|Hnz];
      [apply Z.testbit_0_l|].
    apply Z.bits_above_log2; [lia|].
    apply Z.lt_le_trans with (width img); [|exact Hi].
    apply Z.log2_lt_pow2; lia.
Qed.

Lemma pack_H3BB_row y :
  0 <= y <= 65535 ->
  pack_H3BB y 0 0 0 1 = inr [y / 256; y mod 256; 0; 0; 0; 1].
Proof.
  intros Hy. unfold pack_H3BB, pack_B. rewrite pack_H_ok by exact Hy.
  reflexivity.
Qed.

Lemma pack_H3BB_overflow y :
  y < 0 \/ 65535 < y -> pack_H3BB y 0 0 0 1 = inl StructError.
Proof.
  intros Hy. unfold pack_H3BB, pack_H.
  replace ((0 <=? y) && (y <=? 65535)) with false; [reflexivity|].
  symmetry. apply andb_false_iff.
  destruct Hy; [left|right]; apply Z.leb_gt; lia.
Qed.

(** X16: the packet of a row: the row number on two bytes, most significant
    first, three zero bytes and a 1, then [ceil(width / 8)] bytes of pixels.
    Read as one big-endian number, those bytes have pixel [x] as the binary
    digit of weight [2 ^ (width - 1 - x)], inked pixels being the ones, and
    no digit above: a row whose width is no multiple of 8 is padded with
    zeros in front of its first pixel. *)
Theorem encode_row_packs_pixels img y :
  0 < width img ->
  0 <= y <= 65535 ->
  exists line,
    _encode_row img y =
      inr (mkPacket 133 ([y / 256; y mod 256; 0; 0; 0; 1] ++ line)) /\
    len line = ceil_div8 (width img) /\
    (forall x, 0 <= x < width img ->
       Z.testbit (int_from_bytes line) (width img - 1 - x) =
       ink (getpixel img x y)) /\
    (forall i, width img <= i -> Z.testbit (int_from_bytes line) i = false).
Proof.
  intros Hw Hy. destruct (encode_row_line img y Hw) as (line & H & Hrest).
  exists line. split; [|exact Hrest].
  now rewrite H, pack_H3BB_row.
Qed.

Lemma encode_rows_nth img ys :
  forall i dflt,
    (i < List.length ys)%nat ->
    (forall j, (j < i)%nat ->
       exists p, _encode_row img (nth j ys 0) = inr p) ->
    nth i (encode_rows img ys) dflt = _encode_row img (nth i ys 0).
Proof.
  induction ys as [|y ys IH]; intros i dflt Hi Hok; [cbn in Hi; lia|].
  cbn [encode_rows]. destruct i as [|i].
  - cbn [nth]. destruct (_encode_row img y); reflexivity.
  - destruct (Hok 0%nat ltac:(lia)) as [p Hp]. cbn [nth] in Hp.
    rewrite Hp. cbn [nth].
    apply IH; [cbn in Hi; lia|]. intros j Hj. apply (Hok (S j)). lia.
Qed.

Lemma encode_rows_length img ys :
  (forall j, (j < List.length ys)%nat ->
     exists p, _encode_row img (nth j ys 0) = inr p) ->
  List.length (encode_rows img ys) = List.length ys.
Proof.
  induction ys as [|y ys IH]; intros Hok; [reflexivity|].
  cbn [encode_rows].
  destruct (Hok 0%nat ltac:(cbn; lia)) as [p Hp]. cbn [nth] in Hp.
  rewrite Hp. cbn [List.length]. f_equal. apply IH.
  intros j Hj. apply (Hok (S j)). cbn. lia.
Qed.

Lemma encode_rows_stops img ys :
  forall i e,
    (i < List.length ys)%nat ->
    (forall j, (j < i)%nat ->
       exists p, _encode_row img (nth j ys 0) = inr p) ->
    _encode_row img (nth i ys 0) = inl e ->
    List.length (encode_rows img ys) = S i.
Proof.
  induction ys as [|y ys IH]; intros i e Hi Hok He; [cbn in Hi; lia|].
  cbn [encode_rows]. destruct i as [|i].
  - cbn [nth] in He. rewrite He. reflexivity.
  - destruct (Hok 0%nat ltac:(lia)) as [p Hp]. cbn [nth] in Hp.
    rewrite Hp. cbn [List.length]. f_equal.
    apply (IH i e); [cbn in Hi; lia| |exact He].
    intros j Hj. apply (Hok (S j)). lia.
Qed.

(** X17: the encoder yields the packets of the rows in the order of the
    rows, the packet of row [y] carrying [y] in its first two bytes, as long
    as [y] fits in 16 bits: an image of at most 65536 rows gives one packet
    per row and nothing else.  For a taller image the generator raises
    [struct.error] when it is asked for row 65536, after the 65536 packets
    of the rows before, and that is its end: no row beyond is yielded. *)
Theorem encode_image_yields_rows_in_order dither image :
  0 < width image ->
  0 <= height image ->
  len (_encode_image dither image) = Z.min (height image) 65537 /\
  (forall y, 0 <= y < height image -> y <= 65535 ->
     exists line,
       nth (Z.to_nat y) (_encode_image dither image) (inl ValueError) =
         inr (mkPacket 133 ([y / 256; y mod 256; 0; 0; 0; 1] ++ line)) /\
       len line = ceil_div8 (width image)) /\
  (65536 < height image ->
   nth (Z.to_nat 65536) (_encode_image dither image) (inl ValueError) =
     inl StructError).
Proof.
  intros Hw Hh. unfold _encode_image.
  remember (Z.to_nat 65536) as k eqn:Ek.
  assert (Hk : Z.of_nat k = 65536) by (subst k; apply Z2Nat.id; lia).
  clear Ek.
  change (height (convert_1 dither (invert (convert_L image))))
    with (height image).
  set (img := convert_1 dither (invert (convert_L image))).
  assert (Hwi : 0 < width img) by exact Hw.
  assert (Hlen : List.length (range (height image)) = Z.to_nat (height image))
    by (pose proof (range_length (height image) Hh); unfold len in *; lia).
  assert (Hrow : forall j, (j < Z.to_nat (height image))%nat ->
            Z.of_nat j <= 65535 ->
            exists line,
              _encode_row img (nth j (range (height image)) 0) =
                inr (mkPacket 133
                       ([Z.of_nat j / 256; Z.of_nat j mod 256; 0; 0; 0; 1]
                        ++ line)) /\
              len line = ceil_div8 (width image)).
  { intros j Hj Hj16. rewrite range_nth by exact Hj.
    destruct (encode_row_line img (Z.of_nat j) Hwi) as (line & H & Hl & _).
    exists line. split; [|exact Hl].
    now rewrite H, pack_H3BB_row by lia. }
  assert (Hok : forall i, (i <= Z.to_nat (height image))%nat ->
            Z.of_nat i <= 65536 ->
            forall j, (j < i)%nat ->
            exists p, _encode_row img (nth j (range (height image)) 0) = inr p).
  { intros i Hi Hi16 j Hj.
    destruct (Hrow j ltac:(lia) ltac:(lia)) as (line & H & _).
    eexists. exact H. }
  assert (Hstop : 65536 < height image ->
            _encode_row img (nth k (range (height image)) 0) =
            inl StructError).
  { intros Ht. rewrite range_nth by lia.
    destruct (encode_row_line img (Z.of_nat k) Hwi) as (line & H & _).
    rewrite H, pack_H3BB_overflow by lia. reflexivity. }
  split; [|split].
  - unfold len. destruct (Z_lt_le_dec 65536 (height image)) as [Ht|Ht].
    + rewrite (encode_rows_stops img _ k StructError);
        [lia|lia|apply Hok; lia|exact (Hstop Ht)].
    + rewrite encode_rows_length; [lia|].
      rewrite Hlen. apply Hok; lia.
  - intros y Hy Hy16.
    rewrite encode_rows_nth by (try apply (Hok (Z.to_nat y)); lia).
    destruct (Hrow (Z.to_nat y) ltac:(lia) ltac:(lia)) as (line & H & Hl).
    exists line. split; [|exact Hl].
    rewrite H. now rewrite Z2Nat.id by lia.
  - intros Ht.
    rewrite encode_rows_nth by (try apply (Hok k); lia).
    exact (Hstop Ht).
Qed.

(** ** Detection of the serial port *)

Section DetectionFacts.

Variable lower : string -> string.
Variable supported_models : list string.

Lemma scan_ports_appends ports acc :
  SerialTransport.scan_ports lower supported_models ports acc =
  if existsb anonymous_usb ports then inl SerialTransport.AttributeError
  else inr (acc ++ flat_map (detected_on lower supported_models) ports).
Proof.
  revert acc. induction ports as [|p ports IH]; intros acc.
  - cbn. now rewrite app_nil_r.
  - cbn [SerialTransport.scan_ports existsb flat_map].
    unfold anonymous_usb at 1, detected_on at 1.
    destruct (SerialTransport.contains "USB" (SerialTransport.hwid p)); cbn [andb orb].
    + destruct (SerialTransport.serial_number p) as [sn|]; [|reflexivity].
      cbn [orb].
      destruct (SerialTransport.find "-" sn =? -1).
      * apply IH.
      * destruct (SerialTransport.supported supported_models _).
        -- rewrite IH. destruct (existsb anonymous_usb ports); [reflexivity|].
           now rewrite <- app_assoc.
        -- apply IH.
    + apply IH.
Qed.

Lemma find_range c s : -1 <= SerialTransport.find c s.
Proof.
  induction s as [|a s IH]; cbn; [lia|].
  destruct (Ascii.eqb a c); [lia|].
  destruct (SerialTransport.find c s =? -1) eqn:E; lia.
Qed.

Lemma detected_on_sound p d :
  In d (detected_on lower supported_models p) ->
  exists sn,
    SerialTransport.contains "USB" (SerialTransport.hwid p) = true /\
    SerialTransport.serial_number p = Some sn /\
    0 <= SerialTransport.find "-" sn /\
    SerialTransport.supported supported_models
      (lower (SerialTransport.upto (SerialTransport.find "-" sn) sn)) = true /\
    d = SerialTransport.mkDetected (SerialTransport.device p)
          (SerialTransport.upto (SerialTransport.find "-" sn) sn) sn.
Proof.
  unfold detected_on.
  destruct (SerialTransport.contains "USB" (SerialTransport.hwid p)); [|intros []].
  destruct (SerialTransport.serial_number p) as [sn|]; [|intros []].
  destruct (SerialTransport.find "-" sn =? -1) eqn:E; [intros []|].
  destruct (SerialTransport.supported supported_models _) eqn:S; [|intros []].
  intros [<-|[]]. exists sn. repeat split; auto.
  pose proof (find_range "-" sn). apply Z.eqb_neq in E. lia.
Qed.

(** X19: a port that is named while the model is left to be detected makes the
    detection raise [NameError], whatever ports the machine has: line 96
    reads a variable [port] that the method does not have. *)
Theorem detect_named_port_auto_model_raises comports self :
  SerialTransport._port self <> "auto"%string ->
  SerialTransport._model self = "auto"%string ->
  SerialTransport._detect_port_and_model lower supported_models comports self =
  inl SerialTransport.NameError.
Proof.
  intros Hp Hm. unfold SerialTransport._detect_port_and_model.
  rewrite Hm. apply String.eqb_neq in Hp. rewrite Hp. reflexivity.
Qed.

(** X20: when the port is left to be detected and the detection returns, the
    port it has chosen is a USB port of the machine whose serial number
    starts with a supported model name (compared in lower case) and a dash,
    and it is the only such port; the serial number is recorded; the model
    becomes the detected one only if it was left to be detected, and the
    warning is logged exactly when a model was named that differs from the
    detected one. *)
Theorem detect_chooses_the_supported_usb_port comports self self' warned :
  SerialTransport._port self = "auto"%string ->
  SerialTransport._detect_port_and_model lower supported_models comports self =
  inr (self', warned) ->
  exists p sn,
    let model := lower (SerialTransport.upto (SerialTransport.find "-" sn) sn) in
    In p comports /\
    SerialTransport.contains "USB" (SerialTransport.hwid p) = true /\
    SerialTransport.serial_number p = Some sn /\
    0 <= SerialTransport.find "-" sn /\
    SerialTransport.supported supported_models model = true /\
    List.length (flat_map (detected_on lower supported_models) comports) = 1%nat /\
    SerialTransport._port self' = SerialTransport.device p /\
    SerialTransport._serial_number self' = Some sn /\
    SerialTransport._model self' =
      (if String.eqb (SerialTransport._model self) "auto" then model
       else SerialTransport._model self) /\
    warned = negb (String.eqb (SerialTransport._model self) "auto") &&
             negb (String.eqb (SerialTransport._model self) model).
Proof.
  intros Hp. unfold SerialTransport._detect_port_and_model.
  rewrite Hp. cbn [String.eqb Ascii.eqb Bool.eqb negb andb].
  change (("auto" =? "auto")%string) with true. cbn [negb andb].
  destruct comports as [|p0 ports] eqn:Hc; [discriminate|].
  rewrite <- Hc. rewrite scan_ports_appends. cbn [app].
  destruct (existsb anonymous_usb comports); [discriminate|].
  destruct (flat_map (detected_on lower supported_models) comports)
    as [|d [|d' ds]] eqn:Hf; [destruct comports; discriminate| |destruct comports; discriminate].
  assert (Hin : In d (flat_map (detected_on lower supported_models) comports))
    by (rewrite Hf; now left).
  apply in_flat_map in Hin. destruct Hin as (p & Hpin & Hd).
  destruct (detected_on_sound p d Hd) as (sn & Husb & Hsn & Hpos & Hsup & ->).
  cbn [SerialTransport.detected_model SerialTransport.detected_device
       SerialTransport.detected_serial_number].
  intros H. exists p, sn. cbn zeta.
  assert (Hres : (self', warned) =
    (SerialTransport.mkSelf
       (if String.eqb (SerialTransport._model self) "auto"
        then lower (SerialTransport.upto (SerialTransport.find "-" sn) sn)
        else SerialTransport._model self)
       (SerialTransport.device p) (Some sn),
     negb (String.eqb (SerialTransport._model self) "auto") &&
     negb (String.eqb (SerialTransport._model self)
             (lower (SerialTransport.upto (SerialTransport.find "-" sn) sn))))).
  { destruct comports; [discriminate|].
    destruct (String.eqb (SerialTransport._model self) "auto");
      [now inversion H|].
    cbn [negb andb].
    destruct (String.eqb (SerialTransport._model self) _);
      cbn [negb] in H |- *; now inversion H. }
  inversion Hres; subst self' warned. cbn.
  repeat split; auto.
Qed.

(** X21: with the port left to be detected, two or more supported printers on
    USB ports make the detection raise the error that lists them all, in
    the order of the ports, also when a model is named that only one of
    them has. *)
Theorem detect_refuses_several_printers comports self :
  SerialTransport._port self = "auto"%string ->
  existsb anonymous_usb comports = false ->
  (2 <= List.length (flat_map (detected_on lower supported_models) comports))%nat ->
  SerialTransport._detect_port_and_model lower supported_models comports self =
  inl (SerialTransport.RuntimeError
         (SerialTransport.MultipleSupportedDevices
            (flat_map (detected_on lower supported_models) comports))).
Proof.
  intros Hp Hs Hn. unfold SerialTransport._detect_port_and_model.
  rewrite Hp. change (("auto" =? "auto")%string) with true. cbn [negb andb].
  destruct comports as [|p0 ports] eqn:Hc; [cbn in Hn; lia|].
  rewrite <- Hc in *. rewrite scan_ports_appends, Hs. cbn [app].
  destruct (flat_map (detected_on lower supported_models) comports)
    as [|d [|d' ds]]; cbn in Hn; try lia.
  destruct (String.eqb (SerialTransport._model self) "auto"); reflexivity.
Qed.

(** X22: with the port left to be detected, a USB port that reports no serial
    number makes the detection raise [AttributeError], also when a
    supported printer is connected to another port. *)
Theorem detect_raises_on_usb_port_without_serial comports self p :
  SerialTransport._port self = "auto"%string ->
  In p comports ->
  SerialTransport.contains "USB" (SerialTransport.hwid p) = true ->
  SerialTransport.serial_number p = None ->
  SerialTransport._detect_port_and_model lower supported_models comports self =
  inl SerialTransport.AttributeError.
Proof.
  intros Hp Hin Husb Hsn. unfold SerialTransport._detect_port_and_model.
  rewrite Hp. change (("auto" =? "auto")%string) with true. cbn [negb andb].
  assert (He : existsb anonymous_usb comports = true).
  { apply existsb_exists. exists p. split; [exact Hin|].
    unfold anonymous_usb. now rewrite Husb, Hsn. }
  destruct comports as [|p0 ports] eqn:Hc; [destruct Hin|].
  rewrite <- Hc in *. rewrite scan_ports_appends, He.
  destruct (String.eqb (SerialTransport._model self) "auto"); reflexivity.
Qed.

End DetectionFacts.

(** ** A session from its first command to its last *)

Section Session.

Variable to_bytes : NiimbotPacket -> option bytes.
Variable from_bytes : bytes -> option NiimbotPacket.
Variable dither : Z -> Z -> (Z -> Z -> Z) -> Z -> Z -> Z.

Lemma command_step cmd fuel s fr rest :
  accepted_arguments cmd ->
  to_bytes (request_packet cmd) <> None ->
  pending (_transport s) = fr :: rest ->
  _packetbuf s = [] ->
  answers to_bytes from_bytes fr (reply_code cmd) ->
  exists a s',
    run_command to_bytes from_bytes cmd (S (S fuel)) s = Ret a s' /\
    trace s' = trace s ++ [Sent (request_packet cmd)] /\
    pending (_transport s') = rest /\
    _packetbuf s' = [].
Proof.
  intros Hacc Hb Hp Hbuf (x & payload & Hc).
  destruct (to_bytes (request_packet cmd)) as [b|] eqn:Eb; [|contradiction].
  exists (truthy x), (replied (request_packet cmd) b rest s).
  split; [|repeat split].
  exact (command_reply to_bytes from_bytes cmd fuel s b fr (x :: payload) rest
           Hacc Eb Hp Hbuf Hc).
Qed.

Lemma send_rows_all rows :
  Forall (fun p => to_bytes p <> None) rows ->
  forall s,
  exists s',
    send_rows to_bytes (map inr rows) s = Ret tt s' /\
    trace s' = trace s ++ map Sent rows /\
    pending (_transport s') = pending (_transport s) /\
    _packetbuf s' = _packetbuf s.
Proof.
  induction 1 as [|p rows Hp _ IH]; intros s.
  - exists s. cbn. now rewrite app_nil_r.
  - destruct (to_bytes p) as [b|] eqn:Eb; [|contradiction].
    destruct (IH (handed p b s)) as (s' & Hr & Ht & Hpend & Hbuf).
    exists s'. cbn [map send_rows lift]. unfold bind at 1. cbn [ret].
    rewrite (bind_Ret _ _ _ _ _ (send_unfold to_bytes p b s Eb)).
    split; [exact Hr|]. rewrite Ht, Hpend, Hbuf. cbn.
    now rewrite <- app_assoc.
Qed.

Lemma wait_idle_busy fuel idle_fr rest busy :
  to_bytes status_request <> None ->
  Forall (reports_idle to_bytes from_bytes false) busy ->
  reports_idle to_bytes from_bytes true idle_fr ->
  forall k s,
    pending (_transport s) = busy ++ idle_fr :: rest ->
    _packetbuf s = [] ->
    (List.length busy < k)%nat ->
    exists s',
      wait_idle to_bytes from_bytes (S (S fuel)) k s = Ret tt s' /\
      trace s' = trace s ++ map Sent (repeat status_request (S (List.length busy))) /\
      pending (_transport s') = rest /\
      _packetbuf s' = [].
Proof.
  intros Hb Hbusy (d & st & Hc & Hd & Hi).
  destruct (to_bytes status_request) as [b|] eqn:Eb; [clear Hb|contradiction].
  induction Hbusy as [|fr busy (d' & st' & Hc' & Hd' & Hi') _ IH];
    intros k s Hp Hbuf Hk; (destruct k as [|k]; [cbn in Hk; lia|]).
  - cbn [app] in Hp.
    erewrite wait_idle_step
      by (erewrite get_print_status_reply
            by (first [exact Eb|exact Hp|exact Hbuf|exact Hc]);
          rewrite Hd; reflexivity).
    rewrite Hi. eexists. split; [reflexivity|]. cbn. auto.
  - cbn [app] in Hp.
    erewrite wait_idle_step
      by (erewrite get_print_status_reply
            by (first [exact Eb|exact Hp|exact Hbuf|exact Hc']);
          rewrite Hd'; reflexivity).
    rewrite Hi'.
    destruct (IH k (replied status_request b (busy ++ idle_fr :: rest) s))
      as (s' & Hr & Ht & Hpend & Hbuf'); [reflexivity|reflexivity|cbn in Hk; lia|].
    exists s'. split; [exact Hr|]. rewrite Ht. cbn [replied trace].
    rewrite <- app_assoc. cbn. auto.
Qed.

(** X18: a session on a device that answers each command in a read of its own:
    when the arguments are in range, every packet of the session can be
    encoded and the rows of the image are [rows], [print_image] returns
    after it has sent, in this order, the label density, the label type 1,
    the start of the print, the start of the page, the dimensions (height
    before width), all the rows with no reply awaited between them, the end
    of the page, one status request for each status that is not idle and
    one for the idle status, and the end of the print once more than it is
    refused, with a sleep after each refusal; it has then consumed exactly
    the replies of the device. *)
Theorem print_image_runs_the_session fuel image density s rows replies busy
        idle_fr refusal payload accepted y payload' n rest :
  1 <= density <= 5 ->
  0 <= height image <= 65535 ->
  0 <= width image <= 65535 ->
  _encode_image dither image = map inr rows ->
  (forall p, In (Sent p) (session_events density image rows (List.length busy) n) ->
             to_bytes p <> None) ->
  _packetbuf s = [] ->
  pending (_transport s) =
    replies ++ busy ++ [idle_fr] ++ repeat refusal n ++ accepted :: rest ->
  Forall2 (answers to_bytes from_bytes) replies [49; 51; 2; 4; 20; 228] ->
  Forall (reports_idle to_bytes from_bytes false) busy ->
  reports_idle to_bytes from_bytes true idle_fr ->
  carries to_bytes from_bytes refusal (mkPacket 244 (0 :: payload)) ->
  carries to_bytes from_bytes accepted (mkPacket 244 (y :: payload')) ->
  y <> 0 ->
  (2 <= fuel)%nat -> (List.length busy < fuel)%nat -> (n < fuel)%nat ->
  exists s',
    print_image to_bytes from_bytes dither fuel image density s = Ret tt s' /\
    trace s' = trace s ++ session_events density image rows (List.length busy) n /\
    pending (_transport s') = rest.
Proof.
  intros Hden Hh Hw Hrows Henc Hbuf Hpend Hrep Hbusy Hidle Href Hacc Hy
    Hf Hfb Hfn.
  destruct fuel as [|[|f]]; try lia.
  assert (Hsent : forall p,
            In p (map request_packet
                    [SetLabelDensity density; SetLabelType 1; StartPrint;
                     StartPagePrint; SetDimension (height image) (width image)]
                  ++ rows ++ [request_packet EndPagePrint]
                  ++ repeat status_request (S (List.length busy))) ->
            to_bytes p <> None).
  { intros p Hin. apply Henc. unfold session_events. apply in_or_app. left.
    now apply in_map. }
  assert (Hend : to_bytes end_print_request <> None).
  { apply Henc. unfold session_events, retries. apply in_or_app. right.
    apply in_or_app. right. now left. }
  inversion Hrep as [|r1 c1 l1 l1' A1 Hrep1]; subst.
  inversion Hrep1 as [|r2 c2 l2 l2' A2 Hrep2]; subst.
  inversion Hrep2 as [|r3 c3 l3 l3' A3 Hrep3]; subst.
  inversion Hrep3 as [|r4 c4 l4 l4' A4 Hrep4]; subst.
  inversion Hrep4 as [|r5 c5 l5 l5' A5 Hrep5]; subst.
  inversion Hrep5 as [|r6 c6 l6 l6' A6 Hrep6]; subst.
  inversion Hrep6; subst. clear Hrep Hrep1 Hrep2 Hrep3 Hrep4 Hrep5 Hrep6.
  cbn [app] in Hpend.
  destruct (command_step (SetLabelDensity density) f s _ _ Hden
              ltac:(apply Hsent; cbn; auto) Hpend Hbuf A1)
    as (a1 & s1 & R1 & T1 & P1 & B1).
  destruct (command_step (SetLabelType 1) f s1 _ _ ltac:(cbn; lia)
              ltac:(apply Hsent; cbn; auto) P1 B1 A2)
    as (a2 & s2 & R2 & T2 & P2 & B2).
  destruct (command_step StartPrint f s2 _ _ I
              ltac:(apply Hsent; cbn; auto) P2 B2 A3)
    as (a3 & s3 & R3 & T3 & P3 & B3).
  destruct (command_step StartPagePrint f s3 _ _ I
              ltac:(apply Hsent; cbn; auto) P3 B3 A4)
    as (a4 & s4 & R4 & T4 & P4 & B4).
  destruct (command_step (SetDimension (height image) (width image)) f s4 _ _
              (conj Hh Hw) ltac:(apply Hsent; cbn; auto 10) P4 B4 A5)
    as (a5 & s5 & R5 & T5 & P5 & B5).
  destruct (send_rows_all rows) with (s := s5) as (s6 & R6 & T6 & P6 & B6).
  { apply Forall_forall. intros p Hin. apply Hsent.
    apply in_or_app. right. apply in_or_app. now left. }
  rewrite P5 in P6. rewrite B5 in B6.
  destruct (command_step EndPagePrint f s6 _ _ I
              ltac:(apply Hsent; apply in_or_app; right; apply in_or_app;
                    right; now left) P6 B6 A6)
    as (a7 & s7 & R7 & T7 & P7 & B7).
  destruct (wait_idle_busy f idle_fr
              (repeat refusal n ++ accepted :: rest) busy) with
      (k := S (S f)) (s := s7) as (s8 & R8 & T8 & P8 & B8);
    [apply Hsent; do 3 (apply in_or_app; right); now left
    |exact Hbusy|exact Hidle|exact P7|exact B7|lia|].
  destruct (to_bytes end_print_request) as [b|] eqn:Eb; [|contradiction].
  destruct (end_print_retry_refusals to_bytes from_bytes f b refusal payload
              accepted y payload' rest n Eb Href Hacc Hy (S (S f)) s8 P8 B8
              ltac:(lia))
    as (s9 & R9 & T9 & _ & P9).
  exists s9. cbn [run_command] in *. unfold print_image.
  rewrite (bind_Ret _ _ _ _ _ R1), (bind_Ret _ _ _ _ _ R2),
    (bind_Ret _ _ _ _ _ R3), (bind_Ret _ _ _ _ _ R4),
    (bind_Ret _ _ _ _ _ R5).
  rewrite Hrows.
  rewrite (bind_Ret _ _ _ _ _ R6), (bind_Ret _ _ _ _ _ R7),
    (bind_Ret _ _ _ _ _ R8).
  split; [exact R9|]. split; [|exact P9].
  rewrite T9, T8, T7, T6, T5, T4, T3, T2, T1. unfold session_events.
  cbn [map app]. rewrite !map_app. cbn [map]. rewrite <- !app_assoc.
  reflexivity.
Qed.

End Session.

(** ** The heartbeat and the numbers of the information replies *)

Section Readings.

Variable to_bytes : NiimbotPacket -> option bytes.
Variable from_bytes : bytes -> option NiimbotPacket.

(** X13: [heartbeat] sends a packet of type 220 with payload 01 and takes
    the frame of type 221 as its reply; whatever the payload of the reply,
    of any length, the call returns, and the values it reports, in the order
    closing state, power level, paper state, RFID state, are the last bytes
    of the payload: the last two of 20 bytes, the last four of 13 and of 19
    bytes, the last one of 9 bytes, and of 10 bytes the last two followed
    by the first of these two again; for any other length nothing is
    reported. *)
Theorem heartbeat_returns_for_every_payload fuel s b fr d rest :
  to_bytes (mkPacket 220 [1]) = Some b ->
  pending (_transport s) = fr :: rest ->
  _packetbuf s = [] ->
  carries to_bytes from_bytes fr (mkPacket 221 d) ->
  exists h,
    heartbeat to_bytes from_bytes (S (S fuel)) s =
      Ret h (replied (mkPacket 220 [1]) b rest s) /\
    (len d = 20 -> reported_fields h = skipn 18 d) /\
    (len d = 13 -> reported_fields h = skipn 9 d) /\
    (len d = 19 -> reported_fields h = skipn 15 d) /\
    (len d = 10 -> reported_fields h = skipn 8 d ++ firstn 1 (skipn 8 d)) /\
    (len d = 9 -> reported_fields h = skipn 8 d) /\
    (~ In (len d) [9; 10; 13; 19; 20] -> reported_fields h = []).
Proof.
  intros Hb Hp Hbuf Hc.
  assert (Hrun : heartbeat to_bytes from_bytes (S (S fuel)) s =
                 lift (heartbeat_fields d)
                   (replied (mkPacket 220 [1]) b rest s)).
  { unfold heartbeat.
    erewrite bind_Ret
      by (apply transceive_reply with (fr := fr) (rest := rest) (b := b);
          [exact Hb|exact Hp|exact Hbuf|exact Hc|reflexivity
          |split; discriminate]).
    reflexivity. }
  rewrite Hrun. clear Hrun Hb Hp Hbuf Hc.
  destruct (Z.eq_dec (len d) 20) as [H|N20].
  { apply (length_of_len d 20) in H. elements. eexists.
    split; [reflexivity|].
    repeat split; intros H; try discriminate H; try reflexivity.
    exfalso. apply H. cbn. tauto. }
  destruct (Z.eq_dec (len d) 13) as [H|N13].
  { apply (length_of_len d 13) in H. elements. eexists.
    split; [reflexivity|].
    repeat split; intros H; try discriminate H; try reflexivity.
    exfalso. apply H. cbn. tauto. }
  destruct (Z.eq_dec (len d) 19) as [H|N19].
  { apply (length_of_len d 19) in H. elements. eexists.
    split; [reflexivity|].
    repeat split; intros H; try discriminate H; try reflexivity.
    exfalso. apply H. cbn. tauto. }
  destruct (Z.eq_dec (len d) 10) as [H|N10].
  { apply (length_of_len d 10) in H. elements. eexists.
    split; [reflexivity|].
    repeat split; intros H; try discriminate H; try reflexivity.
    exfalso. apply H. cbn. tauto. }
  destruct (Z.eq_dec (len d) 9) as [H|N9].
  { apply (length_of_len d 9) in H. elements. eexists.
    split; [reflexivity|].
    repeat split; intros H; try discriminate H; try reflexivity.
    exfalso. apply H. cbn. tauto. }
  unfold heartbeat_fields.
  apply Z.eqb_neq in N20, N13, N19, N10, N9.
  rewrite N20, N13, N19, N10, N9. eexists. split; [reflexivity|].
  apply Z.eqb_neq in N20, N13, N19, N10, N9.
  repeat split; intros H; try contradiction; reflexivity.
Qed.

End Readings.

(** X15: [_packet_to_int] reads the payload as a number in base 256, the first
    byte being the most significant: it reads back every number from the
    bytes that [int.to_bytes] writes for it, and a payload of bytes gives a
    number below 256 to the power of its length. *)
Theorem packet_to_int_reads_big_endian t :
  (forall v n d, 0 <= n -> int_to_bytes v n = inr d ->
                 _packet_to_int (mkPacket t d) = v) /\
  (forall d, Forall is_byte d ->
             0 <= _packet_to_int (mkPacket t d) < 256 ^ len d) /\
  (forall d x, _packet_to_int (mkPacket t (d ++ [x])) =
               256 * _packet_to_int (mkPacket t d) + x).
Proof.
  unfold _packet_to_int. cbn [data]. split; [|split].
  - intros v n d Hn H. now destruct (int_from_bytes_to_bytes v n d Hn H).
  - induction d as [|x d IH] using rev_ind; intros H; [cbn; lia|].
    apply Forall_app in H. destruct H as [Hd Hx].
    inversion Hx as [|? ? Hb _]; subst. unfold is_byte in Hb.
    specialize (IH Hd). unfold int_from_bytes in *.
    rewrite fold_left_app. cbn [fold_left].
    rewrite len_app. change (len [x]) with 1.
    rewrite Z.pow_add_r by (unfold len; lia). change (256 ^ 1) with 256.
    lia.
  - intros d x. unfold int_from_bytes. rewrite fold_left_app. cbn [fold_left]. lia.
Qed.

(** ** Further runs on the reference codec *)

(** Closes a goal about concrete frames: [whole_frame], [broken_frame], a
    decoding or an encoding. *)
Ltac frame_ref :=
  unfold whole_frame, broken_frame, not_error;
  repeat split;
  try (vm_compute; reflexivity); try (vm_compute; discriminate).

(** Two frames and three bytes of a third in one read. *)
Lemma recv_returns_whole_frames_witness :
  _recv ref_to_bytes ref_from_bytes 3
    (new_client (device [frame 2 [1] ++ frame 4 [1] ++ [85; 85; 2]])) =
  Ret [mkPacket 2 [1]; mkPacket 4 [1]]
    (drained (new_client (device [frame 2 [1] ++ frame 4 [1] ++ [85; 85; 2]]))
       [85; 85; 2]).
Proof.
  apply (recv_returns_whole_frames ref_to_bytes ref_from_bytes 3
           (new_client (device [frame 2 [1] ++ frame 4 [1] ++ [85; 85; 2]]))
           [frame 2 [1]; frame 4 [1]] [mkPacket 2 [1]; mkPacket 4 [1]]
           [85; 85; 2]).
  - constructor; [frame_ref|]. constructor; [frame_ref|]. constructor.
  - vm_compute. reflexivity.
  - vm_compute. discriminate.
  - cbn. lia.
Defined.

(** A reply cut after its fourth byte. *)
Lemma recv_joins_short_split_witness :
  _recv ref_to_bytes ref_from_bytes 2 split_reply =
    Ret [] {| _transport := {| pending := [[1; 1; 170; 170]]; written := [] |};
              _packetbuf := [85; 85; 2; 1]; trace := [] |} /\
  _recv ref_to_bytes ref_from_bytes 2
    {| _transport := {| pending := [[1; 1; 170; 170]]; written := [] |};
       _packetbuf := [85; 85; 2; 1]; trace := [] |} =
    Ret [mkPacket 2 [1]]
        {| _transport := {| pending := []; written := [] |};
           _packetbuf := []; trace := [] |}.
Proof.
  apply (recv_joins_short_split ref_to_bytes ref_from_bytes 0 split_reply
           [85; 85; 2; 1] [1; 1; 170; 170] (mkPacket 2 [1]) [] [] []);
    first [reflexivity | frame_ref].
Defined.

(** A frame followed by one byte of the next. *)
Lemma recv_cuts_frames_in_order_witness :
  exists frs,
    Forall2 (cut_as ref_from_bytes) frs [mkPacket 2 [1]] /\
    incoming (new_client (device [frame 2 [1] ++ [85]])) =
      List.concat frs ++ [85] /\
    len [85] <= 4 /\
    drained (new_client (device [frame 2 [1] ++ [85]])) [85] =
    drained (new_client (device [frame 2 [1] ++ [85]])) [85].
Proof.
  apply (recv_cuts_frames_in_order ref_to_bytes ref_from_bytes 2
           (new_client (device [frame 2 [1] ++ [85]])) [mkPacket 2 [1]]
           (drained (new_client (device [frame 2 [1] ++ [85]])) [85])).
  - change (incoming (new_client (device [frame 2 [1] ++ [85]])))
      with [85; 85; 2; 1; 1; 1; 170; 170; 85].
    repeat constructor; unfold is_byte; lia.
  - vm_compute. reflexivity.
Defined.

(** A whole frame followed by five bytes of a frame of eight. *)
Lemma recv_hangs_inside_frame_witness :
  _recv ref_to_bytes ref_from_bytes 1000
    (new_client (device [frame 2 [1] ++ [85; 85; 2; 1; 1]])) = OutOfFuel.
Proof.
  apply (recv_hangs_inside_frame ref_to_bytes ref_from_bytes
           (new_client (device [frame 2 [1] ++ [85; 85; 2; 1; 1]]))
           [frame 2 [1]] [mkPacket 2 [1]] [85; 85; 2; 1; 1]).
  - constructor; [frame_ref|constructor].
  - vm_compute. reflexivity.
  - frame_ref.
Defined.

(** A frame with a wrong checksum, followed by a good one. *)
Lemma recv_keeps_refused_frame_witness :
  _recv ref_to_bytes ref_from_bytes 1
    (new_client (device [[85; 85; 2; 1; 1; 99; 170; 170] ++ frame 2 [1]])) =
    Raise DecodeError
      (drained
         (new_client (device [[85; 85; 2; 1; 1; 99; 170; 170] ++ frame 2 [1]]))
         ([85; 85; 2; 1; 1; 99; 170; 170] ++ frame 2 [1])) /\
  forall fuel' s1,
    _packetbuf s1 = [85; 85; 2; 1; 1; 99; 170; 170] ++ frame 2 [1] ->
    _recv ref_to_bytes ref_from_bytes (S fuel') s1 =
      Raise DecodeError (drained s1 (incoming s1)).
Proof.
  apply (recv_keeps_refused_frame ref_to_bytes ref_from_bytes 0
           (new_client (device [[85; 85; 2; 1; 1; 99; 170; 170] ++ frame 2 [1]]))
           [85; 85; 2; 1; 1; 99; 170; 170] (frame 2 [1])).
  - vm_compute. reflexivity.
  - frame_ref.
  - vm_compute. reflexivity.
Defined.

(** The reply comes with the second poll, after an unrelated frame. *)
Lemma transceive_returns_after_k_sleeps_witness :
  exists s2,
    _transceive ref_to_bytes ref_from_bytes 3 1 [1] 1
      (new_client (device [frame 221 [9]; frame 2 [1]])) =
      Ret (Some (mkPacket 2 [1])) s2 /\
    trace s2 = [Sent (mkPacket 1 [1]); Slept].
Proof.
  eexists.
  eapply (transceive_returns_after_k_sleeps ref_to_bytes ref_from_bytes 3 1 [1]
            1 (frame 1 [1])
            (new_client (device [frame 221 [9]; frame 2 [1]])) 1 _
            [mkPacket 2 [1]] _ [] (mkPacket 2 [1]) []).
  - vm_compute. reflexivity.
  - lia.
  - eexists. eexists.
    split; [lazy; reflexivity|]. split; [|lazy; reflexivity].
    constructor; [|constructor]. unfold unrelated. cbn. lia.
  - lazy. reflexivity.
  - reflexivity.
  - constructor; [frame_ref|constructor].
  - reflexivity.
  - constructor.
Defined.

(** The replies to the start of the print and to the start of the page
    arrive together. *)
Lemma transceive_drops_other_frames_witness :
  exists s1 s2,
    _transceive ref_to_bytes ref_from_bytes 3 1 [1] 1 two_replies =
      Ret (Some (mkPacket 2 [1])) s1 /\
    _transceive ref_to_bytes ref_from_bytes 3 3 [1] 1 s1 = Ret None s2.
Proof.
  apply (transceive_drops_other_frames ref_to_bytes ref_from_bytes 0
           two_replies [] [] (frame 2 [1]) (mkPacket 2 [1])
           (frame 4 [1]) (mkPacket 4 [1])
           1 [1] 1 (frame 1 [1]) 3 [1] 1 (frame 3 [1]));
    first [reflexivity | vm_compute; discriminate | carries_ref | frame_ref].
Defined.

(** The battery level asked of a device that stays silent. *)
Lemma get_info_returns_none_on_timeout_witness :
  exists s',
    get_info ref_to_bytes ref_from_bytes 1 10 (new_client (device [])) =
    Ret None (after TimedOut s').
Proof.
  eexists.
  eapply (get_info_returns_none_on_timeout ref_to_bytes ref_from_bytes 1 10
            (frame 64 [10]) (new_client (device []))).
  - lia.
  - vm_compute. reflexivity.
  - do 6 (eexists; eexists;
          split; [lazy; reflexivity | split; [constructor|]]).
    lazy. reflexivity.
Defined.

(** A label density of 6, a label type of 0, a height of 65536 and an info
    key of 256. *)
Lemma bad_arguments_send_nothing_witness :
  set_label_density ref_to_bytes ref_from_bytes 3 6
    (new_client (answering 1 1 1)) =
    Raise AssertionError (new_client (answering 1 1 1)) /\
  set_label_type ref_to_bytes ref_from_bytes 3 0
    (new_client (answering 1 1 1)) =
    Raise AssertionError (new_client (answering 1 1 1)) /\
  set_dimension ref_to_bytes ref_from_bytes 3 65536 8
    (new_client (answering 1 1 1)) =
    Raise StructError (new_client (answering 1 1 1)) /\
  get_info ref_to_bytes ref_from_bytes 3 256
    (new_client (answering 1 1 1)) =
    Raise ValueError (new_client (answering 1 1 1)).
Proof.
  destruct (bad_arguments_send_nothing ref_to_bytes ref_from_bytes 3
              (new_client (answering 1 1 1))) as (H1 & H2 & H3 & H4).
  split; [apply H1; lia|]. split; [apply H2; lia|].
  split; [apply H3; lia|apply H4; lia].
Defined.

(** The quantity set to two, on a device that accepts it. *)
Lemma command_returns_flag_of_reply_witness :
  run_command ref_to_bytes ref_from_bytes (SetQuantity 2) 2
    (new_client (device [frame 22 [1]])) =
  Ret true (replied (mkPacket 21 [0; 2]) (frame 21 [0; 2]) []
              (new_client (device [frame 22 [1]]))).
Proof.
  apply (command_returns_flag_of_reply ref_to_bytes ref_from_bytes
           (SetQuantity 2) 0 (new_client (device [frame 22 [1]]))
           (frame 21 [0; 2]) (frame 22 [1]) [1] []);
    first [reflexivity | cbn; lia | carries_ref].
Defined.

(** The status of an idle printer. *)
Lemma get_print_status_decodes_or_raises_witness :
  exists st,
    get_print_status ref_to_bytes ref_from_bytes 2
      (new_client (device [frame 179 idle_status])) =
      Ret st (replied (mkPacket 163 [1]) (frame 163 [1]) []
                (new_client (device [frame 179 idle_status]))) /\
    idle st = true /\ progress1 st = 0 /\ progress2 st = 0 /\
    error_code st = 0 /\ error st = false /\
    open_paper_compartment st = false.
Proof.
  destruct (get_print_status_decodes_or_raises ref_to_bytes ref_from_bytes 0
              (new_client (device [frame 179 idle_status]))
              (frame 163 [1]) (frame 179 idle_status) idle_status [])
    as (_ & _ & H);
    [reflexivity | reflexivity | reflexivity | carries_ref |].
  apply H; [reflexivity | cbn; lia].
Defined.

(** A heartbeat of ten bytes. *)
Lemma heartbeat_fields_by_length_witness :
  heartbeat_fields [0; 1; 2; 3; 4; 5; 6; 7; 8; 9] =
  inr {| closingstate := Some 8; powerlevel := Some 9;
         paperstate := None; rfidreadstate := Some 8 |}.
Proof.
  destruct (heartbeat_fields_by_length [0; 1; 2; 3; 4; 5; 6; 7; 8; 9])
    as (_ & _ & _ & H & _).
  apply H. reflexivity.
Defined.

(** A heartbeat whose reply has thirteen bytes. *)
Lemma heartbeat_returns_for_every_payload_witness :
  exists h,
    heartbeat ref_to_bytes ref_from_bytes 2
      (new_client (device [frame 221 (heartbeat_payload 13 [1; 90; 2; 3])])) =
      Ret h
        (replied (mkPacket 220 [1]) (frame 220 [1]) []
           (new_client
              (device [frame 221 (heartbeat_payload 13 [1; 90; 2; 3])]))) /\
    reported_fields h = [1; 90; 2; 3].
Proof.
  destruct (heartbeat_returns_for_every_payload ref_to_bytes ref_from_bytes 0
              (new_client
                 (device [frame 221 (heartbeat_payload 13 [1; 90; 2; 3])]))
              (frame 220 [1])
              (frame 221 (heartbeat_payload 13 [1; 90; 2; 3]))
              (heartbeat_payload 13 [1; 90; 2; 3]) [])
    as (h & Hrun & _ & H13 & _);
    [reflexivity | reflexivity | reflexivity | carries_ref |].
  exists h. split; [exact Hrun|]. apply H13. reflexivity.
Defined.

(** A tag with the barcode AB and the serial number C. *)
Lemma get_rfid_reads_tag_witness :
  get_rfid ref_to_bytes ref_from_bytes ascii_decode 2
    (new_client
       (device [frame 27 (rfid_payload [1; 2; 3; 4; 5; 6; 7; 8] [65; 66] [67]
                            300 5 1)])) =
  Ret (Some {| uuid := [1; 2; 3; 4; 5; 6; 7; 8]; barcode := "AB";
               serial := "C"; used_len := 5; total_len := 300; type_ := 1 |})
    (replied (mkPacket 26 [1]) (frame 26 [1]) []
       (new_client
          (device [frame 27 (rfid_payload [1; 2; 3; 4; 5; 6; 7; 8] [65; 66]
                               [67] 300 5 1)]))).
Proof.
  destruct (get_rfid_reads_tag ref_to_bytes ref_from_bytes ascii_decode 0
              (new_client
                 (device [frame 27 (rfid_payload [1; 2; 3; 4; 5; 6; 7; 8]
                                      [65; 66] [67] 300 5 1)]))
              (frame 26 [1])
              (frame 27 (rfid_payload [1; 2; 3; 4; 5; 6; 7; 8] [65; 66] [67]
                           300 5 1))
              (rfid_payload [1; 2; 3; 4; 5; 6; 7; 8] [65; 66] [67] 300 5 1) [])
    as (H & _);
    [reflexivity | reflexivity | reflexivity | carries_ref |].
  apply (H [1; 2; 3; 4; 5; 6; 7; 8] [65; 66] [67] 300 5 1 "AB"%string
           "C"%string);
    first [reflexivity | cbn; lia | lia].
Defined.

(** The number 258 on two bytes. *)
Lemma packet_to_int_reads_big_endian_witness :
  _packet_to_int (mkPacket 72 [1; 2]) = 258.
Proof.
  destruct (packet_to_int_reads_big_endian 72) as (H & _).
  apply (H 258 2 [1; 2]); [lia|reflexivity].
Defined.

(** The row of the white image. *)
Lemma encode_row_packs_pixels_witness :
  exists line,
    _encode_row white_1x8 0 =
      inr (mkPacket 133 ([0 / 256; 0 mod 256; 0; 0; 0; 1] ++ line)) /\
    len line = ceil_div8 (width white_1x8) /\
    (forall x, 0 <= x < width white_1x8 ->
       Z.testbit (int_from_bytes line) (width white_1x8 - 1 - x) =
       ink (getpixel white_1x8 x 0)) /\
    (forall i, width white_1x8 <= i ->
       Z.testbit (int_from_bytes line) i = false).
Proof.
  apply (encode_row_packs_pixels white_1x8 0); [reflexivity|lia].
Defined.

(** An image of 70000 rows: 65536 packets, then the error of row 65536. *)
Lemma encode_image_yields_rows_in_order_witness :
  len (_encode_image threshold tall) = 65537 /\
  nth (Z.to_nat 65536) (_encode_image threshold tall) (inl ValueError) =
    inl StructError.
Proof.
  destruct (encode_image_yields_rows_in_order threshold tall)
    as (Hlen & _ & Hstop); [reflexivity | cbn; lia |].
  split; [exact Hlen|]. apply Hstop. reflexivity.
Defined.

(** A session with one busy status and one refusal of the end of the
    print. *)
Lemma print_image_runs_the_session_witness :
  exists s',
    print_image ref_to_bytes ref_from_bytes threshold 3 white_1x8 3
      (new_client printing) = Ret tt s' /\
    trace s' =
      trace (new_client printing) ++
      session_events 3 white_1x8 [mkPacket 133 [0; 0; 0; 0; 0; 1; 0]] 1 1 /\
    pending (_transport s') = [].
Proof.
  apply (print_image_runs_the_session ref_to_bytes ref_from_bytes threshold 3
           white_1x8 3 (new_client printing)
           [mkPacket 133 [0; 0; 0; 0; 0; 1; 0]]
           [frame 49 [1]; frame 51 [1]; frame 2 [1]; frame 4 [1];
            frame 20 [1]; frame 228 [1]]
           [frame 179 busy_status] (frame 179 idle_status)
           (frame 244 [0]) [] (frame 244 [1]) 1 [] 1%nat []).
  - lia.
  - cbn. lia.
  - cbn. lia.
  - vm_compute. reflexivity.
  - intros p Hin. vm_compute in Hin.
    repeat (destruct Hin as [Hin|Hin];
            [inversion Hin; subst; vm_compute; discriminate|]).
    destruct Hin.
  - reflexivity.
  - reflexivity.
  - repeat (constructor; [eexists; eexists; carries_ref|]). constructor.
  - constructor; [|constructor].
    exists busy_status. eexists. split; [carries_ref|].
    split; [vm_compute; reflexivity|reflexivity].
  - exists idle_status. eexists. split; [carries_ref|].
    split; [vm_compute; reflexivity|reflexivity].
  - carries_ref.
  - carries_ref.
  - discriminate.
  - lia.
  - cbn. lia.
  - lia.
Defined.

(** A port named on the command line, the model left out. *)
Lemma detect_named_port_auto_model_raises_witness :
  SerialTransport._detect_port_and_model ascii_lower example_models [port_b1]
    (SerialTransport.mkSelf "auto" "/dev/ttyACM0" None) =
  inl SerialTransport.NameError.
Proof.
  apply (detect_named_port_auto_model_raises ascii_lower example_models
           [port_b1] (SerialTransport.mkSelf "auto" "/dev/ttyACM0" None)).
  - cbn. discriminate.
  - reflexivity.
Defined.

(** One printer beside a port that is not a USB port. *)
Lemma detect_chooses_the_supported_usb_port_witness :
  exists p sn,
    let model :=
      ascii_lower (SerialTransport.upto (SerialTransport.find "-" sn) sn) in
    In p [port_builtin; port_b1] /\
    SerialTransport.contains "USB" (SerialTransport.hwid p) = true /\
    SerialTransport.serial_number p = Some sn /\
    0 <= SerialTransport.find "-" sn /\
    SerialTransport.supported example_models model = true /\
    List.length
      (flat_map (detected_on ascii_lower example_models)
         [port_builtin; port_b1]) = 1%nat /\
    SerialTransport._port
      (SerialTransport.mkSelf "b1" "/dev/ttyACM0" (Some "B1-G123456789"%string)) =
      SerialTransport.device p /\
    SerialTransport._serial_number
      (SerialTransport.mkSelf "b1" "/dev/ttyACM0" (Some "B1-G123456789"%string)) =
      Some sn /\
    SerialTransport._model
      (SerialTransport.mkSelf "b1" "/dev/ttyACM0" (Some "B1-G123456789"%string)) =
      (if String.eqb
            (SerialTransport._model (SerialTransport.mkSelf "auto" "auto" None))
            "auto"
       then model
       else SerialTransport._model (SerialTransport.mkSelf "auto" "auto" None)) /\
    false =
      negb (String.eqb
              (SerialTransport._model (SerialTransport.mkSelf "auto" "auto" None))
              "auto") &&
      negb (String.eqb
              (SerialTransport._model (SerialTransport.mkSelf "auto" "auto" None))
              model).
Proof.
  apply (detect_chooses_the_supported_usb_port ascii_lower example_models
           [port_builtin; port_b1] (SerialTransport.mkSelf "auto" "auto" None)
           (SerialTransport.mkSelf "b1" "/dev/ttyACM0" (Some "B1-G123456789"%string))
           false).
  - reflexivity.
  - vm_compute. reflexivity.
Defined.

(** Two printers, one of which has the model asked for. *)
Lemma detect_refuses_several_printers_witness :
  SerialTransport._detect_port_and_model ascii_lower example_models
    [port_b1; port_d11] (SerialTransport.mkSelf "b1" "auto" None) =
  inl (SerialTransport.RuntimeError
         (SerialTransport.MultipleSupportedDevices
            (flat_map (detected_on ascii_lower example_models)
               [port_b1; port_d11]))).
Proof.
  apply (detect_refuses_several_printers ascii_lower example_models
           [port_b1; port_d11] (SerialTransport.mkSelf "b1" "auto" None)).
  - reflexivity.
  - vm_compute. reflexivity.
  - vm_compute. lia.
Defined.

(** A printer beside a USB adapter that reports no serial number. *)
Lemma detect_raises_on_usb_port_without_serial_witness :
  SerialTransport._detect_port_and_model ascii_lower example_models
    [port_b1; port_anonymous] (SerialTransport.mkSelf "auto" "auto" None) =
  inl SerialTransport.AttributeError.
Proof.
  apply (detect_raises_on_usb_port_without_serial ascii_lower example_models
           [port_b1; port_anonymous]
           (SerialTransport.mkSelf "auto" "auto" None) port_anonymous).
  - reflexivity.
  - right. left. reflexivity.
  - vm_compute. reflexivity.
  - reflexivity.
Defined.
